(** * The calendar pages of alpha-laser

    A shallow embedding of the two page scripts
    [alpha/static/js/pages/calendar_django.init.js] (four calendars on
    consecutive days) and [alpha/static/js/pages/calendar_rooms.init.js]
    (one calendar per room), and the properties of the widget pool, the
    remote event source, the mutation relay, the detail modal and the
    refresh controls that follow from the code.

    What is modelled, and how.
    - Each script is one [DOMContentLoaded] listener. [init] runs it;
      [step] runs one of the callbacks it registered (with FullCalendar,
      on the form and the buttons, with [setInterval]) or settles one
      pending [fetch]. A page state holds the script's variables, the
      parts of the DOM and of the FullCalendar instances that the
      callbacks read or write, the pending promise chains, and the trace
      of the calls made into the browser and the libraries.
    - FullCalendar, Bootstrap and the browser are not part of the
      repository. Their calls are recorded as effects, and what the
      properties need of their behaviour is written where it is used:
      [gotoDate] sets the date a widget displays, [revert] puts an event
      back where it was, the interval timer fires once per period, and
      none of these calls throws.
    - Elements that the scripts dereference without a test (the modal and
      its fields, on the day-offset page the form and the delete button)
      are taken to exist; those behind a test or [?.] may be absent.
    - [calendar_django.init.js] also carries, after a separator line, an
      earlier variant of the script that keeps its events in the browser
      and never calls the server. It is not modelled.

    Layout: the JavaScript values the scripts handle (strings as UTF-16
    code units, completions, parsed JSON), [getCookie], the state and the
    handlers of each page, the vocabulary of the properties, then the
    properties themselves. *)

From Stdlib Require Import String Ascii ZArith NArith List Lia Bool PrimFloat.
From stdpp Require Import base option list gmap.
Import ListNotations.

(** ** JavaScript strings

    A JavaScript string is a sequence of 16-bit code units; [length],
    [substring], [split] and [trim] all count code units. *)

Abbreviation jsstring := (list N).

Module JS.

(** *** Completions: a value, or a thrown exception *)

Inductive js_error := URIError | TypeError.

Inductive completion (A : Type) : Type :=
| Normal (a : A)
| Throw (e : js_error).
Arguments Normal {A} a.
Arguments Throw {A} e.

#[export] Instance completion_ret : MRet completion := fun A a => Normal a.
#[export] Instance completion_bind : MBind completion := fun A B f c =>
  match c with
  | Normal a => f a
  | Throw e => Throw e
  end.
#[export] Instance completion_fmap : FMap completion := fun A B f c =>
  match c with
  | Normal a => Normal (f a)
  | Throw e => Throw e
  end.

(** *** Literals

    The scripts' string literals are written here as Rocq strings, which
    hold UTF-8 bytes; [js] turns them into code units. *)

Definition leading_ones (b : N) : nat :=
  if (b <? 0x80)%N then 0
  else if (b <? 0xC0)%N then 1
  else if (b <? 0xE0)%N then 2
  else if (b <? 0xF0)%N then 3
  else if (b <? 0xF8)%N then 4
  else 5.

Definition is_continuation (b : N) : bool := (0x80 <=? b)%N && (b <=? 0xBF)%N.

Definition low_bits (k : N) (b : N) : N := N.land b (N.ones k).

(** The code point a list of octets encodes, when the list is the UTF-8
    encoding of one Unicode code point: continuation bytes are
    [10xxxxxx], the encoding is the shortest one, and the value is
    neither a surrogate nor above U+10FFFF. *)
Definition utf8_code_point (octets : list N) : option N :=
  match octets with
  | [b0; b1] =>
      let v := N.lor (N.shiftl (low_bits 5 b0) 6) (low_bits 6 b1) in
      if is_continuation b1 && (0x80 <=? v)%N then Some v else None
  | [b0; b1; b2] =>
      let v := N.lor (N.shiftl (low_bits 4 b0) 12)
                 (N.lor (N.shiftl (low_bits 6 b1) 6) (low_bits 6 b2)) in
      if is_continuation b1 && is_continuation b2 && (0x800 <=? v)%N
         && negb ((0xD800 <=? v)%N && (v <=? 0xDFFF)%N)
      then Some v else None
  | [b0; b1; b2; b3] =>
      let v := N.lor (N.shiftl (low_bits 3 b0) 18)
                 (N.lor (N.shiftl (low_bits 6 b1) 12)
                    (N.lor (N.shiftl (low_bits 6 b2) 6) (low_bits 6 b3))) in
      if is_continuation b1 && is_continuation b2 && is_continuation b3
         && (0x10000 <=? v)%N && (v <=? 0x10FFFF)%N
      then Some v else None
  | _ => None
  end.

Definition UTF16EncodeCodePoint (v : N) : jsstring :=
  if (v <=? 0xFFFF)%N then [v]
  else [(N.div (v - 0x10000) 0x400 + 0xD800)%N;
        (N.modulo (v - 0x10000) 0x400 + 0xDC00)%N].

Definition encode_or_replace (octets : list N) : jsstring :=
  match utf8_code_point octets with
  | Some v => UTF16EncodeCodePoint v
  | None => [0xFFFD%N]
  end.

Fixpoint utf16_of_utf8 (bs : list N) : jsstring :=
  match bs with
  | [] => []
  | b0 :: rest =>
      match leading_ones b0 with
      | 2 =>
          match rest with
          | b1 :: r => encode_or_replace [b0; b1] ++ utf16_of_utf8 r
          | _ => [0xFFFD%N]
          end
      | 3 =>
          match rest with
          | b1 :: b2 :: r => encode_or_replace [b0; b1; b2] ++ utf16_of_utf8 r
          | _ => [0xFFFD%N]
          end
      | 4 =>
          match rest with
          | b1 :: b2 :: b3 :: r =>
              encode_or_replace [b0; b1; b2; b3] ++ utf16_of_utf8 r
          | _ => [0xFFFD%N]
          end
      | _ => b0 :: utf16_of_utf8 rest
      end
  end.

Definition js (s : string) : jsstring :=
  utf16_of_utf8 (map N_of_ascii (list_ascii_of_string s)).
Arguments js s : simpl never.
#[global] Opaque js.

(** *** String.prototype.substring, split and trim *)

(** [s.substring(a, b)] for non-negative integer arguments: both are
    clamped to the length and swapped when out of order. *)
Definition substring (s : jsstring) (a b : nat) : jsstring :=
  let a' := Nat.min a (length s) in
  let b' := Nat.min b (length s) in
  let lo := Nat.min a' b' in
  let hi := Nat.max a' b' in
  take (hi - lo) (drop lo s).

(** [s.substring(a)]: the end defaults to the length. *)
Definition substring_from (s : jsstring) (a : nat) : jsstring :=
  substring s a (length s).

(** [s.split(sep)] for a separator of one code unit. *)
Fixpoint split (sep : N) (s : jsstring) : list jsstring :=
  match s with
  | [] => [[]]
  | c :: rest =>
      if (c =? sep)%N then [] :: split sep rest
      else match split sep rest with
           | cur :: more => (c :: cur) :: more
           | [] => [[c]]
           end
  end.

(** WhiteSpace and LineTerminator code points of ECMAScript, the ones
    [trim] strips. *)
Definition is_white_space (c : N) : bool :=
  (c =? 0x09)%N || (c =? 0x0A)%N || (c =? 0x0B)%N || (c =? 0x0C)%N
  || (c =? 0x0D)%N || (c =? 0x20)%N || (c =? 0xA0)%N || (c =? 0x1680)%N
  || ((0x2000 <=? c)%N && (c <=? 0x200A)%N)
  || (c =? 0x2028)%N || (c =? 0x2029)%N || (c =? 0x202F)%N
  || (c =? 0x205F)%N || (c =? 0x3000)%N || (c =? 0xFEFF)%N.

Fixpoint trim_start (s : jsstring) : jsstring :=
  match s with
  | c :: rest => if is_white_space c then trim_start rest else s
  | [] => []
  end.

Definition trim (s : jsstring) : jsstring :=
  rev (trim_start (rev (trim_start s))).

(** *** decodeURIComponent

    The engine's [Decode] operation with an empty preserved set, as
    ECMAScript defines it (the function is a built-in the scripts call).
    A [%] must be followed by two hexadecimal digits; an octet with
    leading one bits starts a UTF-8 sequence whose other octets must be
    escapes too; anything else throws [URIError]. *)

Definition hex_digit (c : N) : option N :=
  if (0x30 <=? c)%N && (c <=? 0x39)%N then Some (c - 0x30)%N
  else if (0x41 <=? c)%N && (c <=? 0x46)%N then Some (c - 0x41 + 10)%N
  else if (0x61 <=? c)%N && (c <=? 0x66)%N then Some (c - 0x61 + 10)%N
  else None.

(** The octet written by the first two code units of [s]. *)
Definition ParseHexOctet (s : jsstring) : option N :=
  match s with
  | h :: l :: _ =>
      match hex_digit h, hex_digit l with
      | Some a, Some b => Some (16 * a + b)%N
      | _, _ => None
      end
  | _ => None
  end.

(** The [j] escapes that continue a UTF-8 sequence: their octets and what
    follows them. *)
Fixpoint continuation_octets (j : nat) (s : jsstring) : option (list N * jsstring) :=
  match j with
  | O => Some ([], s)
  | S j' =>
      match s with
      | c :: h :: l :: rest =>
          if (c =? 0x25)%N then
            match ParseHexOctet [h; l], continuation_octets j' rest with
            | Some b, Some (os, r) => Some (b :: os, r)
            | _, _ => None
            end
          else None
      | _ => None
      end
  end.

(** What one escape decodes to, given the code units after its [%], and
    how many of those code units it takes up. *)
Definition decode_escape (rest : jsstring) : option (jsstring * nat) :=
  match ParseHexOctet rest with
  | None => None
  | Some b =>
      match leading_ones b with
      | 0 => Some ([b], 2)
      | 1 => None
      | 5 => None
      | n =>
          match continuation_octets (n - 1) (drop 2 rest) with
          | None => None
          | Some (os, _) =>
              match utf8_code_point (b :: os) with
              | None => None
              | Some v => Some (UTF16EncodeCodePoint v, 2 + 3 * (n - 1))
              end
          end
      end
  end.

(** The loop over the code units; [skip] counts the code units an escape
    already consumed (the index jumps of the engine's loop). *)
Fixpoint Decode_loop (skip : nat) (s : jsstring) : completion jsstring :=
  match s with
  | [] => Normal []
  | c :: rest =>
      match skip with
      | S k => Decode_loop k rest
      | O =>
          if (c =? 0x25)%N then
            match decode_escape rest with
            | None => Throw URIError
            | Some (out, used) => (out ++.) <$> Decode_loop used rest
            end
          else (c ::.) <$> Decode_loop 0 rest
      end
  end.

Definition decodeURIComponent (s : jsstring) : completion jsstring :=
  Decode_loop 0 s.

End JS.
Import JS.

(** ** getCookie (the same function in both scripts) *)

(** The loop of [getCookie] from index [i] on: [cookies] is what is left
    of the array. The result is [cookieValue]: [None] is [null]. *)
Fixpoint getCookie_loop (name : jsstring) (cookies : list jsstring)
  : completion (option jsstring) :=
  match cookies with
  | [] => Normal None
  | entry :: rest =>
      let cookie := trim entry in
      if bool_decide (substring cookie 0 (length name + 1) = name ++ js "=")
      then Some <$> decodeURIComponent (substring_from cookie (length name + 1))
      else getCookie_loop name rest
  end.

Definition getCookie (document_cookie : jsstring) (name : jsstring)
  : completion (option jsstring) :=
  if bool_decide (document_cookie <> [])
  then getCookie_loop name (split 0x3B document_cookie)
  else Normal None.

(** ** Values shared by the two pages *)

Module Page.

(** *** Parsed JSON, property reads and truthiness *)

(** What [response.json()] resolves to. Numbers are the doubles the
    engine parses them to. *)
#[local] Set Warnings "-register-all".
Inductive json :=
| JNull
| JBool (b : bool)
| JNum (f : float)
| JStr (s : jsstring)
| JArr (items : list json)
| JObj (props : list (jsstring * json)).

(** The result of a property read is a value or [undefined] ([None]). *)
Abbreviation jsval := (option json).

Fixpoint own_property (key : jsstring) (props : list (jsstring * json)) : jsval :=
  match props with
  | [] => None
  | (k, v) :: rest => if bool_decide (k = key) then Some v else own_property key rest
  end.

(** [data.key] for a parsed value [data] and one of the keys the scripts
    read ([success], [message]), neither of which any prototype defines:
    reading from [null] throws, an object gives its own property, every
    other value gives [undefined]. *)
Definition get_prop (data : json) (key : jsstring) : completion jsval :=
  match data with
  | JNull => Throw TypeError
  | JObj props => Normal (own_property key props)
  | _ => Normal None
  end.

Definition truthy (v : jsval) : bool :=
  match v with
  | None => false
  | Some JNull => false
  | Some (JBool b) => b
  | Some (JNum f) => negb (PrimFloat.eqb f 0%float || PrimFloat.is_nan f)
  | Some (JStr s) => negb (bool_decide (s = []))
  | Some (JArr _) => true
  | Some (JObj _) => true
  end.

(** *** Dates

    The scripts use [Date] objects in two ways. Dates that FullCalendar
    hands over with an event or a click are only ever serialised, so they
    are modelled by what [toISOString()] returns. Dates used to navigate
    are only shifted by whole days in local time, so they are modelled by
    the local calendar day and the time within it. *)

Record EventDate := { toISOString : jsstring }.

Record LocalDate := { day : Z; ms_of_day : Z }.

(** [d.setDate(d.getDate() + n)]. *)
Definition add_days (d : LocalDate) (n : Z) : LocalDate :=
  {| day := day d + n; ms_of_day := ms_of_day d |}.

(** *** FullCalendar's event objects and interaction arguments *)

Record EventApi := {
  ev_id : jsstring;
  ev_title : jsstring;
  ev_start : EventDate;
  ev_end : option EventDate;
  ev_notes : option jsstring
}.

(** The argument of [eventDrop] and [eventResize]: the event as it is
    now displayed, the event as it was, and [revert]. *)
Record ChangeInfo := {
  event : EventApi;
  oldEvent : EventApi
}.

Abbreviation span := (EventDate * option EventDate)%type.

Definition span_of (e : EventApi) : span := (ev_start e, ev_end e).

(** *** Requests *)

Inductive http_method := GET | POST | DELETE.

(** The arguments of one call of [fetch]: the URL and, when an options
    object is given, the method, the headers (a [null] value is [None])
    and the object handed to [JSON.stringify] (a [null] field is [None]). *)
Record request := {
  req_url : jsstring;
  req_method : http_method;
  req_headers : list (jsstring * option jsstring);
  req_body : option (list (jsstring * option jsstring))
}.

(** How the promise chain [fetch(..).then(response => response.json())]
    settles: with the parsed body, or rejected (the request failed, or the
    body was not JSON). *)
Inductive rejection := NetworkFailure | BodyNotJson | Thrown (e : js_error).

Inductive outcome :=
| Parsed (data : json)
| Rejected (err : rejection).

(** *** Effects on the world outside the script *)

(** The argument of an [alert]: a literal, or a literal followed by a
    value (string concatenation; the engine converts the value). *)
Inductive message :=
| Text (s : jsstring)
| TextPlus (s : jsstring) (v : jsval).

Inductive effect :=
| Fetch (r : request)
| Alert (m : message)
| Confirm (m : jsstring)
| ConsoleLog (m : jsstring)
| ConsoleError (m : jsstring) (err : rejection)
| Render (cal : nat)
| Refetch (cal : nat)
| GotoDate (cal : nat) (d : LocalDate)
| Revert (cal : nat) (info : ChangeInfo)
| SuccessCallback (cal : nat) (data : json)
| FailureCallback (cal : nat) (err : rejection)
| ModalShow
| ModalHide
| FormReset
| Navigate (url : jsstring)
| Uncaught (e : js_error).

(** *** Plain objects used as maps

    [calendars = {}] with [calendars[key] = value]: the properties in
    creation order, an assignment to an existing key replacing its value
    in place. *)

Section Obj.
Context {A : Type}.

Fixpoint obj_get (key : jsstring) (o : list (jsstring * A)) : option A :=
  match o with
  | [] => None
  | (k, v) :: rest => if bool_decide (k = key) then Some v else obj_get key rest
  end.

Fixpoint obj_set (key : jsstring) (v : A) (o : list (jsstring * A))
  : list (jsstring * A) :=
  match o with
  | [] => [(key, v)]
  | (k, w) :: rest =>
      if bool_decide (k = key) then (k, v) :: rest
      else (k, w) :: obj_set key v rest
  end.

(** Insertion of a number-keyed property into the ascending run. *)
Fixpoint insert_by_index (n : N) (v : A) (l : list (N * A)) : list (N * A) :=
  match l with
  | [] => [(n, v)]
  | (m, w) :: rest =>
      if (n <? m)%N then (n, v) :: l else (m, w) :: insert_by_index n v rest
  end.
End Obj.

(** The value of a decimal numeral without sign. *)
Fixpoint decimal_value (acc : N) (s : jsstring) : option N :=
  match s with
  | [] => Some acc
  | c :: rest =>
      if (0x30 <=? c)%N && (c <=? 0x39)%N
      then decimal_value (10 * acc + (c - 0x30))%N rest
      else None
  end.

(** A property key is an array index when it is the canonical numeral of
    an integer from 0 to 2^32 - 2. *)
Definition array_index (key : jsstring) : option N :=
  match key with
  | [] => None
  | c :: rest =>
      if (c =? 0x30)%N && negb (bool_decide (rest = [])) then None
      else match decimal_value 0 key with
           | Some n => if (n <? 4294967295)%N then Some n else None
           | None => None
           end
  end.

Section ObjValues.
Context {A : Type}.

Fixpoint index_properties (o : list (jsstring * A)) : list (N * A) :=
  match o with
  | [] => []
  | (k, v) :: rest =>
      match array_index k with
      | Some n => insert_by_index n v (index_properties rest)
      | None => index_properties rest
      end
  end.

Fixpoint string_properties (o : list (jsstring * A)) : list A :=
  match o with
  | [] => []
  | (k, v) :: rest =>
      match array_index k with
      | Some _ => string_properties rest
      | None => v :: string_properties rest
      end
  end.

(** [Object.values(o)]: array-index keys first, in ascending numeric
    order, then the other keys in creation order. *)
Definition Object_values (o : list (jsstring * A)) : list A :=
  map snd (index_properties o) ++ string_properties o.
End ObjValues.

End Page.
Import Page.

(** ** calendar_django.init.js: four calendars on consecutive days *)

Module Django.

Record config := {
  id : jsstring;
  elementId : jsstring;
  title : jsstring;
  dateOffset : Z
}.

Definition calendarConfigs : list config :=
  [ {| id := js "calendar1"; elementId := js "calendar1";
       title := js "Today"; dateOffset := 0 |};
    {| id := js "calendar2"; elementId := js "calendar2";
       title := js "Tomorrow"; dateOffset := 1 |};
    {| id := js "calendar3"; elementId := js "calendar3";
       title := js "Day After Tomorrow"; dateOffset := 2 |};
    {| id := js "calendar4"; elementId := js "calendar4";
       title := js "In 3 Days"; dateOffset := 3 |} ].

(** A [FullCalendar.Calendar] instance: the configuration its callbacks
    close over and the date it displays. Instances live in a store and
    are referred to by their position in it. *)
Record widget := {
  w_config : config;
  w_date : LocalDate
}.

(** The elements of the modal the handlers read and write. The scripts
    dereference them without a test, so the page is taken to have them. *)
Record modal_dom := {
  modal_title : jsstring;
  event_title : jsstring;
  event_notes : jsstring;
  eventid : jsstring;
  edit_btn_hidden : bool;
  save_btn_hidden : bool;
  delete_btn_hidden : bool;
  modal_open : bool
}.

(** What the script finds when it starts: the cookie string, the ids for
    which [document.getElementById] finds an element, whether
    [.card-body] matches, the modal as the template wrote it, and the
    current date. *)
Record document := {
  cookie : jsstring;
  element_ids : list jsstring;
  card_body : bool;
  template : modal_dom;
  today : LocalDate
}.

(** What a pending [fetch] will do when its promise chain settles. *)
Inductive continuation :=
| EventsFetched (cal : nat)
| DropAnswered (cal : nat) (info : ChangeInfo)
| ResizeAnswered (cal : nat) (info : ChangeInfo)
| EditAnswered
| DeleteAnswered.

(** The page while it runs.
    - [csrftoken], [calendars], [currentEvent], [currentCalendarId]: the
      script's variables; [clickedInfo] is [window.clickedInfo].
    - [widgets]: the store of calendar instances; [calendars] maps a
      configuration id to a position in it.
    - [dom]: the modal's elements; [form_defaults]: what [reset()] puts
      back; [buttons]: whether the sync and refresh buttons are in the
      page.
    - [display]: where each widget shows an event (its start and end),
      for the events a drag or a resize has touched.
    - [pending]: the [fetch] calls whose promise chain has not settled.
    - [now], [next_tick]: the clock in milliseconds since start-up and
      the time the interval timer is next due.
    - [trace]: every call made so far, oldest first. *)
Record state := {
  csrftoken : option jsstring;
  calendars : list (jsstring * nat);
  widgets : list widget;
  currentEvent : option EventApi;
  currentCalendarId : option jsstring;
  clickedInfo : option (EventDate * jsstring);
  dom : modal_dom;
  form_defaults : modal_dom;
  buttons : bool;
  display : gmap (nat * jsstring) span;
  pending : list (request * continuation);
  now : Z;
  next_tick : option Z;
  trace : list effect
}.

Definition set_calendars v st :=
  {| csrftoken := csrftoken st; calendars := v; widgets := widgets st;
     currentEvent := currentEvent st; currentCalendarId := currentCalendarId st;
     clickedInfo := clickedInfo st; dom := dom st; form_defaults := form_defaults st;
     buttons := buttons st; display := display st; pending := pending st;
     now := now st; next_tick := next_tick st; trace := trace st |}.
Definition set_widgets v st :=
  {| csrftoken := csrftoken st; calendars := calendars st; widgets := v;
     currentEvent := currentEvent st; currentCalendarId := currentCalendarId st;
     clickedInfo := clickedInfo st; dom := dom st; form_defaults := form_defaults st;
     buttons := buttons st; display := display st; pending := pending st;
     now := now st; next_tick := next_tick st; trace := trace st |}.
Definition set_currentEvent v st :=
  {| csrftoken := csrftoken st; calendars := calendars st; widgets := widgets st;
     currentEvent := v; currentCalendarId := currentCalendarId st;
     clickedInfo := clickedInfo st; dom := dom st; form_defaults := form_defaults st;
     buttons := buttons st; display := display st; pending := pending st;
     now := now st; next_tick := next_tick st; trace := trace st |}.
Definition set_currentCalendarId v st :=
  {| csrftoken := csrftoken st; calendars := calendars st; widgets := widgets st;
     currentEvent := currentEvent st; currentCalendarId := v;
     clickedInfo := clickedInfo st; dom := dom st; form_defaults := form_defaults st;
     buttons := buttons st; display := display st; pending := pending st;
     now := now st; next_tick := next_tick st; trace := trace st |}.
Definition set_clickedInfo v st :=
  {| csrftoken := csrftoken st; calendars := calendars st; widgets := widgets st;
     currentEvent := currentEvent st; currentCalendarId := currentCalendarId st;
     clickedInfo := v; dom := dom st; form_defaults := form_defaults st;
     buttons := buttons st; display := display st; pending := pending st;
     now := now st; next_tick := next_tick st; trace := trace st |}.
Definition set_dom v st :=
  {| csrftoken := csrftoken st; calendars := calendars st; widgets := widgets st;
     currentEvent := currentEvent st; currentCalendarId := currentCalendarId st;
     clickedInfo := clickedInfo st; dom := v; form_defaults := form_defaults st;
     buttons := buttons st; display := display st; pending := pending st;
     now := now st; next_tick := next_tick st; trace := trace st |}.
Definition set_display v st :=
  {| csrftoken := csrftoken st; calendars := calendars st; widgets := widgets st;
     currentEvent := currentEvent st; currentCalendarId := currentCalendarId st;
     clickedInfo := clickedInfo st; dom := dom st; form_defaults := form_defaults st;
     buttons := buttons st; display := v; pending := pending st;
     now := now st; next_tick := next_tick st; trace := trace st |}.
Definition set_pending v st :=
  {| csrftoken := csrftoken st; calendars := calendars st; widgets := widgets st;
     currentEvent := currentEvent st; currentCalendarId := currentCalendarId st;
     clickedInfo := clickedInfo st; dom := dom st; form_defaults := form_defaults st;
     buttons := buttons st; display := display st; pending := v;
     now := now st; next_tick := next_tick st; trace := trace st |}.
Definition set_clock t tick st :=
  {| csrftoken := csrftoken st; calendars := calendars st; widgets := widgets st;
     currentEvent := currentEvent st; currentCalendarId := currentCalendarId st;
     clickedInfo := clickedInfo st; dom := dom st; form_defaults := form_defaults st;
     buttons := buttons st; display := display st; pending := pending st;
     now := t; next_tick := tick; trace := trace st |}.
Definition set_trace v st :=
  {| csrftoken := csrftoken st; calendars := calendars st; widgets := widgets st;
     currentEvent := currentEvent st; currentCalendarId := currentCalendarId st;
     clickedInfo := clickedInfo st; dom := dom st; form_defaults := form_defaults st;
     buttons := buttons st; display := display st; pending := pending st;
     now := now st; next_tick := next_tick st; trace := v |}.

(** *** Calls into the browser and into FullCalendar *)

Definition emit (e : effect) (st : state) : state :=
  set_trace (trace st ++ [e]) st.

(** [fetch(url, options)] followed by the handler's [then]/[catch]
    chain: the call is made now, the chain runs when it settles. *)
Definition call_fetch (r : request) (k : continuation) (st : state) : state :=
  set_pending (pending st ++ [(r, k)]) (emit (Fetch r) st).

Definition show_modal (st : state) : state :=
  let d := dom st in
  emit ModalShow
    (set_dom {| modal_title := modal_title d; event_title := event_title d;
                event_notes := event_notes d; eventid := eventid d;
                edit_btn_hidden := edit_btn_hidden d;
                save_btn_hidden := save_btn_hidden d;
                delete_btn_hidden := delete_btn_hidden d;
                modal_open := true |} st).

Definition hide_modal (st : state) : state :=
  let d := dom st in
  emit ModalHide
    (set_dom {| modal_title := modal_title d; event_title := event_title d;
                event_notes := event_notes d; eventid := eventid d;
                edit_btn_hidden := edit_btn_hidden d;
                save_btn_hidden := save_btn_hidden d;
                delete_btn_hidden := delete_btn_hidden d;
                modal_open := false |} st).

(** [eventForm.reset()]: the form's fields go back to the values the
    template gave them. *)
Definition reset_form (st : state) : state :=
  let d := dom st in
  let t := form_defaults st in
  emit FormReset
    (set_dom {| modal_title := modal_title d; event_title := event_title t;
                event_notes := event_notes t; eventid := eventid t;
                edit_btn_hidden := edit_btn_hidden d;
                save_btn_hidden := save_btn_hidden d;
                delete_btn_hidden := delete_btn_hidden d;
                modal_open := modal_open d |} st).

Definition set_date (d : LocalDate) (w : widget) : widget :=
  {| w_config := w_config w; w_date := d |}.

(** [cal.gotoDate(d)] *)
Definition gotoDate (cal : nat) (d : LocalDate) (st : state) : state :=
  set_widgets (alter (set_date d) cal (widgets st)) (emit (GotoDate cal d) st).

(** FullCalendar shows a dragged or resized event at its new place before
    it calls [eventDrop] or [eventResize]; [info.revert()] puts it back. *)
Definition apply_change (cal : nat) (info : ChangeInfo) (st : state) : state :=
  set_display (<[(cal, ev_id (event info)) := span_of (event info)]> (display st)) st.

Definition revert (cal : nat) (info : ChangeInfo) (st : state) : state :=
  set_display (<[(cal, ev_id (event info)) := span_of (oldEvent info)]> (display st))
    (emit (Revert cal info) st).

(** [Object.values(calendars).forEach(cal => cal.refetchEvents())] *)
Definition refetch_all (st : state) : state :=
  foldl (fun s cal => emit (Refetch cal) s) st (Object_values (calendars st)).

Definition json_headers (token : option jsstring) : list (jsstring * option jsstring) :=
  [ (js "Content-Type", Some (js "application/json"));
    (js "X-CSRFToken", token) ].

(** *** createCalendar and the callbacks it configures *)

Definition events (cal : nat) (startStr endStr : jsstring) (st : state) : state :=
  call_fetch
    {| req_url := js "/appointments/api/appointments/?start=" ++ startStr
                  ++ js "&end=" ++ endStr;
       req_method := GET; req_headers := []; req_body := None |}
    (EventsFetched cal) st.

(** [props.notes || ''] *)
Definition notes_or_empty (notes : option jsstring) : jsstring :=
  match notes with
  | Some s => if bool_decide (s = []) then [] else s
  | None => []
  end.

Definition eventClick (config : config) (ev : EventApi) (st : state) : state :=
  let st := set_currentEvent (Some ev) st in
  let st := set_currentCalendarId (Some (id config)) st in
  let st := set_dom {| modal_title := js "Edit Appointment";
                       event_title := ev_title ev;
                       event_notes := notes_or_empty (ev_notes ev);
                       eventid := ev_id ev;
                       edit_btn_hidden := false;
                       save_btn_hidden := true;
                       delete_btn_hidden := false;
                       modal_open := modal_open (dom st) |} st in
  show_modal st.

Definition dateClick (config : config) (date : EventDate) (st : state) : state :=
  let st := set_currentEvent None st in
  let st := set_currentCalendarId (Some (id config)) st in
  let st := set_dom {| modal_title := js "Add Appointment - " ++ title config;
                       event_title := [];
                       event_notes := [];
                       eventid := eventid (dom st);
                       edit_btn_hidden := true;
                       save_btn_hidden := false;
                       delete_btn_hidden := true;
                       modal_open := modal_open (dom st) |} st in
  let st := reset_form st in
  let st := show_modal st in
  set_clickedInfo (Some (date, id config)) st.

Definition eventDrop (cal : nat) (info : ChangeInfo) (st : state) : state :=
  let appointmentId := ev_id (event info) in
  let newStart := toISOString (ev_start (event info)) in
  call_fetch
    {| req_url := js "/appointments/api/appointments/" ++ appointmentId ++ js "/update/";
       req_method := POST;
       req_headers := json_headers (csrftoken st);
       req_body := Some [ (js "start", Some newStart) ] |}
    (DropAnswered cal info) st.

Definition eventResize (cal : nat) (info : ChangeInfo) (st : state) : state :=
  let appointmentId := ev_id (event info) in
  let newStart := toISOString (ev_start (event info)) in
  let newEnd := toISOString <$> ev_end (event info) in
  call_fetch
    {| req_url := js "/appointments/api/appointments/" ++ appointmentId ++ js "/update/";
       req_method := POST;
       req_headers := json_headers (csrftoken st);
       req_body := Some [ (js "start", Some newStart); (js "end", newEnd) ] |}
    (ResizeAnswered cal info) st.

Definition createCalendar (doc : document) (config : config) (st : state) : state :=
  if bool_decide (elementId config ∈ element_ids doc) then
    let calendarDate := add_days (today doc) (dateOffset config) in
    let cal := length (widgets st) in
    let st := set_widgets (widgets st ++ [ {| w_config := config; w_date := calendarDate |} ]) st in
    let st := set_calendars (obj_set (id config) cal (calendars st)) st in
    emit (Render cal) st
  else st.

(** *** The promise chains

    [.then(data => ..).catch(error => ..)]: the [then] callback runs on
    the parsed body, the [catch] callback when the chain was rejected or
    the [then] callback threw. In every chain below the only expression
    that can throw is the first read of [data.success]. *)

Definition then_catch (on_data : json -> state -> completion state)
    (on_error : rejection -> state -> state) (o : outcome) (st : state) : state :=
  match o with
  | Parsed data =>
      match on_data data st with
      | Normal st' => st'
      | Throw e => on_error (Thrown e) st
      end
  | Rejected err => on_error err st
  end.

Definition events_settled (cal : nat) : outcome -> state -> state :=
  then_catch
    (fun data st => Normal (emit (SuccessCallback cal data) st))
    (fun error st =>
       let st := emit (ConsoleError (js "Error fetching appointments:") error) st in
       emit (FailureCallback cal error) st).

Definition update_failed (cal : nat) (info : ChangeInfo) (error : rejection)
    (st : state) : state :=
  let st := emit (ConsoleError (js "Error:") error) st in
  let st := emit (Alert (Text (js "Error updating appointment"))) st in
  revert cal info st.

Definition eventDrop_settled (cal : nat) (info : ChangeInfo) : outcome -> state -> state :=
  then_catch
    (fun data st =>
       success ← get_prop data (js "success");
       if truthy success then
         let st := emit (ConsoleLog (js "Appointment moved successfully")) st in
         Normal (refetch_all st)
       else
         message ← get_prop data (js "message");
         let st := emit (Alert (TextPlus (js "Error updating appointment: ") message)) st in
         Normal (revert cal info st))
    (update_failed cal info).

Definition eventResize_settled (cal : nat) (info : ChangeInfo) : outcome -> state -> state :=
  then_catch
    (fun data st =>
       success ← get_prop data (js "success");
       if truthy success then
         Normal (emit (ConsoleLog (js "Appointment duration updated")) st)
       else
         message ← get_prop data (js "message");
         let st := emit (Alert (TextPlus (js "Error updating appointment: ") message)) st in
         Normal (revert cal info st))
    (update_failed cal info).

(** *** The form and the delete button *)

Definition submit (st : state) : state :=
  let title := event_title (dom st) in
  let notes := event_notes (dom st) in
  let appointmentId := eventid (dom st) in
  if bool_decide (is_Some (currentEvent st)) && negb (bool_decide (appointmentId = [])) then
    call_fetch
      {| req_url := js "/appointments/api/appointments/" ++ appointmentId ++ js "/update/";
         req_method := POST;
         req_headers := json_headers (csrftoken st);
         req_body := Some [ (js "notes", Some notes) ] |}
      EditAnswered st
  else if bool_decide (is_Some (clickedInfo st)) then
    let st := emit (Alert (Text (js "To create appointments, please use the full appointment creation form."))) st in
    hide_modal st
  else st.

Definition submit_settled : outcome -> state -> state :=
  then_catch
    (fun data st =>
       success ← get_prop data (js "success");
       if truthy success then
         let st := refetch_all st in
         let st := hide_modal st in
         Normal (emit (Alert (Text (js "Appointment updated successfully!"))) st)
       else
         message ← get_prop data (js "message");
         Normal (emit (Alert (TextPlus (js "Error: ") message)) st))
    (fun error st =>
       let st := emit (ConsoleError (js "Error:") error) st in
       emit (Alert (Text (js "Error updating appointment"))) st).

(** The click on [#btn-delete-event]; [confirmed] is what the user
    answers if [confirm] is shown. *)
Definition delete_click (confirmed : bool) (st : state) : state :=
  match currentEvent st with
  | None => st
  | Some ev =>
      let st := emit (Confirm (js "Are you sure you want to delete this appointment?")) st in
      if confirmed then
        let appointmentId := ev_id ev in
        call_fetch
          {| req_url := js "/appointments/api/appointments/" ++ appointmentId ++ js "/delete/";
             req_method := DELETE;
             req_headers := json_headers (csrftoken st);
             req_body := None |}
          DeleteAnswered st
      else st
  end.

Definition delete_settled : outcome -> state -> state :=
  then_catch
    (fun data st =>
       success ← get_prop data (js "success");
       if truthy success then
         let st := refetch_all st in
         let st := hide_modal st in
         Normal (emit (Alert (Text (js "Appointment deleted successfully!"))) st)
       else
         message ← get_prop data (js "message");
         Normal (emit (Alert (TextPlus (js "Error: ") message)) st))
    (fun error st =>
       let st := emit (ConsoleError (js "Error:") error) st in
       emit (Alert (Text (js "Error deleting appointment"))) st).

(** *** The sync and refresh buttons and the timer *)

(** The body of [syncBtn.onclick] from configuration number [index] on.
    [calendars[config.id].gotoDate(..)] throws when the map has no such
    key; the exception ends the handler. *)
Fixpoint sync_from (today : LocalDate) (index : Z) (configs : list config)
    (st : state) : state :=
  match configs with
  | [] => st
  | config :: rest =>
      let targetDate := add_days today index in
      match obj_get (id config) (calendars st) with
      | Some cal => sync_from today (index + 1)%Z rest (gotoDate cal targetDate st)
      | None => emit (Uncaught TypeError) st
      end
  end.

Definition sync_click (today : LocalDate) (st : state) : state :=
  sync_from today 0 calendarConfigs st.

Definition refresh_click (st : state) : state := refetch_all st.

Definition auto_refresh (st : state) : state := refetch_all st.

Definition refresh_period : Z := 300000.

(** [setInterval(auto_refresh, 300000)]: the first call is due one
    period from now. *)
Definition setInterval (st : state) : state :=
  set_clock (now st) (Some (now st + refresh_period)%Z) st.

(** [dt] milliseconds pass: the timer callback runs once for every due
    time reached, and the next due time moves on by as many periods. *)
Definition elapse (dt : Z) (st : state) : state :=
  let t := (now st + Z.max 0 dt)%Z in
  match next_tick st with
  | None => set_clock t None st
  | Some due =>
      if (t <? due)%Z then set_clock t (Some due) st
      else
        let n := ((t - due) / refresh_period + 1)%Z in
        set_clock t (Some (due + n * refresh_period)%Z)
          (Nat.iter (Z.to_nat n) auto_refresh st)
  end.

(** *** Start-up *)

(** [createSyncButton()]: the two buttons reach the page only when
    [.card-body] matches. *)
Definition createSyncButton (doc : document) (st : state) : state :=
  {| csrftoken := csrftoken st; calendars := calendars st; widgets := widgets st;
     currentEvent := currentEvent st; currentCalendarId := currentCalendarId st;
     clickedInfo := clickedInfo st; dom := dom st; form_defaults := form_defaults st;
     buttons := card_body doc; display := display st; pending := pending st;
     now := now st; next_tick := next_tick st; trace := trace st |}.

(** The [DOMContentLoaded] listener after its first statement, with the
    value [getCookie('csrftoken')] returned. *)
Definition start (doc : document) (token : option jsstring) : state :=
  let st :=
    {| csrftoken := token; calendars := []; widgets := [];
       currentEvent := None; currentCalendarId := None; clickedInfo := None;
       dom := template doc; form_defaults := template doc; buttons := false;
       display := ∅; pending := []; now := 0; next_tick := None; trace := [] |} in
  let st := foldl (fun st config => createCalendar doc config st) st calendarConfigs in
  let st := createSyncButton doc st in
  setInterval st.

(** The [DOMContentLoaded] listener. It ends early when [getCookie]
    throws. *)
Definition init (doc : document) : completion state :=
  token ← getCookie (cookie doc) (js "csrftoken");
  Normal (start doc token).

(** *** What can happen to the page once it runs *)

Inductive input :=
| FetchEvents (cal : nat) (startStr endStr : jsstring)
| EventClick (cal : nat) (ev : EventApi)
| DateClick (cal : nat) (date : EventDate)
| EventDrop (cal : nat) (info : ChangeInfo)
| EventResize (cal : nat) (info : ChangeInfo)
| Submit
| DeleteClick (confirmed : bool)
| SyncClick (today : LocalDate)
| RefreshClick
| Settle (i : nat) (o : outcome)
| Elapse (dt : Z).

Definition run_continuation (k : continuation) : outcome -> state -> state :=
  match k with
  | EventsFetched cal => events_settled cal
  | DropAnswered cal info => eventDrop_settled cal info
  | ResizeAnswered cal info => eventResize_settled cal info
  | EditAnswered => submit_settled
  | DeleteAnswered => delete_settled
  end.

(** The [i]-th pending chain settles with [o]. *)
Definition settle (i : nat) (o : outcome) (st : state) : state :=
  match pending st !! i with
  | None => st
  | Some (_, k) => run_continuation k o (set_pending (delete i (pending st)) st)
  end.

(** A callback of widget [cal] runs with the configuration it closes
    over. *)
Definition on_widget (cal : nat) (f : config -> state -> state) (st : state) : state :=
  match widgets st !! cal with
  | Some w => f (w_config w) st
  | None => st
  end.

Definition step (st : state) (i : input) : state :=
  match i with
  | FetchEvents cal startStr endStr =>
      on_widget cal (fun _ => events cal startStr endStr) st
  | EventClick cal ev => on_widget cal (fun config => eventClick config ev) st
  | DateClick cal date => on_widget cal (fun config => dateClick config date) st
  | EventDrop cal info =>
      on_widget cal (fun _ st => eventDrop cal info (apply_change cal info st)) st
  | EventResize cal info =>
      on_widget cal (fun _ st => eventResize cal info (apply_change cal info st)) st
  | Submit => submit st
  | DeleteClick confirmed => delete_click confirmed st
  | SyncClick today => if buttons st then sync_click today st else st
  | RefreshClick => if buttons st then refresh_click st else st
  | Settle i o => settle i o st
  | Elapse dt => elapse dt st
  end.

Definition run (st : state) (inputs : list input) : state := foldl step st inputs.

(** The time a list of inputs takes. *)
Definition duration (inputs : list input) : Z :=
  foldr (fun i acc => match i with Elapse dt => (Z.max 0 dt + acc)%Z | _ => acc end)
    0%Z inputs.

End Django.

(** ** calendar_rooms.init.js: one calendar per room, all on one day *)

Module Rooms.

(** An entry of [roomsData], read from an element that carries
    [data-room-id]: [dataset.roomId], [dataset.roomName] (absent when the
    element has no such attribute) and the element's [id] (empty when it
    has none). *)
Record roomConfig := {
  id : jsstring;
  name : option jsstring;
  elementId : jsstring
}.

Record widget := {
  w_config : roomConfig;
  w_date : LocalDate
}.

(** The modal's elements. [appointment_details] is the event whose
    details [#appointment-details] shows, when the script filled it. *)
Record modal_dom := {
  modal_title : jsstring;
  event_title : jsstring;
  eventid : jsstring;
  appointment_details : option EventApi;
  modal_open : bool
}.

(** The elements the script looks up behind a test or [?.], which the
    page may lack. *)
Record optional_elements := {
  prev_day : bool;
  next_day : bool;
  today_btn : bool;
  refresh_all : bool;
  btn_delete_event : bool;
  current_date_display : bool;
  details_container : bool
}.

Record document := {
  cookie : jsstring;
  room_elements : list roomConfig;
  optional : optional_elements;
  template : modal_dom;
  today : LocalDate
}.

Inductive continuation :=
| EventsFetched (cal : nat) (roomConfig : roomConfig)
| DropAnswered (cal : nat) (info : ChangeInfo)
| ResizeAnswered (cal : nat) (info : ChangeInfo)
| DeleteAnswered.

(** The page while it runs: as on the day-offset page, with the shared
    [currentDate], the elements the page has ([page]) and the date that
    [#current-date-display] shows ([date_display], when the script wrote
    it). FullCalendar copies the dates it is given, so the widgets do not
    share [currentDate] with the script. *)
Record state := {
  csrftoken : option jsstring;
  calendars : list (jsstring * nat);
  widgets : list widget;
  currentEvent : option EventApi;
  currentDate : LocalDate;
  dom : modal_dom;
  page : optional_elements;
  date_display : option LocalDate;
  display : gmap (nat * jsstring) span;
  pending : list (request * continuation);
  now : Z;
  next_tick : option Z;
  trace : list effect
}.

Definition set_calendars v st :=
  {| csrftoken := csrftoken st; calendars := v; widgets := widgets st;
     currentEvent := currentEvent st; currentDate := currentDate st; dom := dom st;
     page := page st; date_display := date_display st; display := display st;
     pending := pending st; now := now st; next_tick := next_tick st;
     trace := trace st |}.
Definition set_widgets v st :=
  {| csrftoken := csrftoken st; calendars := calendars st; widgets := v;
     currentEvent := currentEvent st; currentDate := currentDate st; dom := dom st;
     page := page st; date_display := date_display st; display := display st;
     pending := pending st; now := now st; next_tick := next_tick st;
     trace := trace st |}.
Definition set_currentEvent v st :=
  {| csrftoken := csrftoken st; calendars := calendars st; widgets := widgets st;
     currentEvent := v; currentDate := currentDate st; dom := dom st;
     page := page st; date_display := date_display st; display := display st;
     pending := pending st; now := now st; next_tick := next_tick st;
     trace := trace st |}.
Definition set_currentDate v st :=
  {| csrftoken := csrftoken st; calendars := calendars st; widgets := widgets st;
     currentEvent := currentEvent st; currentDate := v; dom := dom st;
     page := page st; date_display := date_display st; display := display st;
     pending := pending st; now := now st; next_tick := next_tick st;
     trace := trace st |}.
Definition set_dom v st :=
  {| csrftoken := csrftoken st; calendars := calendars st; widgets := widgets st;
     currentEvent := currentEvent st; currentDate := currentDate st; dom := v;
     page := page st; date_display := date_display st; display := display st;
     pending := pending st; now := now st; next_tick := next_tick st;
     trace := trace st |}.
Definition set_date_display v st :=
  {| csrftoken := csrftoken st; calendars := calendars st; widgets := widgets st;
     currentEvent := currentEvent st; currentDate := currentDate st; dom := dom st;
     page := page st; date_display := v; display := display st;
     pending := pending st; now := now st; next_tick := next_tick st;
     trace := trace st |}.
Definition set_display v st :=
  {| csrftoken := csrftoken st; calendars := calendars st; widgets := widgets st;
     currentEvent := currentEvent st; currentDate := currentDate st; dom := dom st;
     page := page st; date_display := date_display st; display := v;
     pending := pending st; now := now st; next_tick := next_tick st;
     trace := trace st |}.
Definition set_pending v st :=
  {| csrftoken := csrftoken st; calendars := calendars st; widgets := widgets st;
     currentEvent := currentEvent st; currentDate := currentDate st; dom := dom st;
     page := page st; date_display := date_display st; display := display st;
     pending := v; now := now st; next_tick := next_tick st;
     trace := trace st |}.
Definition set_clock t tick st :=
  {| csrftoken := csrftoken st; calendars := calendars st; widgets := widgets st;
     currentEvent := currentEvent st; currentDate := currentDate st; dom := dom st;
     page := page st; date_display := date_display st; display := display st;
     pending := pending st; now := t; next_tick := tick;
     trace := trace st |}.
Definition set_trace v st :=
  {| csrftoken := csrftoken st; calendars := calendars st; widgets := widgets st;
     currentEvent := currentEvent st; currentDate := currentDate st; dom := dom st;
     page := page st; date_display := date_display st; display := display st;
     pending := pending st; now := now st; next_tick := next_tick st;
     trace := v |}.

(** *** Calls into the browser and into FullCalendar *)

Definition emit (e : effect) (st : state) : state :=
  set_trace (trace st ++ [e]) st.

Definition call_fetch (r : request) (k : continuation) (st : state) : state :=
  set_pending (pending st ++ [(r, k)]) (emit (Fetch r) st).

Definition show_modal (st : state) : state :=
  let d := dom st in
  emit ModalShow
    (set_dom {| modal_title := modal_title d; event_title := event_title d;
                eventid := eventid d; appointment_details := appointment_details d;
                modal_open := true |} st).

Definition hide_modal (st : state) : state :=
  let d := dom st in
  emit ModalHide
    (set_dom {| modal_title := modal_title d; event_title := event_title d;
                eventid := eventid d; appointment_details := appointment_details d;
                modal_open := false |} st).

Definition set_date (d : LocalDate) (w : widget) : widget :=
  {| w_config := w_config w; w_date := d |}.

Definition gotoDate (cal : nat) (d : LocalDate) (st : state) : state :=
  set_widgets (alter (set_date d) cal (widgets st)) (emit (GotoDate cal d) st).

Definition apply_change (cal : nat) (info : ChangeInfo) (st : state) : state :=
  set_display (<[(cal, ev_id (event info)) := span_of (event info)]> (display st)) st.

Definition revert (cal : nat) (info : ChangeInfo) (st : state) : state :=
  set_display (<[(cal, ev_id (event info)) := span_of (oldEvent info)]> (display st))
    (emit (Revert cal info) st).

Definition refetch_all (st : state) : state :=
  foldl (fun s cal => emit (Refetch cal) s) st (Object_values (calendars st)).

(** [Object.values(calendars).forEach(cal => { cal.gotoDate(currentDate); })] *)
Definition goto_all (st : state) : state :=
  foldl (fun s cal => gotoDate cal (currentDate s) s) st (Object_values (calendars st)).

Definition json_headers (token : option jsstring) : list (jsstring * option jsstring) :=
  [ (js "Content-Type", Some (js "application/json"));
    (js "X-CSRFToken", token) ].

(** *** createRoomCalendar and the callbacks it configures *)

Definition events (cal : nat) (roomConfig : roomConfig) (startStr endStr : jsstring)
    (st : state) : state :=
  call_fetch
    {| req_url := js "/appointments/api/room-appointments/?start=" ++ startStr
                  ++ js "&end=" ++ endStr
                  ++ js "&room_id=" ++ id roomConfig;
       req_method := GET; req_headers := []; req_body := None |}
    (EventsFetched cal roomConfig) st.

Definition eventClick (ev : EventApi) (st : state) : state :=
  let st := set_currentEvent (Some ev) st in
  let details :=
    if details_container (page st) then Some ev else appointment_details (dom st) in
  let st := set_dom {| modal_title := js "Λεπτομέρειες Ραντεβού";
                       event_title := ev_title ev;
                       eventid := ev_id ev;
                       appointment_details := details;
                       modal_open := modal_open (dom st) |} st in
  show_modal st.

(** The assignment to [window.location.href] is recorded; that the page
    then goes away is not modelled. *)
Definition dateClick (roomConfig : roomConfig) (date : EventDate) (st : state) : state :=
  let clickedDateTime := toISOString date in
  emit (Navigate (js "/appointments/create/?room=" ++ id roomConfig
                  ++ js "&start=" ++ clickedDateTime)) st.

Definition eventDrop (cal : nat) (roomConfig : roomConfig) (info : ChangeInfo)
    (st : state) : state :=
  let appointmentId := ev_id (event info) in
  let newStart := toISOString (ev_start (event info)) in
  call_fetch
    {| req_url := js "/appointments/api/appointments/" ++ appointmentId ++ js "/update/";
       req_method := POST;
       req_headers := json_headers (csrftoken st);
       req_body := Some [ (js "start", Some newStart);
                          (js "room_id", Some (id roomConfig)) ] |}
    (DropAnswered cal info) st.

Definition eventResize (cal : nat) (info : ChangeInfo) (st : state) : state :=
  let appointmentId := ev_id (event info) in
  let newStart := toISOString (ev_start (event info)) in
  let newEnd := toISOString <$> ev_end (event info) in
  call_fetch
    {| req_url := js "/appointments/api/appointments/" ++ appointmentId ++ js "/update/";
       req_method := POST;
       req_headers := json_headers (csrftoken st);
       req_body := Some [ (js "start", Some newStart); (js "end", newEnd) ] |}
    (ResizeAnswered cal info) st.

(** [document.getElementById(roomConfig.elementId)] finds an element
    exactly when the id is not empty: the entry was read from an element
    of the document that has this id. *)
Definition createRoomCalendar (today : LocalDate) (roomConfig : roomConfig)
    (st : state) : state :=
  if bool_decide (elementId roomConfig <> []) then
    let cal := length (widgets st) in
    let st := set_widgets (widgets st ++ [ {| w_config := roomConfig; w_date := today |} ]) st in
    let st := set_calendars (obj_set (id roomConfig) cal (calendars st)) st in
    emit (Render cal) st
  else st.

(** *** The promise chains *)

Definition then_catch (on_data : json -> state -> completion state)
    (on_error : rejection -> state -> state) (o : outcome) (st : state) : state :=
  match o with
  | Parsed data =>
      match on_data data st with
      | Normal st' => st'
      | Throw e => on_error (Thrown e) st
      end
  | Rejected err => on_error err st
  end.

(** ['..' + roomConfig.name + ':'] *)
Definition name_text (name : option jsstring) : jsstring :=
  match name with
  | Some s => s
  | None => js "undefined"
  end.

Definition events_settled (cal : nat) (roomConfig : roomConfig)
  : outcome -> state -> state :=
  then_catch
    (fun data st => Normal (emit (SuccessCallback cal data) st))
    (fun error st =>
       let st := emit (ConsoleError (js "Error fetching appointments for "
                                     ++ name_text (name roomConfig) ++ js ":") error) st in
       emit (FailureCallback cal error) st).

Definition update_failed (cal : nat) (info : ChangeInfo) (error : rejection)
    (st : state) : state :=
  let st := emit (ConsoleError (js "Error:") error) st in
  let st := emit (Alert (Text (js "Σφάλμα κατά την ενημέρωση"))) st in
  revert cal info st.

Definition eventDrop_settled (cal : nat) (info : ChangeInfo) : outcome -> state -> state :=
  then_catch
    (fun data st =>
       success ← get_prop data (js "success");
       if truthy success then
         let st := emit (ConsoleLog (js "Appointment moved successfully")) st in
         Normal (refetch_all st)
       else
         message ← get_prop data (js "message");
         let st := emit (Alert (TextPlus (js "Σφάλμα: ") message)) st in
         Normal (revert cal info st))
    (update_failed cal info).

Definition eventResize_settled (cal : nat) (info : ChangeInfo) : outcome -> state -> state :=
  then_catch
    (fun data st =>
       success ← get_prop data (js "success");
       if negb (truthy success) then
         message ← get_prop data (js "message");
         let st := emit (Alert (TextPlus (js "Σφάλμα: ") message)) st in
         Normal (revert cal info st)
       else Normal st)
    (update_failed cal info).

(** *** Navigation, refresh and delete *)

Definition updateDateDisplay (st : state) : state :=
  if current_date_display (page st) then set_date_display (Some (currentDate st)) st
  else st.

Definition prev_day_click (st : state) : state :=
  let st := set_currentDate (add_days (currentDate st) (-1)) st in
  let st := goto_all st in
  updateDateDisplay st.

Definition next_day_click (st : state) : state :=
  let st := set_currentDate (add_days (currentDate st) 1) st in
  let st := goto_all st in
  updateDateDisplay st.

(** [today] is what [new Date()] returns at the click. *)
Definition today_click (today : LocalDate) (st : state) : state :=
  let st := set_currentDate today st in
  let st := goto_all st in
  updateDateDisplay st.

Definition refresh_all_click (st : state) : state := refetch_all st.

Definition delete_click (confirmed : bool) (st : state) : state :=
  match currentEvent st with
  | None => st
  | Some ev =>
      let st := emit (Confirm (js "Είστε σίγουροι ότι θέλετε να διαγράψετε αυτό το ραντεβού;")) st in
      if confirmed then
        let appointmentId := ev_id ev in
        call_fetch
          {| req_url := js "/appointments/api/appointments/" ++ appointmentId ++ js "/delete/";
             req_method := DELETE;
             req_headers := json_headers (csrftoken st);
             req_body := None |}
          DeleteAnswered st
      else st
  end.

Definition delete_settled : outcome -> state -> state :=
  then_catch
    (fun data st =>
       success ← get_prop data (js "success");
       if truthy success then
         let st := refetch_all st in
         let st := hide_modal st in
         Normal (emit (Alert (Text (js "Το ραντεβού διαγράφηκε επιτυχώς!"))) st)
       else
         message ← get_prop data (js "message");
         Normal (emit (Alert (TextPlus (js "Σφάλμα: ") message)) st))
    (fun error st =>
       let st := emit (ConsoleError (js "Error:") error) st in
       emit (Alert (Text (js "Σφάλμα κατά τη διαγραφή"))) st).

Definition auto_refresh (st : state) : state := refetch_all st.

Definition refresh_period : Z := 300000.

Definition setInterval (st : state) : state :=
  set_clock (now st) (Some (now st + refresh_period)%Z) st.

Definition elapse (dt : Z) (st : state) : state :=
  let t := (now st + Z.max 0 dt)%Z in
  match next_tick st with
  | None => set_clock t None st
  | Some due =>
      if (t <? due)%Z then set_clock t (Some due) st
      else
        let n := ((t - due) / refresh_period + 1)%Z in
        set_clock t (Some (due + n * refresh_period)%Z)
          (Nat.iter (Z.to_nat n) auto_refresh st)
  end.

(** *** Start-up *)

(** The [DOMContentLoaded] listener after its first statement, with the
    value [getCookie('csrftoken')] returned. *)
Definition start (doc : document) (token : option jsstring) : state :=
  let roomsData := room_elements doc in
  let st :=
    {| csrftoken := token; calendars := []; widgets := []; currentEvent := None;
       currentDate := today doc; dom := template doc; page := optional doc;
       date_display := None; display := ∅; pending := []; now := 0;
       next_tick := None; trace := [] |} in
  let st := foldl (fun st roomConfig => createRoomCalendar (currentDate st) roomConfig st)
              st roomsData in
  let st := updateDateDisplay st in
  setInterval st.

(** The [DOMContentLoaded] listener. It ends early when [getCookie]
    throws. *)
Definition init (doc : document) : completion state :=
  token ← getCookie (cookie doc) (js "csrftoken");
  Normal (start doc token).

(** *** What can happen to the page once it runs *)

Inductive input :=
| FetchEvents (cal : nat) (startStr endStr : jsstring)
| EventClick (cal : nat) (ev : EventApi)
| DateClick (cal : nat) (date : EventDate)
| EventDrop (cal : nat) (info : ChangeInfo)
| EventResize (cal : nat) (info : ChangeInfo)
| PrevDay
| NextDay
| Today (today : LocalDate)
| RefreshAll
| DeleteClick (confirmed : bool)
| Settle (i : nat) (o : outcome)
| Elapse (dt : Z).

Definition run_continuation (k : continuation) : outcome -> state -> state :=
  match k with
  | EventsFetched cal roomConfig => events_settled cal roomConfig
  | DropAnswered cal info => eventDrop_settled cal info
  | ResizeAnswered cal info => eventResize_settled cal info
  | DeleteAnswered => delete_settled
  end.

Definition settle (i : nat) (o : outcome) (st : state) : state :=
  match pending st !! i with
  | None => st
  | Some (_, k) => run_continuation k o (set_pending (delete i (pending st)) st)
  end.

Definition on_widget (cal : nat) (f : roomConfig -> state -> state) (st : state) : state :=
  match widgets st !! cal with
  | Some w => f (w_config w) st
  | None => st
  end.

(** A listener attached with [?.] exists only when its element does. *)
Definition step (st : state) (i : input) : state :=
  match i with
  | FetchEvents cal startStr endStr =>
      on_widget cal (fun roomConfig => events cal roomConfig startStr endStr) st
  | EventClick cal ev => on_widget cal (fun _ => eventClick ev) st
  | DateClick cal date => on_widget cal (fun roomConfig => dateClick roomConfig date) st
  | EventDrop cal info =>
      on_widget cal
        (fun roomConfig st => eventDrop cal roomConfig info (apply_change cal info st)) st
  | EventResize cal info =>
      on_widget cal (fun _ st => eventResize cal info (apply_change cal info st)) st
  | PrevDay => if prev_day (page st) then prev_day_click st else st
  | NextDay => if next_day (page st) then next_day_click st else st
  | Today today => if today_btn (page st) then today_click today st else st
  | RefreshAll => if refresh_all (page st) then refresh_all_click st else st
  | DeleteClick confirmed =>
      if btn_delete_event (page st) then delete_click confirmed st else st
  | Settle i o => settle i o st
  | Elapse dt => elapse dt st
  end.

Definition run (st : state) (inputs : list input) : state := foldl step st inputs.

Definition duration (inputs : list input) : Z :=
  foldr (fun i acc => match i with Elapse dt => (Z.max 0 dt + acc)%Z | _ => acc end)
    0%Z inputs.

End Rooms.

(** ** Vocabulary of the properties *)

(** The URL of the update endpoint for one appointment. *)
Definition update_url (appointmentId : jsstring) : jsstring :=
  js "/appointments/api/appointments/" ++ appointmentId ++ js "/update/".

Definition delete_url (appointmentId : jsstring) : jsstring :=
  js "/appointments/api/appointments/" ++ appointmentId ++ js "/delete/".

(** The server accepts a mutation when the chain settles with a body
    whose [success] is truthy. *)
Definition accepts (o : outcome) : bool :=
  match o with
  | Parsed data =>
      match get_prop data (js "success") with
      | Normal success => truthy success
      | Throw _ => false
      end
  | Rejected _ => false
  end.

(** A body that answers [success: false] (or any falsy [success]). *)
Definition says_no (data : json) : bool :=
  match get_prop data (js "success") with
  | Normal success => negb (truthy success)
  | Throw _ => false
  end.

(** [data.message] of a body that is not [null]. *)
Definition message_of (data : json) : jsval :=
  match get_prop data (js "message") with
  | Normal message => message
  | Throw _ => None
  end.

(** What a handler tells the user when the answer [o] to a mutation is
    not an acceptance. A body that says no gives one alert: [prefix]
    followed by the body's [message]. Anything else (the request failed,
    the body was not JSON, or the body is [null], on which reading
    [success] throws a [TypeError]) reaches the [catch] callback, which
    writes the error to the console and alerts the fixed text [plain]. *)
Definition refusal_notices (prefix plain : jsstring) (o : outcome) : list effect :=
  match o with
  | Parsed data =>
      if says_no data then [Alert (TextPlus prefix (message_of data))]
      else [ConsoleError (js "Error:") (Thrown TypeError); Alert (Text plain)]
  | Rejected err => [ConsoleError (js "Error:") err; Alert (Text plain)]
  end.

(** An entry of the cookie string is one for [name] when its trimmed text
    starts with [name] followed by [=]; [value] is what follows. *)
Definition entry_for (name entry value : jsstring) : Prop :=
  trim entry = name ++ js "=" ++ value.

(** After start-up no handler assigns to [calendars], creates or drops a
    widget, or removes anything from the trace, and only the passing of
    time moves the clock. [django_keeps st st'] says that [st'] differs
    from [st] in nothing of that; [rooms_keeps] is the same for the rooms
    page. *)
Definition django_keeps (st st' : Django.state) : Prop :=
  Django.calendars st' = Django.calendars st
  /\ Django.w_config <$> Django.widgets st' = Django.w_config <$> Django.widgets st
  /\ (exists added, Django.trace st' = Django.trace st ++ added)
  /\ Django.now st' = Django.now st
  /\ Django.next_tick st' = Django.next_tick st
  /\ Django.buttons st' = Django.buttons st.

Definition rooms_keeps (st st' : Rooms.state) : Prop :=
  Rooms.calendars st' = Rooms.calendars st
  /\ Rooms.w_config <$> Rooms.widgets st' = Rooms.w_config <$> Rooms.widgets st
  /\ (exists added, Rooms.trace st' = Rooms.trace st ++ added)
  /\ Rooms.now st' = Rooms.now st
  /\ Rooms.next_tick st' = Rooms.next_tick st
  /\ Rooms.page st' = Rooms.page st.

(** The interval timer is set and comes due within one period. *)
Definition django_timer_set (st : Django.state) : Prop :=
  exists due,
    Django.next_tick st = Some due
    /\ (Django.now st < due <= Django.now st + Django.refresh_period)%Z.

Definition rooms_timer_set (st : Rooms.state) : Prop :=
  exists due,
    Rooms.next_tick st = Some due
    /\ (Rooms.now st < due <= Rooms.now st + Rooms.refresh_period)%Z.

(** Every entry of [calendars] refers to a widget of the store. *)
Definition rooms_pool_valid (st : Rooms.state) : Prop :=
  Forall (fun kv => kv.2 < length (Rooms.widgets st)) (Rooms.calendars st).

(** While an event is selected, the field [#eventid] holds its id. *)
Definition django_selected_id (st : Django.state) : Prop :=
  forall ev, Django.currentEvent st = Some ev -> Django.eventid (Django.dom st) = ev_id ev.

(** How often [refetchEvents] was called on widget [cal]. *)
Definition refetch_count (cal : nat) (effects : list effect) : nat :=
  length (List.filter (fun e => match e with Refetch c => Nat.eqb c cal | _ => false end)
            effects).

Definition is_fetch (e : effect) : bool :=
  match e with Fetch _ => true | _ => false end.

Definition is_revert (e : effect) : bool :=
  match e with Revert _ _ => true | _ => false end.

(** A request as the scripts send it: to a URL under [/appointments/api/];
    a read carries no options, a mutation the JSON content type and the
    CSRF token in its headers, and a body unless it is a [DELETE]. *)
Definition api_request (token : option jsstring) (r : request) : Prop :=
  (exists rest, req_url r = js "/appointments/api/" ++ rest)
  /\ match req_method r with
     | GET => req_headers r = [] /\ req_body r = None
     | POST =>
         req_headers r = [ (js "Content-Type", Some (js "application/json"));
                           (js "X-CSRFToken", token) ]
         /\ is_Some (req_body r)
     | DELETE =>
         req_headers r = [ (js "Content-Type", Some (js "application/json"));
                           (js "X-CSRFToken", token) ]
         /\ req_body r = None
     end.

(** An effect that neither sends a request, nor leaves the page, nor is
    an exception that escapes a handler. *)
Definition within_page (e : effect) : bool :=
  match e with Fetch _ | Navigate _ | Uncaught _ => false | _ => true end.

(** [django_adds P st st']: [st'] has the token, the map and the widget
    configurations of [st], and its trace is that of [st] followed by
    effects that all satisfy [P]. [rooms_adds] is the same for the rooms
    page. *)
Definition django_adds (P : effect -> Prop) (st st' : Django.state) : Prop :=
  Django.csrftoken st' = Django.csrftoken st
  /\ Django.calendars st' = Django.calendars st
  /\ Django.w_config <$> Django.widgets st' = Django.w_config <$> Django.widgets st
  /\ exists added, Django.trace st' = Django.trace st ++ added /\ Forall P added.

Definition rooms_adds (P : effect -> Prop) (st st' : Rooms.state) : Prop :=
  Rooms.csrftoken st' = Rooms.csrftoken st
  /\ Rooms.calendars st' = Rooms.calendars st
  /\ Rooms.w_config <$> Rooms.widgets st' = Rooms.w_config <$> Rooms.widgets st
  /\ exists added, Rooms.trace st' = Rooms.trace st ++ added /\ Forall P added.

(** The address the rooms page goes to after a click on a free slot. *)
Definition create_url (room : Rooms.roomConfig) (date : EventDate) : jsstring :=
  js "/appointments/create/?room=" ++ Rooms.id room ++ js "&start=" ++ toISOString date.

(** ** Sample pages

    Concrete pages, events and server answers on which the handlers are
    run in the examples below. *)

Module Samples.

Definition a_day : LocalDate := {| day := 19844; ms_of_day := 36000000 |}.

Definition django_modal : Django.modal_dom :=
  {| Django.modal_title := js "Add Event"; Django.event_title := [];
     Django.event_notes := []; Django.eventid := [];
     Django.edit_btn_hidden := true; Django.save_btn_hidden := false;
     Django.delete_btn_hidden := true; Django.modal_open := false |}.

(** The page with its four calendar elements. *)
Definition django_page : Django.document :=
  {| Django.cookie := js "sessionid=k3; csrftoken=Tq9%2Fv";
     Django.element_ids := [js "calendar1"; js "calendar2"; js "calendar3"; js "calendar4"];
     Django.card_body := true;
     Django.template := django_modal;
     Django.today := a_day |}.

(** The same page without the element [#calendar2]. *)
Definition django_page_without_calendar2 : Django.document :=
  {| Django.cookie := js "sessionid=k3; csrftoken=Tq9%2Fv";
     Django.element_ids := [js "calendar1"; js "calendar3"; js "calendar4"];
     Django.card_body := true;
     Django.template := django_modal;
     Django.today := a_day |}.

Definition django_state : Django.state :=
  Django.start django_page (Some (js "Tq9/v")).

Definition django_state_without_calendar2 : Django.state :=
  Django.start django_page_without_calendar2 (Some (js "Tq9/v")).

Definition rooms_modal : Rooms.modal_dom :=
  {| Rooms.modal_title := []; Rooms.event_title := []; Rooms.eventid := [];
     Rooms.appointment_details := None; Rooms.modal_open := false |}.

Definition all_controls : Rooms.optional_elements :=
  {| Rooms.prev_day := true; Rooms.next_day := true; Rooms.today_btn := true;
     Rooms.refresh_all := true; Rooms.btn_delete_event := true;
     Rooms.current_date_display := true; Rooms.details_container := true |}.

Definition rooms_page : Rooms.document :=
  {| Rooms.cookie := js "csrftoken=Tq9%2Fv";
     Rooms.room_elements :=
       [ {| Rooms.id := js "7"; Rooms.name := Some (js "Laser A");
            Rooms.elementId := js "room-calendar-7" |};
         {| Rooms.id := js "3"; Rooms.name := Some (js "Laser B");
            Rooms.elementId := js "room-calendar-3" |} ];
     Rooms.optional := all_controls;
     Rooms.template := rooms_modal;
     Rooms.today := a_day |}.

Definition rooms_state : Rooms.state :=
  Rooms.start rooms_page (Some (js "Tq9/v")).

(** A rooms page on which two elements carry the same [data-room-id],
    and no cookie. *)
Definition rooms_page_repeated_id : Rooms.document :=
  {| Rooms.cookie := [];
     Rooms.room_elements :=
       [ {| Rooms.id := js "7"; Rooms.name := Some (js "Laser A");
            Rooms.elementId := js "room-calendar-a" |};
         {| Rooms.id := js "7"; Rooms.name := Some (js "Laser A");
            Rooms.elementId := js "room-calendar-b" |} ];
     Rooms.optional := all_controls;
     Rooms.template := rooms_modal;
     Rooms.today := a_day |}.

Definition appointment : EventApi :=
  {| ev_id := js "42"; ev_title := js "Maria P.";
     ev_start := {| toISOString := js "2024-05-01T09:00:00.000Z" |};
     ev_end := Some {| toISOString := js "2024-05-01T09:30:00.000Z" |};
     ev_notes := Some (js "first session") |}.

Definition appointment_moved : EventApi :=
  {| ev_id := js "42"; ev_title := js "Maria P.";
     ev_start := {| toISOString := js "2024-05-01T11:00:00.000Z" |};
     ev_end := Some {| toISOString := js "2024-05-01T11:30:00.000Z" |};
     ev_notes := Some (js "first session") |}.

Definition a_change : ChangeInfo :=
  {| event := appointment_moved; oldEvent := appointment |}.

Definition a_click : EventDate := {| toISOString := js "2024-05-01T10:00:00.000Z" |}.

(** [{"success": true}] and [{"success": false, "message": "Slot taken"}] *)
Definition approval : json := JObj [ (js "success", JBool true) ].

Definition refusal : json :=
  JObj [ (js "success", JBool false); (js "message", JStr (js "Slot taken")) ].

End Samples.

(** * Properties *)

(** ** Strings *)

Lemma js_equals_sign : js "=" = [0x3D%N].
Proof. vm_compute. reflexivity. Qed.

Lemma substring_prefix (s : jsstring) (n : nat) : substring s 0 n = take n s.
Proof.
  unfold substring. rewrite Nat.min_0_l, Nat.min_0_l, Nat.max_0_l, Nat.sub_0_r.
  simpl. destruct (Nat.le_ge_cases n (length s)) as [H | H].
  - by rewrite Nat.min_l.
  - rewrite Nat.min_r by done. by rewrite !take_ge.
Qed.

Lemma substring_suffix (s : jsstring) (a : nat) : substring_from s a = drop a s.
Proof.
  unfold substring_from, substring. rewrite Nat.min_id.
  destruct (Nat.le_ge_cases a (length s)) as [H | H].
  - rewrite (Nat.min_l a) by done. rewrite Nat.min_l, Nat.max_r by done.
    apply take_ge. rewrite length_drop. lia.
  - rewrite (Nat.min_r a) by done. rewrite Nat.min_id, Nat.max_id, Nat.sub_diag.
    rewrite !drop_ge by done. done.
Qed.

(** [s.substring(0, p.length) === p] says that [s] starts with [p]. *)
Lemma substring_is_prefix (s p : jsstring) :
  substring s 0 (length p) = p <-> exists rest, s = p ++ rest.
Proof.
  rewrite substring_prefix. split.
  - intros H. exists (drop (length p) s). by rewrite <- H at 1; rewrite take_drop.
  - intros [rest ->]. by rewrite take_app_length.
Qed.

(** A string without [%] decodes to itself. *)
Lemma decodeURIComponent_plain (s : jsstring) :
  Forall (fun c => c <> 0x25%N) s -> decodeURIComponent s = Normal s.
Proof.
  unfold decodeURIComponent. induction 1 as [| c s Hc _ IH]; [done |].
  simpl. apply N.eqb_neq in Hc. rewrite Hc, IH. done.
Qed.

(** ** getCookie *)

Lemma getCookie_test (name cookie : jsstring) :
  substring cookie 0 (length name + 1) = name ++ js "="
  <-> exists value, cookie = name ++ js "=" ++ value.
Proof.
  replace (length name + 1) with (length (name ++ js "=")).
  - rewrite substring_is_prefix. by setoid_rewrite <- (assoc_L (++)).
  - rewrite length_app. done.
Qed.

Lemma getCookie_value (name value : jsstring) :
  substring_from (name ++ js "=" ++ value) (length name + 1) = value.
Proof.
  rewrite substring_suffix, (assoc_L (++)).
  replace (length name + 1) with (length (name ++ js "=")) by (by rewrite length_app).
  apply drop_app_length.
Qed.

Lemma getCookie_loop_none (name : jsstring) (cookies : list jsstring) :
  Forall (fun entry => forall value, ~ entry_for name entry value) cookies ->
  getCookie_loop name cookies = Normal None.
Proof.
  induction 1 as [| entry rest Hno _ IH]; [done |].
  simpl. case_bool_decide as Htest; [| done].
  apply getCookie_test in Htest as [value Hvalue]. by destruct (Hno value).
Qed.

Lemma getCookie_loop_first (name : jsstring) (before : list jsstring)
    (entry : jsstring) (after : list jsstring) (value : jsstring) :
  Forall (fun e => forall v, ~ entry_for name e v) before ->
  entry_for name entry value ->
  getCookie_loop name (before ++ entry :: after) = Some <$> decodeURIComponent value.
Proof.
  intros Hbefore Hentry. induction Hbefore as [| e rest Hno _ IH]; simpl.
  - unfold entry_for in Hentry. rewrite Hentry.
    rewrite bool_decide_true by (apply getCookie_test; eauto).
    by rewrite getCookie_value.
  - case_bool_decide as Htest; [| done].
    apply getCookie_test in Htest as [v Hv]. by destruct (Hno v).
Qed.

Lemma getCookie_loop_some (name : jsstring) (cookies : list jsstring) (result : jsstring) :
  getCookie_loop name cookies = Normal (Some result) ->
  exists entry value,
    entry ∈ cookies /\ entry_for name entry value
    /\ decodeURIComponent value = Normal result.
Proof.
  induction cookies as [| entry rest IH]; [done |].
  simpl. case_bool_decide as Htest.
  - apply getCookie_test in Htest as [value Hvalue]. rewrite Hvalue, getCookie_value.
    intros Hdec. exists entry, value. split; [apply list_elem_of_here |]. split; [done |].
    destruct (decodeURIComponent value); simpl in Hdec; congruence.
  - intros H. destruct (IH H) as (e & v & Hin & Hrest). exists e, v.
    split; [by apply list_elem_of_further | done].
Qed.

(** C9, as the code has it. [getCookie] returns [null] when
    [document.cookie] is empty or no entry is one for [name]; otherwise
    its result is [decodeURIComponent] of the value of the first entry
    for [name], so it returns the decoded value when that value decodes
    and throws [URIError] when it does not; a value it returns always
    comes from an entry for [name]. *)
Theorem getCookie_first_matching_entry (document_cookie name : jsstring) :
  (document_cookie = [] -> getCookie document_cookie name = Normal None)
  /\ (Forall (fun entry => forall value, ~ entry_for name entry value)
        (split 0x3B document_cookie) ->
      getCookie document_cookie name = Normal None)
  /\ (forall before entry after value,
        split 0x3B document_cookie = before ++ entry :: after ->
        Forall (fun e => forall v, ~ entry_for name e v) before ->
        entry_for name entry value ->
        getCookie document_cookie name = Some <$> decodeURIComponent value)
  /\ (forall result,
        getCookie document_cookie name = Normal (Some result) ->
        exists entry value,
          entry ∈ split 0x3B document_cookie /\ entry_for name entry value
          /\ decodeURIComponent value = Normal result).
Proof.
  unfold getCookie. repeat split.
  - intros ->. done.
  - intros Hnone. case_bool_decide; [by apply getCookie_loop_none | done].
  - intros before entry after value Hsplit Hbefore Hentry.
    rewrite bool_decide_true, Hsplit; [by apply getCookie_loop_first |].
    intros ->. simpl in Hsplit.
    destruct before as [| e [| e' before]]; simplify_eq/=.
    unfold entry_for in Hentry. rewrite js_equals_sign in Hentry.
    by destruct name.
  - intros result. case_bool_decide; [apply getCookie_loop_some | done].
Qed.

(** C9 as stated fails: the cookie string [csrftoken=%] makes
    [getCookie('csrftoken')] throw, the [%] not being followed by two
    hexadecimal digits. *)
Lemma getCookie_throws_on_malformed_escape :
  getCookie (js "csrftoken=%") (js "csrftoken") = Throw URIError.
Proof. vm_compute. reflexivity. Qed.

Example getCookie_second_entry :
  getCookie (js "a=1; csrftoken=ab%20c; csrftoken=z") (js "csrftoken")
  = Normal (Some (js "ab c")).
Proof. vm_compute. reflexivity. Qed.

Example getCookie_prefix_of_other_name :
  getCookie (js "xcsrftoken=1; csrftokenx=2") (js "csrftoken") = Normal None.
Proof. vm_compute. reflexivity. Qed.

Example decodeURIComponent_utf8 :
  decodeURIComponent (js "%CE%A3x%F0%9F%98%80")
  = Normal [0x3A3; 0x78; 0xD83D; 0xDE00]%N.
Proof. vm_compute. reflexivity. Qed.

Example decodeURIComponent_overlong :
  decodeURIComponent (js "%C0%80") = Throw URIError.
Proof. vm_compute. reflexivity. Qed.

Example decodeURIComponent_surrogate :
  decodeURIComponent (js "%ED%A0%80") = Throw URIError.
Proof. vm_compute. reflexivity. Qed.

Example decodeURIComponent_truncated_sequence :
  decodeURIComponent (js "%E2%82") = Throw URIError.
Proof. vm_compute. reflexivity. Qed.

Example js_greek : js "Σφ" = [0x3A3; 0x3C6]%N.
Proof. vm_compute. reflexivity. Qed.

(** ** Objects used as maps *)

Section ObjFacts.
Context {A : Type}.
Implicit Types (o : list (jsstring * A)) (key : jsstring) (v : A).

Lemma insert_by_index_values (n : N) v (l : list (N * A)) :
  map snd (insert_by_index n v l) ≡ₚ v :: map snd l.
Proof.
  induction l as [| [m w] l IH]; simpl; [done |].
  destruct (n <? m)%N; simpl; [done |].
  rewrite IH. apply Permutation_swap.
Qed.

(** [Object.values] lists the value of every property once. *)
Lemma Object_values_all o : Object_values o ≡ₚ map snd o.
Proof.
  unfold Object_values. induction o as [| [k v] o IH]; simpl; [done |].
  destruct (array_index k) as [n |].
  - rewrite insert_by_index_values. simpl. by rewrite IH.
  - rewrite <- Permutation_middle. by rewrite IH.
Qed.

Lemma obj_get_elem key v o : obj_get key o = Some v -> (key, v) ∈ o.
Proof.
  induction o as [| [k w] o IH]; simpl; [done |].
  case_bool_decide as Hk.
  - intros [= ->]. subst. apply list_elem_of_here.
  - intros H. apply list_elem_of_further. auto.
Qed.

Lemma obj_get_in_values key v o : obj_get key o = Some v -> v ∈ Object_values o.
Proof.
  intros H. rewrite Object_values_all. apply list_elem_of_fmap.
  exists (key, v). split; [done | by apply obj_get_elem].
Qed.

Lemma obj_get_set key v o : obj_get key (obj_set key v o) = Some v.
Proof.
  induction o as [| [k w] o IH]; simpl.
  - by rewrite bool_decide_true.
  - case_bool_decide as Hk; simpl.
    + by rewrite bool_decide_true.
    + by rewrite bool_decide_false.
Qed.

Lemma obj_get_set_other key key' v o :
  key <> key' -> obj_get key' (obj_set key v o) = obj_get key' o.
Proof.
  intros Hne. induction o as [| [k w] o IH]; simpl.
  - by rewrite bool_decide_false.
  - case_bool_decide as Hk; simpl.
    + subst. by rewrite !bool_decide_false.
    + by rewrite IH.
Qed.

End ObjFacts.

Example Object_values_order :
  Object_values [ (js "b", 1); (js "10", 2); (js "a", 3); (js "9", 4); (js "07", 5) ]
  = [4; 2; 1; 3; 5].
Proof. vm_compute. reflexivity. Qed.

(** ** The page scripts *)

Example django_init_sample :
  Django.init Samples.django_page = Normal Samples.django_state.
Proof. vm_compute. reflexivity. Qed.

Example rooms_init_sample :
  Rooms.init Samples.rooms_page = Normal Samples.rooms_state.
Proof. vm_compute. reflexivity. Qed.

Example django_pool_sample :
  Django.calendars Samples.django_state
  = [ (js "calendar1", 0); (js "calendar2", 1); (js "calendar3", 2); (js "calendar4", 3) ].
Proof. vm_compute. reflexivity. Qed.

Example rooms_pool_sample :
  Rooms.calendars Samples.rooms_state = [ (js "7", 0); (js "3", 1) ]
  /\ Object_values (Rooms.calendars Samples.rooms_state) = [1; 0].
Proof. vm_compute. done. Qed.

(** *** The event source (C5) *)

(** C5. When FullCalendar asks widget [cal] for the events of a range,
    the event source calls [fetch] once, with a URL made of the endpoint,
    the range's [startStr] and [endStr] and, on the rooms page, the
    widget's room id. When that chain settles, in whatever state the page
    then is, the parsed body goes unchanged to the widget's success
    callback and nothing else happens; a rejection (failed request or
    body that is not JSON) is logged and goes to the failure callback. *)
Theorem event_source_requests_range_and_forwards :
  (forall (st : Django.state) cal w startStr endStr,
      Django.widgets st !! cal = Some w ->
      let r := {| req_url := js "/appointments/api/appointments/?start=" ++ startStr
                             ++ js "&end=" ++ endStr;
                  req_method := GET; req_headers := []; req_body := None |} in
      let st' := Django.step st (Django.FetchEvents cal startStr endStr) in
      Django.trace st' = Django.trace st ++ [Fetch r]
      /\ Django.pending st' = Django.pending st ++ [(r, Django.EventsFetched cal)])
  /\ (forall (st : Django.state) i r cal,
        Django.pending st !! i = Some (r, Django.EventsFetched cal) ->
        (forall data,
            Django.trace (Django.step st (Django.Settle i (Parsed data)))
            = Django.trace st ++ [SuccessCallback cal data])
        /\ (forall err,
              Django.trace (Django.step st (Django.Settle i (Rejected err)))
              = Django.trace st
                ++ [ConsoleError (js "Error fetching appointments:") err;
                    FailureCallback cal err]))
  /\ (forall (st : Rooms.state) cal w startStr endStr,
        Rooms.widgets st !! cal = Some w ->
        let r := {| req_url := js "/appointments/api/room-appointments/?start=" ++ startStr
                               ++ js "&end=" ++ endStr
                               ++ js "&room_id=" ++ Rooms.id (Rooms.w_config w);
                    req_method := GET; req_headers := []; req_body := None |} in
        let st' := Rooms.step st (Rooms.FetchEvents cal startStr endStr) in
        Rooms.trace st' = Rooms.trace st ++ [Fetch r]
        /\ Rooms.pending st'
           = Rooms.pending st ++ [(r, Rooms.EventsFetched cal (Rooms.w_config w))])
  /\ (forall (st : Rooms.state) i r cal roomConfig,
        Rooms.pending st !! i = Some (r, Rooms.EventsFetched cal roomConfig) ->
        (forall data,
            Rooms.trace (Rooms.step st (Rooms.Settle i (Parsed data)))
            = Rooms.trace st ++ [SuccessCallback cal data])
        /\ (forall err,
              Rooms.trace (Rooms.step st (Rooms.Settle i (Rejected err)))
              = Rooms.trace st
                ++ [ConsoleError (js "Error fetching appointments for "
                                  ++ Rooms.name_text (Rooms.name roomConfig) ++ js ":") err;
                    FailureCallback cal err])).
Proof.
  split; [| split; [| split]].
  - intros st cal w startStr endStr Hw. simpl. unfold Django.on_widget.
    rewrite Hw. done.
  - intros st i r cal Hp. simpl. unfold Django.settle. rewrite Hp.
    split; [done |]. intros err. simpl. by rewrite <- (assoc_L (++)).
  - intros st cal w startStr endStr Hw. simpl. unfold Rooms.on_widget.
    rewrite Hw. done.
  - intros st i r cal roomConfig Hp. simpl. unfold Rooms.settle. rewrite Hp.
    split; [done |]. intros err. simpl. by rewrite <- (assoc_L (++)).
Qed.

(** The event source on the sample rooms page: the second widget asks
    for room 3. *)
Example event_source_rooms_sample :
  let st := Rooms.step Samples.rooms_state
              (Rooms.FetchEvents 1 (js "2024-05-01T00:00:00+03:00") (js "2024-05-02T00:00:00+03:00")) in
  map fst (Rooms.pending st)
  = [ {| req_url := js "/appointments/api/room-appointments/?start=2024-05-01T00:00:00+03:00&end=2024-05-02T00:00:00+03:00&room_id=3";
         req_method := GET; req_headers := []; req_body := None |} ].
Proof. vm_compute. reflexivity. Qed.

(** *** Calls on every widget of the pool *)

Lemma django_emit_each (f : nat -> effect) (l : list nat) (st : Django.state) :
  foldl (fun s cal => Django.emit (f cal) s) st l
  = Django.set_trace (Django.trace st ++ map f l) st.
Proof.
  revert st. induction l as [| cal l IH]; intros st; simpl.
  - rewrite app_nil_r. by destruct st.
  - rewrite IH. unfold Django.emit, Django.set_trace. simpl.
    by rewrite <- (assoc_L (++)).
Qed.

Lemma django_refetch_all (st : Django.state) :
  Django.refetch_all st
  = Django.set_trace
      (Django.trace st ++ map Refetch (Object_values (Django.calendars st))) st.
Proof. apply django_emit_each. Qed.

Lemma rooms_emit_each (f : nat -> effect) (l : list nat) (st : Rooms.state) :
  foldl (fun s cal => Rooms.emit (f cal) s) st l
  = Rooms.set_trace (Rooms.trace st ++ map f l) st.
Proof.
  revert st. induction l as [| cal l IH]; intros st; simpl.
  - rewrite app_nil_r. by destruct st.
  - rewrite IH. unfold Rooms.emit, Rooms.set_trace. simpl.
    by rewrite <- (assoc_L (++)).
Qed.

Lemma rooms_refetch_all (st : Rooms.state) :
  Rooms.refetch_all st
  = Rooms.set_trace
      (Rooms.trace st ++ map Refetch (Object_values (Rooms.calendars st))) st.
Proof. apply rooms_emit_each. Qed.

(** Every widget the map holds is among those a fan-out calls. *)
Lemma pool_member_refetched (calendars : list (jsstring * nat)) (key : jsstring) (cal : nat) :
  obj_get key calendars = Some cal ->
  Refetch cal ∈ map Refetch (Object_values calendars).
Proof.
  intros H. apply list_elem_of_fmap. exists cal. split; [done |].
  by eapply obj_get_in_values.
Qed.

(** What [accepts] and [says_no] say about the first read of the body. *)
Lemma accepts_parsed (data : json) :
  accepts (Parsed data) = true ->
  exists success, get_prop data (js "success") = Normal success /\ truthy success = true.
Proof.
  unfold accepts. destruct (get_prop data (js "success")) as [v |]; [| done]. eauto.
Qed.

Lemma says_no_parsed (data : json) :
  says_no data = true ->
  exists success,
    get_prop data (js "success") = Normal success /\ truthy success = false
    /\ get_prop data (js "message") = Normal (message_of data).
Proof.
  unfold says_no, message_of. destruct data; simpl; try done.
  all: intros H; eexists; split; [done |]; split; [| done].
  all: first [done | by apply negb_true_iff in H].
Qed.

Lemma not_accepted (o : outcome) :
  accepts o = false ->
  (exists err, o = Rejected err)
  \/ (exists data, o = Parsed data /\ says_no data = true)
  \/ o = Parsed JNull.
Proof.
  destruct o as [data | err]; [| by left; eauto]. intros H.
  destruct data; try (by right; right).
  all: right; left; eexists; split; [done |].
  all: unfold accepts, says_no in *; simpl in *; by rewrite ?H.
Qed.

(** *** The mutation relay: drag, resize, delete (C1) *)

(** Traces grow by nested appends; this compares them flattened. *)
Ltac trace_eq := simpl; rewrite <- ?app_assoc; simpl; reflexivity.

Lemma django_update_refused (st : Django.state) (i : nat) (r : request)
    (k : Django.continuation) (cal : nat) (info : ChangeInfo) (o : outcome) :
  Django.pending st !! i = Some (r, k) ->
  k = Django.DropAnswered cal info \/ k = Django.ResizeAnswered cal info ->
  accepts o = false ->
  let st' := Django.step st (Django.Settle i o) in
  Django.trace st'
  = Django.trace st
    ++ refusal_notices (js "Error updating appointment: ")
         (js "Error updating appointment") o
    ++ [Revert cal info]
  /\ Django.display st'
     = <[(cal, ev_id (event info)) := span_of (oldEvent info)]> (Django.display st)
  /\ Django.calendars st' = Django.calendars st
  /\ Django.widgets st' = Django.widgets st.
Proof.
  intros Hp Hk Ho. simpl. unfold Django.settle. rewrite Hp.
  apply not_accepted in Ho as [[err ->] | [(data & -> & Hno) | ->]].
  - destruct Hk as [-> | ->]; simpl.
    all: split; [trace_eq | done].
  - destruct (says_no_parsed data Hno) as (success & Hs & Hf & Hm).
    unfold refusal_notices. rewrite Hno.
    destruct Hk as [-> | ->]; simpl.
    all: unfold Django.eventDrop_settled, Django.eventResize_settled, Django.then_catch.
    all: rewrite Hs; simpl; rewrite Hf, Hm; simpl.
    all: split; [trace_eq | done].
  - destruct Hk as [-> | ->]; simpl.
    all: split; [trace_eq | done].
Qed.

Lemma rooms_update_refused (st : Rooms.state) (i : nat) (r : request)
    (k : Rooms.continuation) (cal : nat) (info : ChangeInfo) (o : outcome) :
  Rooms.pending st !! i = Some (r, k) ->
  k = Rooms.DropAnswered cal info \/ k = Rooms.ResizeAnswered cal info ->
  accepts o = false ->
  let st' := Rooms.step st (Rooms.Settle i o) in
  Rooms.trace st'
  = Rooms.trace st
    ++ refusal_notices (js "Σφάλμα: ") (js "Σφάλμα κατά την ενημέρωση") o
    ++ [Revert cal info]
  /\ Rooms.display st'
     = <[(cal, ev_id (event info)) := span_of (oldEvent info)]> (Rooms.display st)
  /\ Rooms.calendars st' = Rooms.calendars st
  /\ Rooms.widgets st' = Rooms.widgets st.
Proof.
  intros Hp Hk Ho. simpl. unfold Rooms.settle. rewrite Hp.
  apply not_accepted in Ho as [[err ->] | [(data & -> & Hno) | ->]].
  - destruct Hk as [-> | ->]; simpl.
    all: split; [trace_eq | done].
  - destruct (says_no_parsed data Hno) as (success & Hs & Hf & Hm).
    unfold refusal_notices. rewrite Hno.
    destruct Hk as [-> | ->]; simpl.
    all: unfold Rooms.eventDrop_settled, Rooms.eventResize_settled, Rooms.then_catch.
    all: rewrite Hs; simpl; rewrite Hf, Hm; simpl.
    all: split; [trace_eq | done].
  - destruct Hk as [-> | ->]; simpl.
    all: split; [trace_eq | done].
Qed.

Lemma django_change_step (st : Django.state) (cal : nat) (w : Django.widget)
    (info : ChangeInfo) :
  Django.widgets st !! cal = Some w ->
  Django.step st (Django.EventDrop cal info)
  = Django.eventDrop cal info (Django.apply_change cal info st)
  /\ Django.step st (Django.EventResize cal info)
     = Django.eventResize cal info (Django.apply_change cal info st).
Proof. intros Hw. simpl. unfold Django.on_widget. by rewrite Hw. Qed.

Lemma rooms_change_step (st : Rooms.state) (cal : nat) (w : Rooms.widget)
    (info : ChangeInfo) :
  Rooms.widgets st !! cal = Some w ->
  Rooms.step st (Rooms.EventDrop cal info)
  = Rooms.eventDrop cal (Rooms.w_config w) info (Rooms.apply_change cal info st)
  /\ Rooms.step st (Rooms.EventResize cal info)
     = Rooms.eventResize cal info (Rooms.apply_change cal info st).
Proof. intros Hw. simpl. unfold Rooms.on_widget. by rewrite Hw. Qed.

(** A refused drag or resize, from the interaction to the answer: the
    event is displayed as [oldEvent] again, and the display of no other
    event has changed. *)
Lemma django_change_undone (st : Django.state) (cal : nat) (w : Django.widget)
    (info : ChangeInfo) (o : outcome) (change : Django.input) :
  Django.widgets st !! cal = Some w ->
  change = Django.EventDrop cal info \/ change = Django.EventResize cal info ->
  accepts o = false ->
  Django.display
    (Django.run st [change; Django.Settle (length (Django.pending st)) o])
  = <[(cal, ev_id (event info)) := span_of (oldEvent info)]> (Django.display st).
Proof.
  intros Hw Hchange Ho.
  destruct (django_change_step st cal w info Hw) as [Hdrop Hresize].
  unfold Django.run. cbn [foldl].
  set (st1 := Django.step st change).
  assert (exists r k,
             Django.pending st1 !! length (Django.pending st) = Some (r, k)
             /\ (k = Django.DropAnswered cal info \/ k = Django.ResizeAnswered cal info)
             /\ Django.display st1
                = <[(cal, ev_id (event info)) := span_of (event info)]> (Django.display st))
    as (r & k & Hp & Hk & Hd).
  { subst st1. destruct Hchange as [-> | ->]; [rewrite Hdrop | rewrite Hresize].
    all: eexists _, _; simpl; split; [by apply list_lookup_middle |]; auto. }
  destruct (django_update_refused st1 _ r k cal info o Hp Hk Ho) as (_ & -> & _).
  rewrite Hd. apply insert_insert_eq.
Qed.

Lemma rooms_change_undone (st : Rooms.state) (cal : nat) (w : Rooms.widget)
    (info : ChangeInfo) (o : outcome) (change : Rooms.input) :
  Rooms.widgets st !! cal = Some w ->
  change = Rooms.EventDrop cal info \/ change = Rooms.EventResize cal info ->
  accepts o = false ->
  Rooms.display
    (Rooms.run st [change; Rooms.Settle (length (Rooms.pending st)) o])
  = <[(cal, ev_id (event info)) := span_of (oldEvent info)]> (Rooms.display st).
Proof.
  intros Hw Hchange Ho.
  destruct (rooms_change_step st cal w info Hw) as [Hdrop Hresize].
  unfold Rooms.run. cbn [foldl].
  set (st1 := Rooms.step st change).
  assert (exists r k,
             Rooms.pending st1 !! length (Rooms.pending st) = Some (r, k)
             /\ (k = Rooms.DropAnswered cal info \/ k = Rooms.ResizeAnswered cal info)
             /\ Rooms.display st1
                = <[(cal, ev_id (event info)) := span_of (event info)]> (Rooms.display st))
    as (r & k & Hp & Hk & Hd).
  { subst st1. destruct Hchange as [-> | ->]; [rewrite Hdrop | rewrite Hresize].
    all: eexists _, _; simpl; split; [by apply list_lookup_middle |]; auto. }
  destruct (rooms_update_refused st1 _ r k cal info o Hp Hk Ho) as (_ & -> & _).
  rewrite Hd. apply insert_insert_eq.
Qed.

(** A refused delete: the user is told, nothing is reverted and the
    display is not touched. *)
Lemma django_delete_refused (st : Django.state) (i : nat) (r : request) (o : outcome) :
  Django.pending st !! i = Some (r, Django.DeleteAnswered) ->
  accepts o = false ->
  let st' := Django.step st (Django.Settle i o) in
  Django.trace st'
  = Django.trace st ++ refusal_notices (js "Error: ") (js "Error deleting appointment") o
  /\ Django.display st' = Django.display st.
Proof.
  intros Hp Ho. simpl. unfold Django.settle. rewrite Hp.
  apply not_accepted in Ho as [[err ->] | [(data & -> & Hno) | ->]]; simpl.
  - split; [trace_eq | done].
  - destruct (says_no_parsed data Hno) as (success & Hs & Hf & Hm).
    rewrite Hno. unfold Django.delete_settled, Django.then_catch.
    rewrite Hs; simpl; rewrite Hf, Hm; simpl.
    split; [trace_eq | done].
  - split; [trace_eq | done].
Qed.

Lemma rooms_delete_refused (st : Rooms.state) (i : nat) (r : request) (o : outcome) :
  Rooms.pending st !! i = Some (r, Rooms.DeleteAnswered) ->
  accepts o = false ->
  let st' := Rooms.step st (Rooms.Settle i o) in
  Rooms.trace st'
  = Rooms.trace st ++ refusal_notices (js "Σφάλμα: ") (js "Σφάλμα κατά τη διαγραφή") o
  /\ Rooms.display st' = Rooms.display st.
Proof.
  intros Hp Ho. simpl. unfold Rooms.settle. rewrite Hp.
  apply not_accepted in Ho as [[err ->] | [(data & -> & Hno) | ->]]; simpl.
  - split; [trace_eq | done].
  - destruct (says_no_parsed data Hno) as (success & Hs & Hf & Hm).
    rewrite Hno. unfold Rooms.delete_settled, Rooms.then_catch.
    rewrite Hs; simpl; rewrite Hf, Hm; simpl.
    split; [trace_eq | done].
  - split; [trace_eq | done].
Qed.

(** Whatever the refusal, its notices end with an alert and hold no
    call of [revert]. *)
Lemma refusal_notices_alert (prefix plain : jsstring) (o : outcome) :
  (exists logged m, refusal_notices prefix plain o = logged ++ [Alert m])
  /\ List.filter is_revert (refusal_notices prefix plain o) = [].
Proof.
  unfold refusal_notices. destruct o as [data | err]; [destruct (says_no data) |].
  - split; [by exists [], (TextPlus prefix (message_of data)) | done].
  - split; [by eexists [_], (Text plain) | done].
  - split; [by eexists [_], (Text plain) | done].
Qed.



(** The rolled-back drag on the sample page: appointment 42 is dragged
    from 09:00 to 11:00 and the server refuses. *)
Example refused_drag_sample :
  let refused :=
    Django.run Samples.django_state
      [Django.EventDrop 0 Samples.a_change; Django.Settle 0 (Parsed Samples.refusal)] in
  Django.display refused = {[ (0, js "42") := span_of Samples.appointment ]}
  /\ Django.trace refused
     = Django.trace Samples.django_state
       ++ [ Fetch {| req_url := js "/appointments/api/appointments/42/update/";
                     req_method := POST;
                     req_headers := [ (js "Content-Type", Some (js "application/json"));
                                      (js "X-CSRFToken", Some (js "Tq9/v")) ];
                     req_body := Some [ (js "start", Some (js "2024-05-01T11:00:00.000Z")) ] |};
            Alert (TextPlus (js "Error updating appointment: ") (Some (JStr (js "Slot taken"))));
            Revert 0 Samples.a_change ].
Proof. vm_compute. done. Qed.

(** *** Creating from a date click (C2) *)

(** C2, as the code has it. On the day-offset page a date click only
    prepares the modal and remembers the click, and submitting the form
    with no event selected shows an alert pointing to the full creation
    form and hides the modal: no request is sent. On the rooms page a
    date click navigates to the creation form, with the room and the
    clicked time in the query. *)
Theorem date_click_create_sends_no_request :
  (forall (st : Django.state) cal w date,
      Django.widgets st !! cal = Some w ->
      let st' := Django.step st (Django.DateClick cal date) in
      Django.trace st' = Django.trace st ++ [FormReset; ModalShow]
      /\ Django.pending st' = Django.pending st
      /\ Django.currentEvent st' = None
      /\ Django.clickedInfo st' = Some (date, Django.id (Django.w_config w)))
  /\ (forall (st : Django.state),
        Django.currentEvent st = None ->
        is_Some (Django.clickedInfo st) ->
        let st' := Django.step st Django.Submit in
        Django.trace st'
        = Django.trace st
          ++ [Alert (Text (js "To create appointments, please use the full appointment creation form."));
              ModalHide]
        /\ Django.pending st' = Django.pending st
        /\ Django.modal_open (Django.dom st') = false)
  /\ (forall (st : Rooms.state) cal w date,
        Rooms.widgets st !! cal = Some w ->
        let st' := Rooms.step st (Rooms.DateClick cal date) in
        Rooms.trace st'
        = Rooms.trace st
          ++ [Navigate (js "/appointments/create/?room=" ++ Rooms.id (Rooms.w_config w)
                        ++ js "&start=" ++ toISOString date)]
        /\ Rooms.pending st' = Rooms.pending st).
Proof.
  repeat apply conj.
  - intros st cal w date Hw. simpl. unfold Django.on_widget. rewrite Hw.
    repeat apply conj; [trace_eq | done..].
  - intros st Hev Hclick. simpl. unfold Django.submit. rewrite Hev.
    rewrite bool_decide_false by (by intros [? ?]). simpl.
    rewrite bool_decide_true by done.
    repeat apply conj; [trace_eq | done..].
  - intros st cal w date Hw. simpl. unfold Rooms.on_widget. rewrite Hw. done.
Qed.

(** C2 as stated fails: on the sample day-offset page, a click on a
    date of the first calendar followed by the submission of the form
    sends nothing. *)
Lemma date_click_then_submit_sends_nothing :
  let st := Django.run Samples.django_state
              [Django.DateClick 0 Samples.a_click; Django.Submit] in
  Django.pending st = []
  /\ List.filter is_fetch (Django.trace st) = []
  /\ Django.trace st
     = Django.trace Samples.django_state
       ++ [FormReset; ModalShow;
           Alert (Text (js "To create appointments, please use the full appointment creation form."));
           ModalHide].
Proof. vm_compute. done. Qed.

(** *** A refused edit or delete (C10) *)


(** A refused edit on the sample page: the modal stays open. *)
Example refused_edit_sample :
  let editing := Django.run Samples.django_state
                   [Django.EventClick 0 Samples.appointment; Django.Submit] in
  let refused := Django.step editing (Django.Settle 0 (Parsed Samples.refusal)) in
  Django.trace refused
  = Django.trace editing
    ++ [Alert (TextPlus (js "Error: ") (Some (JStr (js "Slot taken"))))]
  /\ Django.modal_open (Django.dom refused) = true
  /\ Django.calendars refused = Django.calendars Samples.django_state.
Proof. vm_compute. done. Qed.

(** *** The refresh fan-out after an accepted mutation (C3) *)

Lemma django_accepted (st : Django.state) (i : nat) (r : request)
    (k : Django.continuation) (o : outcome) :
  Django.pending st !! i = Some (r, k) ->
  accepts o = true ->
  let fan_out := map Refetch (Object_values (Django.calendars st)) in
  Django.trace (Django.step st (Django.Settle i o))
  = Django.trace st
    ++ match k with
       | Django.EventsFetched cal =>
           match o with Parsed data => [SuccessCallback cal data] | Rejected _ => [] end
       | Django.DropAnswered _ _ =>
           ConsoleLog (js "Appointment moved successfully") :: fan_out
       | Django.ResizeAnswered _ _ => [ConsoleLog (js "Appointment duration updated")]
       | Django.EditAnswered =>
           fan_out ++ [ModalHide; Alert (Text (js "Appointment updated successfully!"))]
       | Django.DeleteAnswered =>
           fan_out ++ [ModalHide; Alert (Text (js "Appointment deleted successfully!"))]
       end.
Proof.
  intros Hp Ho. simpl. unfold Django.settle. rewrite Hp.
  destruct o as [data | err]; [| done].
  apply accepts_parsed in Ho as (success & Hs & Ht).
  destruct k; simpl.
  all: unfold Django.eventDrop_settled, Django.eventResize_settled,
         Django.submit_settled, Django.delete_settled, Django.then_catch.
  all: rewrite ?Hs; simpl; rewrite ?Ht; simpl.
  all: rewrite ?django_refetch_all; simpl; rewrite <- ?app_assoc; done.
Qed.

Lemma rooms_accepted (st : Rooms.state) (i : nat) (r : request)
    (k : Rooms.continuation) (o : outcome) :
  Rooms.pending st !! i = Some (r, k) ->
  accepts o = true ->
  let fan_out := map Refetch (Object_values (Rooms.calendars st)) in
  Rooms.trace (Rooms.step st (Rooms.Settle i o))
  = Rooms.trace st
    ++ match k with
       | Rooms.EventsFetched cal _ =>
           match o with Parsed data => [SuccessCallback cal data] | Rejected _ => [] end
       | Rooms.DropAnswered _ _ =>
           ConsoleLog (js "Appointment moved successfully") :: fan_out
       | Rooms.ResizeAnswered _ _ => []
       | Rooms.DeleteAnswered =>
           fan_out ++ [ModalHide; Alert (Text (js "Το ραντεβού διαγράφηκε επιτυχώς!"))]
       end.
Proof.
  intros Hp Ho. simpl. unfold Rooms.settle. rewrite Hp.
  destruct o as [data | err]; [| done].
  apply accepts_parsed in Ho as (success & Hs & Ht).
  destruct k; simpl.
  all: unfold Rooms.eventDrop_settled, Rooms.eventResize_settled,
         Rooms.delete_settled, Rooms.then_catch.
  all: rewrite ?Hs; simpl; rewrite ?Ht; simpl.
  all: rewrite ?rooms_refetch_all; simpl; rewrite <- ?app_assoc, ?app_nil_r; done.
Qed.

(** C3, as the code has it. When the server accepts a drag (on either
    page) or an edit from the modal, [refetchEvents] is called on every
    widget the [calendars] map holds, each exactly as often as
    [Object.values] lists it. When it accepts a resize, no widget is
    refetched: the day-offset page only logs, the rooms page does
    nothing. *)
Theorem accepted_drag_or_edit_refetches_pool_resize_does_not :
  (forall (st : Django.state) i r cal info o,
      Django.pending st !! i = Some (r, Django.DropAnswered cal info) ->
      accepts o = true ->
      Django.trace (Django.step st (Django.Settle i o))
      = Django.trace st
        ++ ConsoleLog (js "Appointment moved successfully")
           :: map Refetch (Object_values (Django.calendars st)))
  /\ (forall (st : Django.state) i r o,
        Django.pending st !! i = Some (r, Django.EditAnswered) ->
        accepts o = true ->
        Django.trace (Django.step st (Django.Settle i o))
        = Django.trace st
          ++ map Refetch (Object_values (Django.calendars st))
          ++ [ModalHide; Alert (Text (js "Appointment updated successfully!"))])
  /\ (forall (st : Django.state) i r cal info o,
        Django.pending st !! i = Some (r, Django.ResizeAnswered cal info) ->
        accepts o = true ->
        Django.trace (Django.step st (Django.Settle i o))
        = Django.trace st ++ [ConsoleLog (js "Appointment duration updated")])
  /\ (forall (st : Rooms.state) i r cal info o,
        Rooms.pending st !! i = Some (r, Rooms.DropAnswered cal info) ->
        accepts o = true ->
        Rooms.trace (Rooms.step st (Rooms.Settle i o))
        = Rooms.trace st
          ++ ConsoleLog (js "Appointment moved successfully")
             :: map Refetch (Object_values (Rooms.calendars st)))
  /\ (forall (st : Rooms.state) i r cal info o,
        Rooms.pending st !! i = Some (r, Rooms.ResizeAnswered cal info) ->
        accepts o = true ->
        Rooms.trace (Rooms.step st (Rooms.Settle i o)) = Rooms.trace st)
  /\ (forall (calendars : list (jsstring * nat)) key cal,
        obj_get key calendars = Some cal ->
        Refetch cal ∈ map Refetch (Object_values calendars)).
Proof.
  repeat apply conj.
  - intros st i r cal info o Hp Ho. by rewrite (django_accepted st i r _ o Hp Ho).
  - intros st i r o Hp Ho. by rewrite (django_accepted st i r _ o Hp Ho).
  - intros st i r cal info o Hp Ho. by rewrite (django_accepted st i r _ o Hp Ho).
  - intros st i r cal info o Hp Ho. by rewrite (rooms_accepted st i r _ o Hp Ho).
  - intros st i r cal info o Hp Ho.
    rewrite (rooms_accepted st i r _ o Hp Ho). apply app_nil_r.
  - apply pool_member_refetched.
Qed.

(** C3 as stated fails for resize: on the sample day-offset page the
    first calendar is in the pool, an event of it is resized and the
    server accepts, and [refetchEvents] is called on no calendar. *)
Lemma accepted_resize_refetches_nothing :
  let resized := Django.run Samples.django_state
                   [Django.EventResize 0 Samples.a_change;
                    Django.Settle 0 (Parsed Samples.approval)] in
  obj_get (js "calendar1") (Django.calendars resized) = Some 0
  /\ refetch_count 0 (Django.trace resized) = 0
  /\ List.filter (fun e => match e with Refetch _ => true | _ => false end)
       (Django.trace resized) = [].
Proof. vm_compute. done. Qed.

(** An accepted drag on the sample rooms page: both rooms are
    refetched, in the order of [Object.values] (room 3 before room 7). *)
Example accepted_drag_sample :
  let dragged := Rooms.run Samples.rooms_state
                   [Rooms.EventDrop 0 Samples.a_change;
                    Rooms.Settle 0 (Parsed Samples.approval)] in
  Rooms.trace dragged
  = Rooms.trace Samples.rooms_state
    ++ [ Fetch {| req_url := js "/appointments/api/appointments/42/update/";
                  req_method := POST;
                  req_headers := [ (js "Content-Type", Some (js "application/json"));
                                   (js "X-CSRFToken", Some (js "Tq9/v")) ];
                  req_body := Some [ (js "start", Some (js "2024-05-01T11:00:00.000Z"));
                                     (js "room_id", Some (js "7")) ] |};
         ConsoleLog (js "Appointment moved successfully");
         Refetch 1; Refetch 0 ].
Proof. vm_compute. done. Qed.

(** *** What no handler touches *)

Lemma django_keeps_refl (st : Django.state) : django_keeps st st.
Proof. repeat split. exists []. by rewrite app_nil_r. Qed.

Lemma django_keeps_trans (st1 st2 st3 : Django.state) :
  django_keeps st1 st2 -> django_keeps st2 st3 -> django_keeps st1 st3.
Proof.
  intros (Hc & Hw & [a Ha] & Hn & Ht & Hb) (Hc' & Hw' & [a' Ha'] & Hn' & Ht' & Hb').
  repeat split; try congruence.
  exists (a ++ a'). by rewrite Ha', Ha, <- app_assoc.
Qed.

Lemma django_keeps_emit (e : effect) (st0 st : Django.state) :
  django_keeps st0 st -> django_keeps st0 (Django.emit e st).
Proof.
  intros H. eapply django_keeps_trans; [exact H |].
  repeat split. by exists [e].
Qed.

Lemma django_keeps_set_currentEvent v (st0 st : Django.state) :
  django_keeps st0 st -> django_keeps st0 (Django.set_currentEvent v st).
Proof. intros H. repeat split; apply H. Qed.

Lemma django_keeps_set_currentCalendarId v (st0 st : Django.state) :
  django_keeps st0 st -> django_keeps st0 (Django.set_currentCalendarId v st).
Proof. intros H. repeat split; apply H. Qed.

Lemma django_keeps_set_clickedInfo v (st0 st : Django.state) :
  django_keeps st0 st -> django_keeps st0 (Django.set_clickedInfo v st).
Proof. intros H. repeat split; apply H. Qed.

Lemma django_keeps_set_dom v (st0 st : Django.state) :
  django_keeps st0 st -> django_keeps st0 (Django.set_dom v st).
Proof. intros H. repeat split; apply H. Qed.

Lemma django_keeps_set_display v (st0 st : Django.state) :
  django_keeps st0 st -> django_keeps st0 (Django.set_display v st).
Proof. intros H. repeat split; apply H. Qed.

Lemma django_keeps_set_pending v (st0 st : Django.state) :
  django_keeps st0 st -> django_keeps st0 (Django.set_pending v st).
Proof. intros H. repeat split; apply H. Qed.

Lemma django_keeps_gotoDate (cal : nat) (d : LocalDate) (st0 st : Django.state) :
  django_keeps st0 st -> django_keeps st0 (Django.gotoDate cal d st).
Proof.
  intros H. eapply django_keeps_trans; [exact H |].
  repeat split; simpl.
  - rewrite (list_fmap_alter _ _ id); [by apply list_alter_id | by apply Forall_true].
  - by eexists [_].
Qed.

Lemma django_keeps_refetch_all (st0 st : Django.state) :
  django_keeps st0 st -> django_keeps st0 (Django.refetch_all st).
Proof.
  intros H. eapply django_keeps_trans; [exact H |].
  rewrite django_refetch_all. repeat split. by eexists.
Qed.

(** Splits on the tests of a handler, unfolds it down to the calls above
    and closes the goal. *)
Ltac split_tests :=
  repeat match goal with |- context [if ?c then _ else _] => destruct c end.

Ltac django_keeps_tac :=
  simpl; split_tests; simpl;
  repeat lazymatch goal with
    | |- django_keeps ?st ?st => apply django_keeps_refl
    | |- django_keeps _ (Django.emit _ _) => apply django_keeps_emit
    | |- django_keeps _ (Django.gotoDate _ _ _) => apply django_keeps_gotoDate
    | |- django_keeps _ (Django.refetch_all _) => apply django_keeps_refetch_all
    | |- django_keeps _ (Django.set_currentEvent _ _) => apply django_keeps_set_currentEvent
    | |- django_keeps _ (Django.set_currentCalendarId _ _) =>
        apply django_keeps_set_currentCalendarId
    | |- django_keeps _ (Django.set_clickedInfo _ _) => apply django_keeps_set_clickedInfo
    | |- django_keeps _ (Django.set_dom _ _) => apply django_keeps_set_dom
    | |- django_keeps _ (Django.set_display _ _) => apply django_keeps_set_display
    | |- django_keeps _ (Django.set_pending _ _) => apply django_keeps_set_pending
    | |- django_keeps _ (Django.call_fetch _ _ _) => unfold Django.call_fetch
    | |- django_keeps _ (Django.show_modal _) => unfold Django.show_modal
    | |- django_keeps _ (Django.hide_modal _) => unfold Django.hide_modal
    | |- django_keeps _ (Django.reset_form _) => unfold Django.reset_form
    | |- django_keeps _ (Django.revert _ _ _) => unfold Django.revert
    | |- django_keeps _ (Django.apply_change _ _ _) => unfold Django.apply_change
    | |- django_keeps _ (Django.update_failed _ _ _ _) => unfold Django.update_failed
    end.

Lemma django_keeps_sync (today : LocalDate) (configs : list Django.config) (index : Z)
    (st0 st : Django.state) :
  django_keeps st0 st -> django_keeps st0 (Django.sync_from today index configs st).
Proof.
  revert index st. induction configs as [| config rest IH]; intros index st H; simpl.
  - done.
  - destruct (obj_get (Django.id config) (Django.calendars st)) as [cal |].
    + apply IH. by apply django_keeps_gotoDate.
    + by apply django_keeps_emit.
Qed.

Lemma django_keeps_settle (i : nat) (o : outcome) (st : Django.state) :
  django_keeps st (Django.settle i o st).
Proof.
  unfold Django.settle. destruct (Django.pending st !! i) as [[r k] |];
    [| apply django_keeps_refl].
  destruct k, o as [data | err]; simpl.
  all: unfold Django.events_settled, Django.eventDrop_settled,
         Django.eventResize_settled, Django.submit_settled, Django.delete_settled,
         Django.then_catch.
  all: try destruct data; django_keeps_tac.
Qed.

(** Every input but the passing of time. *)
Lemma django_keeps_step (st : Django.state) (i : Django.input) :
  (forall dt, i <> Django.Elapse dt) -> django_keeps st (Django.step st i).
Proof.
  intros Hi.
  destruct i as [cal s e | cal ev | cal date | cal info | cal info | | confirmed
                | today | | i o | dt]; simpl.
  - unfold Django.on_widget. destruct (Django.widgets st !! cal); [| apply django_keeps_refl].
    unfold Django.events. django_keeps_tac.
  - unfold Django.on_widget. destruct (Django.widgets st !! cal); [| apply django_keeps_refl].
    unfold Django.eventClick. django_keeps_tac.
  - unfold Django.on_widget. destruct (Django.widgets st !! cal); [| apply django_keeps_refl].
    unfold Django.dateClick. django_keeps_tac.
  - unfold Django.on_widget. destruct (Django.widgets st !! cal); [| apply django_keeps_refl].
    unfold Django.eventDrop. django_keeps_tac.
  - unfold Django.on_widget. destruct (Django.widgets st !! cal); [| apply django_keeps_refl].
    unfold Django.eventResize. django_keeps_tac.
  - unfold Django.submit. django_keeps_tac.
  - unfold Django.delete_click. destruct (Django.currentEvent st); django_keeps_tac.
  - destruct (Django.buttons st); [apply django_keeps_sync |]; apply django_keeps_refl.
  - unfold Django.refresh_click. django_keeps_tac.
  - apply django_keeps_settle.
  - by destruct (Hi dt).
Qed.

(** The same for the rooms page. *)

Lemma rooms_keeps_refl (st : Rooms.state) : rooms_keeps st st.
Proof. repeat split. exists []. by rewrite app_nil_r. Qed.

Lemma rooms_keeps_trans (st1 st2 st3 : Rooms.state) :
  rooms_keeps st1 st2 -> rooms_keeps st2 st3 -> rooms_keeps st1 st3.
Proof.
  intros (Hc & Hw & [a Ha] & Hn & Ht & Hb) (Hc' & Hw' & [a' Ha'] & Hn' & Ht' & Hb').
  repeat split; try congruence.
  exists (a ++ a'). by rewrite Ha', Ha, <- app_assoc.
Qed.

Lemma rooms_keeps_emit (e : effect) (st0 st : Rooms.state) :
  rooms_keeps st0 st -> rooms_keeps st0 (Rooms.emit e st).
Proof.
  intros H. eapply rooms_keeps_trans; [exact H |].
  repeat split. by exists [e].
Qed.

Lemma rooms_keeps_set_currentEvent v (st0 st : Rooms.state) :
  rooms_keeps st0 st -> rooms_keeps st0 (Rooms.set_currentEvent v st).
Proof. intros H. repeat split; apply H. Qed.

Lemma rooms_keeps_set_currentDate v (st0 st : Rooms.state) :
  rooms_keeps st0 st -> rooms_keeps st0 (Rooms.set_currentDate v st).
Proof. intros H. repeat split; apply H. Qed.

Lemma rooms_keeps_set_dom v (st0 st : Rooms.state) :
  rooms_keeps st0 st -> rooms_keeps st0 (Rooms.set_dom v st).
Proof. intros H. repeat split; apply H. Qed.

Lemma rooms_keeps_set_date_display v (st0 st : Rooms.state) :
  rooms_keeps st0 st -> rooms_keeps st0 (Rooms.set_date_display v st).
Proof. intros H. repeat split; apply H. Qed.

Lemma rooms_keeps_set_display v (st0 st : Rooms.state) :
  rooms_keeps st0 st -> rooms_keeps st0 (Rooms.set_display v st).
Proof. intros H. repeat split; apply H. Qed.

Lemma rooms_keeps_set_pending v (st0 st : Rooms.state) :
  rooms_keeps st0 st -> rooms_keeps st0 (Rooms.set_pending v st).
Proof. intros H. repeat split; apply H. Qed.

Lemma rooms_keeps_gotoDate (cal : nat) (d : LocalDate) (st0 st : Rooms.state) :
  rooms_keeps st0 st -> rooms_keeps st0 (Rooms.gotoDate cal d st).
Proof.
  intros H. eapply rooms_keeps_trans; [exact H |].
  repeat split; simpl.
  - rewrite (list_fmap_alter _ _ id); [by apply list_alter_id | by apply Forall_true].
  - by eexists [_].
Qed.

Lemma rooms_keeps_refetch_all (st0 st : Rooms.state) :
  rooms_keeps st0 st -> rooms_keeps st0 (Rooms.refetch_all st).
Proof.
  intros H. eapply rooms_keeps_trans; [exact H |].
  rewrite rooms_refetch_all. repeat split. by eexists.
Qed.

Lemma rooms_keeps_goto_each (l : list nat) (st0 st : Rooms.state) :
  rooms_keeps st0 st ->
  rooms_keeps st0 (foldl (fun s cal => Rooms.gotoDate cal (Rooms.currentDate s) s) st l).
Proof.
  revert st. induction l as [| cal l IH]; intros st H; simpl; [done |].
  apply IH. by apply rooms_keeps_gotoDate.
Qed.

Ltac rooms_keeps_tac :=
  simpl; split_tests; simpl;
  repeat lazymatch goal with
    | |- rooms_keeps ?st ?st => apply rooms_keeps_refl
    | |- rooms_keeps _ (Rooms.emit _ _) => apply rooms_keeps_emit
    | |- rooms_keeps _ (Rooms.gotoDate _ _ _) => apply rooms_keeps_gotoDate
    | |- rooms_keeps _ (Rooms.refetch_all _) => apply rooms_keeps_refetch_all
    | |- rooms_keeps _ (Rooms.goto_all _) => apply rooms_keeps_goto_each
    | |- rooms_keeps _ (Rooms.set_currentEvent _ _) => apply rooms_keeps_set_currentEvent
    | |- rooms_keeps _ (Rooms.set_currentDate _ _) => apply rooms_keeps_set_currentDate
    | |- rooms_keeps _ (Rooms.set_dom _ _) => apply rooms_keeps_set_dom
    | |- rooms_keeps _ (Rooms.set_date_display _ _) => apply rooms_keeps_set_date_display
    | |- rooms_keeps _ (Rooms.set_display _ _) => apply rooms_keeps_set_display
    | |- rooms_keeps _ (Rooms.set_pending _ _) => apply rooms_keeps_set_pending
    | |- rooms_keeps _ (Rooms.call_fetch _ _ _) => unfold Rooms.call_fetch
    | |- rooms_keeps _ (Rooms.show_modal _) => unfold Rooms.show_modal
    | |- rooms_keeps _ (Rooms.hide_modal _) => unfold Rooms.hide_modal
    | |- rooms_keeps _ (Rooms.revert _ _ _) => unfold Rooms.revert
    | |- rooms_keeps _ (Rooms.apply_change _ _ _) => unfold Rooms.apply_change
    | |- rooms_keeps _ (Rooms.update_failed _ _ _ _) => unfold Rooms.update_failed
    | |- rooms_keeps _ (Rooms.updateDateDisplay _) => unfold Rooms.updateDateDisplay
    end.

Lemma rooms_keeps_settle (i : nat) (o : outcome) (st : Rooms.state) :
  rooms_keeps st (Rooms.settle i o st).
Proof.
  unfold Rooms.settle. destruct (Rooms.pending st !! i) as [[r k] |];
    [| apply rooms_keeps_refl].
  destruct k, o as [data | err]; simpl.
  all: unfold Rooms.events_settled, Rooms.eventDrop_settled,
         Rooms.eventResize_settled, Rooms.delete_settled, Rooms.then_catch.
  all: try destruct data; rooms_keeps_tac.
Qed.

Lemma rooms_keeps_navigation (st : Rooms.state) :
  rooms_keeps st (Rooms.prev_day_click st)
  /\ rooms_keeps st (Rooms.next_day_click st)
  /\ forall today, rooms_keeps st (Rooms.today_click today st).
Proof.
  unfold Rooms.prev_day_click, Rooms.next_day_click, Rooms.today_click.
  repeat split; intros.
  all: unfold Rooms.updateDateDisplay; case_match.
  all: repeat first [ apply rooms_keeps_set_date_display | apply rooms_keeps_goto_each
                    | apply rooms_keeps_set_currentDate | apply rooms_keeps_refl ].
Qed.

Lemma rooms_keeps_step (st : Rooms.state) (i : Rooms.input) :
  (forall dt, i <> Rooms.Elapse dt) -> rooms_keeps st (Rooms.step st i).
Proof.
  intros Hi.
  destruct i as [cal s e | cal ev | cal date | cal info | cal info | | | today |
                | confirmed | i o | dt]; simpl.
  - unfold Rooms.on_widget. destruct (Rooms.widgets st !! cal); [| apply rooms_keeps_refl].
    unfold Rooms.events. rooms_keeps_tac.
  - unfold Rooms.on_widget. destruct (Rooms.widgets st !! cal); [| apply rooms_keeps_refl].
    unfold Rooms.eventClick. rooms_keeps_tac.
  - unfold Rooms.on_widget. destruct (Rooms.widgets st !! cal); [| apply rooms_keeps_refl].
    unfold Rooms.dateClick. rooms_keeps_tac.
  - unfold Rooms.on_widget. destruct (Rooms.widgets st !! cal); [| apply rooms_keeps_refl].
    unfold Rooms.eventDrop. rooms_keeps_tac.
  - unfold Rooms.on_widget. destruct (Rooms.widgets st !! cal); [| apply rooms_keeps_refl].
    unfold Rooms.eventResize. rooms_keeps_tac.
  - destruct (Rooms.prev_day (Rooms.page st));
      [apply rooms_keeps_navigation | apply rooms_keeps_refl].
  - destruct (Rooms.next_day (Rooms.page st));
      [apply rooms_keeps_navigation | apply rooms_keeps_refl].
  - destruct (Rooms.today_btn (Rooms.page st));
      [apply rooms_keeps_navigation | apply rooms_keeps_refl].
  - unfold Rooms.refresh_all_click. rooms_keeps_tac.
  - unfold Rooms.delete_click.
    destruct (Rooms.btn_delete_event (Rooms.page st)), (Rooms.currentEvent st);
      rooms_keeps_tac.
  - apply rooms_keeps_settle.
  - by destruct (Hi dt).
Qed.

(** *** The timer *)

Lemma refetch_count_app (cal : nat) (a b : list effect) :
  refetch_count cal (a ++ b) = refetch_count cal a + refetch_count cal b.
Proof. unfold refetch_count. by rewrite List.filter_app, length_app. Qed.

Lemma refetch_count_fan_out (cal : nat) (l : list nat) :
  cal ∈ l -> 1 <= refetch_count cal (map Refetch l).
Proof.
  unfold refetch_count. induction 1 as [cal l | cal c l _ IH]; simpl.
  - rewrite Nat.eqb_refl. simpl. lia.
  - destruct (c =? cal); simpl; lia.
Qed.

(** The clock and the next due time after [dt] milliseconds. *)
Lemma next_due_time (now due dt : Z) :
  (now < due <= now + 300000)%Z ->
  let t := (now + Z.max 0 dt)%Z in
  let n := ((t - due) / 300000 + 1)%Z in
  (due <= t)%Z ->
  (1 <= n)%Z /\ (t < due + n * 300000 <= t + 300000)%Z.
Proof.
  intros Hdue t n Ht.
  pose proof (Z.mul_div_le (t - due) 300000 eq_refl).
  pose proof (Z.mul_succ_div_gt (t - due) 300000 eq_refl).
  assert (0 <= (t - due) / 300000)%Z by (apply Z.div_pos; lia).
  subst n. lia.
Qed.

Lemma django_keeps_refreshes (n : nat) (st : Django.state) :
  django_keeps st (Nat.iter n Django.auto_refresh st).
Proof.
  induction n as [| n IH]; simpl; [apply django_keeps_refl |].
  by apply django_keeps_refetch_all.
Qed.

(** One run of the timer callback refetches every widget of the pool. *)
Lemma django_refresh_counts (st0 st : Django.state) (cal : nat) :
  django_keeps st0 st ->
  cal ∈ Object_values (Django.calendars st0) ->
  refetch_count cal (Django.trace st0) + 1
  <= refetch_count cal (Django.trace (Django.auto_refresh st)).
Proof.
  intros (Hc & _ & [added Ha] & _) Hcal.
  unfold Django.auto_refresh. rewrite django_refetch_all. simpl.
  rewrite Ha, Hc, !refetch_count_app.
  pose proof (refetch_count_fan_out cal _ Hcal). lia.
Qed.

Lemma django_elapse (dt : Z) (st : Django.state) :
  django_timer_set st ->
  let st' := Django.elapse dt st in
  django_timer_set st'
  /\ Django.calendars st' = Django.calendars st
  /\ (exists added, Django.trace st' = Django.trace st ++ added)
  /\ Django.now st' = (Django.now st + Z.max 0 dt)%Z
  /\ (forall due,
        Django.next_tick st = Some due ->
        ((Django.now st' < due)%Z /\ Django.next_tick st' = Some due
         /\ Django.trace st' = Django.trace st)
        \/ ((due <= Django.now st')%Z
            /\ forall cal,
                 cal ∈ Object_values (Django.calendars st) ->
                 refetch_count cal (Django.trace st) + 1
                 <= refetch_count cal (Django.trace st'))).
Proof.
  intros (due & Htick & Hdue). unfold Django.elapse. rewrite Htick.
  unfold django_timer_set, Django.refresh_period in *.
  destruct (Z.ltb_spec (Django.now st + Z.max 0 dt) due) as [Hlt | Hge]; simpl.
  - split; [exists due; simpl; split; [done | lia] |].
    split; [done |]. split; [exists []; by rewrite app_nil_r |]. split; [done |].
    intros due' [= <-]. by left.
  - destruct (next_due_time _ _ dt Hdue Hge) as [Hn Hnext].
    set (n := ((Django.now st + Z.max 0 dt - due) / 300000 + 1)%Z) in *.
    pose proof (django_keeps_refreshes (Z.to_nat n) st) as Hkeeps.
    destruct Hkeeps as (Hc & _ & Hadded & _).
    split; [eexists; simpl; split; [done | lia] |].
    split; [done |]. split; [done |]. split; [done |].
    intros due' [= <-]. right. split; [done |]. intros cal Hcal.
    destruct (Z.to_nat n) as [| m] eqn:Hm; [lia |]. simpl.
    apply django_refresh_counts; [apply django_keeps_refreshes | done].
Qed.

Lemma django_step_grows (st : Django.state) (i : Django.input) :
  django_timer_set st ->
  django_timer_set (Django.step st i)
  /\ Django.calendars (Django.step st i) = Django.calendars st
  /\ exists added, Django.trace (Django.step st i) = Django.trace st ++ added.
Proof.
  intros Htimer. destruct i.
  11: { destruct (django_elapse dt st Htimer) as (? & ? & ? & _). done. }
  all: match goal with |- context [Django.step ?s ?i] =>
         destruct (django_keeps_step s i) as (Hc & _ & Ha & Hn & Ht & _); [done |]
       end.
  all: split; [| done].
  all: destruct Htimer as (due & ? & ?); exists due; rewrite Hn, Ht; done.
Qed.

Lemma django_run_grows (st : Django.state) (inputs : list Django.input) :
  django_timer_set st ->
  django_timer_set (Django.run st inputs)
  /\ Django.calendars (Django.run st inputs) = Django.calendars st
  /\ exists added, Django.trace (Django.run st inputs) = Django.trace st ++ added.
Proof.
  revert st. induction inputs as [| i inputs IH]; intros st Htimer; simpl.
  - split; [done |]. split; [done |]. exists []. by rewrite app_nil_r.
  - destruct (django_step_grows st i Htimer) as (Ht1 & Hc1 & [a1 Ha1]).
    destruct (IH _ Ht1) as (Ht2 & Hc2 & [a2 Ha2]).
    split; [done |]. split; [congruence |].
    exists (a1 ++ a2). by rewrite Ha2, Ha1, <- app_assoc.
Qed.

(** Once the due time lies within the time the inputs take, every
    widget of the pool has been refetched at least once more. *)
Lemma django_refetched_by_due_time (inputs : list Django.input) (st : Django.state)
    (due : Z) (cal : nat) :
  django_timer_set st ->
  Django.next_tick st = Some due ->
  (due <= Django.now st + Django.duration inputs)%Z ->
  cal ∈ Object_values (Django.calendars st) ->
  refetch_count cal (Django.trace st) + 1
  <= refetch_count cal (Django.trace (Django.run st inputs)).
Proof.
  revert st. induction inputs as [| i inputs IH]; intros st Htimer Htick Hdue Hcal.
  - destruct Htimer as (due' & Htick' & ?). simpl in Hdue. simplify_eq. lia.
  - simpl. destruct (django_step_grows st i Htimer) as (Ht1 & Hc1 & [a1 Ha1]).
    destruct i as [| | | | | | | | | |dt].
    11: {
      change (Django.step st (Django.Elapse dt)) with (Django.elapse dt st) in *.
      destruct (django_elapse dt st Htimer) as (_ & _ & _ & Hnow & Hcases).
      destruct (Hcases due Htick) as [(Hlt & Htick1 & Htrace) | [Hge Hcount]].
      - simpl in Hdue. simpl in Htrace. rewrite <- Htrace.
        apply IH; [done | done | | by rewrite Hc1].
        simpl in Hnow. simpl. lia.
      - destruct (django_run_grows _ inputs Ht1) as (_ & _ & [a2 Ha2]).
        rewrite Ha2, refetch_count_app. specialize (Hcount cal Hcal). simpl in Hcount.
        lia. }
    all: match goal with |- context [Django.step ?s ?i] =>
           destruct (django_keeps_step s i) as (_ & _ & _ & Hn & Ht & _); [done |];
           specialize (IH (Django.step s i) Ht1)
         end.
    all: rewrite Ht, Hn, Hc1 in IH; specialize (IH Htick Hdue Hcal).
    all: rewrite Ha1, refetch_count_app in IH; lia.
Qed.

Lemma rooms_keeps_refreshes (n : nat) (st : Rooms.state) :
  rooms_keeps st (Nat.iter n Rooms.auto_refresh st).
Proof.
  induction n as [| n IH]; simpl; [apply rooms_keeps_refl |].
  by apply rooms_keeps_refetch_all.
Qed.

(** One run of the timer callback refetches every widget of the pool. *)
Lemma rooms_refresh_counts (st0 st : Rooms.state) (cal : nat) :
  rooms_keeps st0 st ->
  cal ∈ Object_values (Rooms.calendars st0) ->
  refetch_count cal (Rooms.trace st0) + 1
  <= refetch_count cal (Rooms.trace (Rooms.auto_refresh st)).
Proof.
  intros (Hc & _ & [added Ha] & _) Hcal.
  unfold Rooms.auto_refresh. rewrite rooms_refetch_all. simpl.
  rewrite Ha, Hc, !refetch_count_app.
  pose proof (refetch_count_fan_out cal _ Hcal). lia.
Qed.

Lemma rooms_elapse (dt : Z) (st : Rooms.state) :
  rooms_timer_set st ->
  let st' := Rooms.elapse dt st in
  rooms_timer_set st'
  /\ Rooms.calendars st' = Rooms.calendars st
  /\ (exists added, Rooms.trace st' = Rooms.trace st ++ added)
  /\ Rooms.now st' = (Rooms.now st + Z.max 0 dt)%Z
  /\ (forall due,
        Rooms.next_tick st = Some due ->
        ((Rooms.now st' < due)%Z /\ Rooms.next_tick st' = Some due
         /\ Rooms.trace st' = Rooms.trace st)
        \/ ((due <= Rooms.now st')%Z
            /\ forall cal,
                 cal ∈ Object_values (Rooms.calendars st) ->
                 refetch_count cal (Rooms.trace st) + 1
                 <= refetch_count cal (Rooms.trace st'))).
Proof.
  intros (due & Htick & Hdue). unfold Rooms.elapse. rewrite Htick.
  unfold rooms_timer_set, Rooms.refresh_period in *.
  destruct (Z.ltb_spec (Rooms.now st + Z.max 0 dt) due) as [Hlt | Hge]; simpl.
  - split; [exists due; simpl; split; [done | lia] |].
    split; [done |]. split; [exists []; by rewrite app_nil_r |]. split; [done |].
    intros due' [= <-]. by left.
  - destruct (next_due_time _ _ dt Hdue Hge) as [Hn Hnext].
    set (n := ((Rooms.now st + Z.max 0 dt - due) / 300000 + 1)%Z) in *.
    pose proof (rooms_keeps_refreshes (Z.to_nat n) st) as Hkeeps.
    destruct Hkeeps as (Hc & _ & Hadded & _).
    split; [eexists; simpl; split; [done | lia] |].
    split; [done |]. split; [done |]. split; [done |].
    intros due' [= <-]. right. split; [done |]. intros cal Hcal.
    destruct (Z.to_nat n) as [| m] eqn:Hm; [lia |]. simpl.
    apply rooms_refresh_counts; [apply rooms_keeps_refreshes | done].
Qed.

Lemma rooms_step_grows (st : Rooms.state) (i : Rooms.input) :
  rooms_timer_set st ->
  rooms_timer_set (Rooms.step st i)
  /\ Rooms.calendars (Rooms.step st i) = Rooms.calendars st
  /\ exists added, Rooms.trace (Rooms.step st i) = Rooms.trace st ++ added.
Proof.
  intros Htimer. destruct i.
  12: { destruct (rooms_elapse dt st Htimer) as (? & ? & ? & _). done. }
  all: match goal with |- context [Rooms.step ?s ?i] =>
         destruct (rooms_keeps_step s i) as (Hc & _ & Ha & Hn & Ht & _); [done |]
       end.
  all: split; [| done].
  all: destruct Htimer as (due & ? & ?); exists due; rewrite Hn, Ht; done.
Qed.

Lemma rooms_run_grows (st : Rooms.state) (inputs : list Rooms.input) :
  rooms_timer_set st ->
  rooms_timer_set (Rooms.run st inputs)
  /\ Rooms.calendars (Rooms.run st inputs) = Rooms.calendars st
  /\ exists added, Rooms.trace (Rooms.run st inputs) = Rooms.trace st ++ added.
Proof.
  revert st. induction inputs as [| i inputs IH]; intros st Htimer; simpl.
  - split; [done |]. split; [done |]. exists []. by rewrite app_nil_r.
  - destruct (rooms_step_grows st i Htimer) as (Ht1 & Hc1 & [a1 Ha1]).
    destruct (IH _ Ht1) as (Ht2 & Hc2 & [a2 Ha2]).
    split; [done |]. split; [congruence |].
    exists (a1 ++ a2). by rewrite Ha2, Ha1, <- app_assoc.
Qed.

(** Once the due time lies within the time the inputs take, every
    widget of the pool has been refetched at least once more. *)
Lemma rooms_refetched_by_due_time (inputs : list Rooms.input) (st : Rooms.state)
    (due : Z) (cal : nat) :
  rooms_timer_set st ->
  Rooms.next_tick st = Some due ->
  (due <= Rooms.now st + Rooms.duration inputs)%Z ->
  cal ∈ Object_values (Rooms.calendars st) ->
  refetch_count cal (Rooms.trace st) + 1
  <= refetch_count cal (Rooms.trace (Rooms.run st inputs)).
Proof.
  revert st. induction inputs as [| i inputs IH]; intros st Htimer Htick Hdue Hcal.
  - destruct Htimer as (due' & Htick' & ?). simpl in Hdue. simplify_eq. lia.
  - simpl. destruct (rooms_step_grows st i Htimer) as (Ht1 & Hc1 & [a1 Ha1]).
    destruct i as [| | | | | | | | | | |dt].
    12: {
      change (Rooms.step st (Rooms.Elapse dt)) with (Rooms.elapse dt st) in *.
      destruct (rooms_elapse dt st Htimer) as (_ & _ & _ & Hnow & Hcases).
      destruct (Hcases due Htick) as [(Hlt & Htick1 & Htrace) | [Hge Hcount]].
      - simpl in Hdue. simpl in Htrace. rewrite <- Htrace.
        apply IH; [done | done | | by rewrite Hc1].
        simpl in Hnow. simpl. lia.
      - destruct (rooms_run_grows _ inputs Ht1) as (_ & _ & [a2 Ha2]).
        rewrite Ha2, refetch_count_app. specialize (Hcount cal Hcal). simpl in Hcount.
        lia. }
    all: match goal with |- context [Rooms.step ?s ?i] =>
           destruct (rooms_keeps_step s i) as (_ & _ & _ & Hn & Ht & _); [done |];
           specialize (IH (Rooms.step s i) Ht1)
         end.
    all: rewrite Ht, Hn, Hc1 in IH; specialize (IH Htick Hdue Hcal).
    all: rewrite Ha1, refetch_count_app in IH; lia.
Qed.

Lemma django_init_start (doc : Django.document) (st0 : Django.state) :
  Django.init doc = Normal st0 ->
  exists token, st0 = Django.start doc token.
Proof.
  unfold Django.init. destruct (getCookie _ _) as [token | e]; simpl; [| done].
  intros [= <-]. by exists token.
Qed.

Lemma rooms_init_start (doc : Rooms.document) (st0 : Rooms.state) :
  Rooms.init doc = Normal st0 ->
  exists token, st0 = Rooms.start doc token.
Proof.
  unfold Rooms.init. destruct (getCookie _ _) as [token | e]; simpl; [| done].
  intros [= <-]. by exists token.
Qed.

Lemma django_create_each_clock (doc : Django.document) (l : list Django.config)
    (st : Django.state) :
  Django.now (foldl (fun st config => Django.createCalendar doc config st) st l)
  = Django.now st.
Proof.
  revert st. induction l as [| c l IH]; intros st; simpl; [done |].
  rewrite IH. unfold Django.createCalendar. by case_bool_decide.
Qed.

Lemma django_start_timer (doc : Django.document) (token : option jsstring) :
  django_timer_set (Django.start doc token).
Proof.
  unfold django_timer_set, Django.start, Django.setInterval.
  cbn [Django.next_tick Django.now Django.set_clock Django.createSyncButton].
  rewrite django_create_each_clock. cbn [Django.now].
  eexists. split; [reflexivity |]. unfold Django.refresh_period. lia.
Qed.

Lemma rooms_create_each_clock (l : list Rooms.roomConfig) (st : Rooms.state) :
  Rooms.now (foldl (fun st roomConfig =>
                      Rooms.createRoomCalendar (Rooms.currentDate st) roomConfig st) st l)
  = Rooms.now st.
Proof.
  revert st. induction l as [| c l IH]; intros st; simpl; [done |].
  rewrite IH. unfold Rooms.createRoomCalendar. by case_bool_decide.
Qed.

Lemma rooms_start_timer (doc : Rooms.document) (token : option jsstring) :
  rooms_timer_set (Rooms.start doc token).
Proof.
  unfold rooms_timer_set, Rooms.start, Rooms.setInterval.
  cbn [Rooms.next_tick Rooms.now Rooms.set_clock].
  assert (forall st, Rooms.now (Rooms.updateDateDisplay st) = Rooms.now st) as ->
    by (intros st; unfold Rooms.updateDateDisplay; by case_match).
  rewrite rooms_create_each_clock. cbn [Rooms.now].
  eexists. split; [reflexivity |]. unfold Rooms.refresh_period. lia.
Qed.

(** The timer on the sample rooms page: four minutes pass, an event is
    clicked, another minute passes, and both rooms have been refetched. *)
Example timer_sample :
  let st := Rooms.run Samples.rooms_state
              [Rooms.Elapse 240000; Rooms.EventClick 0 Samples.appointment;
               Rooms.Elapse 60000] in
  Rooms.trace st = Rooms.trace Samples.rooms_state ++ [ModalShow; Refetch 1; Refetch 0]
  /\ Rooms.now st = 300000%Z
  /\ Rooms.next_tick st = Some 600000%Z.
Proof. vm_compute. done. Qed.

(** *** The pool after start-up *)

Lemma obj_set_values {A} (P : A -> Prop) (key : jsstring) (v : A)
    (o : list (jsstring * A)) :
  P v -> Forall (fun kv => P kv.2) o -> Forall (fun kv => P kv.2) (obj_set key v o).
Proof.
  intros Hv. induction 1 as [| [k w] o Hw Ho IH]; simpl.
  - by repeat constructor.
  - case_bool_decide; constructor; done.
Qed.

Lemma rooms_create_each_valid (l : list Rooms.roomConfig) (st : Rooms.state) :
  rooms_pool_valid st ->
  rooms_pool_valid
    (foldl (fun st roomConfig =>
              Rooms.createRoomCalendar (Rooms.currentDate st) roomConfig st) st l).
Proof.
  revert st. induction l as [| c l IH]; intros st Hvalid; simpl; [done |].
  apply IH. unfold Rooms.createRoomCalendar. case_bool_decide; [| done].
  unfold rooms_pool_valid in *. simpl. rewrite length_app. simpl.
  apply (obj_set_values (fun cal => cal < _)); [lia |].
  eapply Forall_impl; [exact Hvalid |]. simpl. intros. lia.
Qed.

Lemma rooms_start_valid (doc : Rooms.document) (token : option jsstring) :
  rooms_pool_valid (Rooms.start doc token).
Proof.
  unfold Rooms.start, Rooms.setInterval, Rooms.updateDateDisplay.
  set (st := foldl _ _ _).
  assert (rooms_pool_valid st) as Hst
    by (apply rooms_create_each_valid; unfold rooms_pool_valid; simpl; by constructor).
  by case_match.
Qed.

Lemma rooms_step_pool (st : Rooms.state) (i : Rooms.input) :
  Rooms.calendars (Rooms.step st i) = Rooms.calendars st
  /\ length (Rooms.widgets (Rooms.step st i)) = length (Rooms.widgets st).
Proof.
  assert (forall st', rooms_keeps st st' ->
            Rooms.calendars st' = Rooms.calendars st
            /\ length (Rooms.widgets st') = length (Rooms.widgets st)) as Hkeeps.
  { intros st' (Hc & Hw & _). split; [done |].
    by rewrite <- (length_fmap Rooms.w_config), Hw, length_fmap. }
  destruct i.
  12: { simpl. unfold Rooms.elapse. destruct (Rooms.next_tick st); [| done].
        case_match; [done |]. simpl. apply Hkeeps, rooms_keeps_refreshes. }
  all: by apply Hkeeps, rooms_keeps_step.
Qed.

Lemma rooms_run_valid (st : Rooms.state) (inputs : list Rooms.input) :
  rooms_pool_valid st -> rooms_pool_valid (Rooms.run st inputs).
Proof.
  revert st. induction inputs as [| i inputs IH]; intros st Hvalid; simpl; [done |].
  apply IH. unfold rooms_pool_valid in *.
  destruct (rooms_step_pool st i) as [-> ->]. done.
Qed.

Lemma django_step_pool (st : Django.state) (i : Django.input) :
  Django.calendars (Django.step st i) = Django.calendars st
  /\ length (Django.widgets (Django.step st i)) = length (Django.widgets st).
Proof.
  assert (forall st', django_keeps st st' ->
            Django.calendars st' = Django.calendars st
            /\ length (Django.widgets st') = length (Django.widgets st)) as Hkeeps.
  { intros st' (Hc & Hw & _). split; [done |].
    by rewrite <- (length_fmap Django.w_config), Hw, length_fmap. }
  destruct i.
  11: { simpl. unfold Django.elapse. destruct (Django.next_tick st); [| done].
        case_match; [done |]. simpl. apply Hkeeps, django_keeps_refreshes. }
  all: by apply Hkeeps, django_keeps_step.
Qed.

Lemma django_run_pool (st : Django.state) (inputs : list Django.input) :
  Django.calendars (Django.run st inputs) = Django.calendars st
  /\ length (Django.widgets (Django.run st inputs)) = length (Django.widgets st).
Proof.
  revert st. induction inputs as [| i inputs IH]; intros st; simpl; [done |].
  destruct (IH (Django.step st i)) as [-> ->]. apply django_step_pool.
Qed.

(** *** Going to a date on every widget (C6) *)

Lemma rooms_goto_each (l : list nat) (st : Rooms.state) :
  let d := Rooms.currentDate st in
  let st' := foldl (fun s cal => Rooms.gotoDate cal (Rooms.currentDate s) s) st l in
  Rooms.currentDate st' = d
  /\ Rooms.calendars st' = Rooms.calendars st
  /\ length (Rooms.widgets st') = length (Rooms.widgets st)
  /\ forall cal,
       cal ∈ l \/ Rooms.w_date <$> Rooms.widgets st !! cal = Some d ->
       cal < length (Rooms.widgets st) ->
       Rooms.w_date <$> Rooms.widgets st' !! cal = Some d.
Proof.
  revert st. induction l as [| c l IH]; intros st; simpl.
  - repeat split. intros cal [Hin | Hd] _; [by apply elem_of_nil in Hin | done].
  - destruct (IH (Rooms.gotoDate c (Rooms.currentDate st) st)) as (Hd & Hc & Hlen & Hall).
    simpl in *. rewrite length_alter in Hlen, Hall.
    repeat split; [done | done | done |].
    intros cal Hcal Hlt. apply Hall; [| done].
    destruct (decide (c = cal)) as [-> | Hne].
    + right. rewrite list_lookup_alter_eq.
      destruct (lookup_lt_is_Some_2 _ _ Hlt) as [w ->]. done.
    + rewrite list_lookup_alter_ne by done.
      destruct Hcal as [Hin | Hd']; [| by right].
      apply elem_of_cons in Hin as [-> | Hin]; [done | by left].
Qed.

(** After a fan-out of [gotoDate], every widget of the pool displays
    the current date. *)
Lemma rooms_goto_all_aligned (st : Rooms.state) :
  rooms_pool_valid st ->
  let st' := Rooms.goto_all st in
  Rooms.currentDate st' = Rooms.currentDate st
  /\ Rooms.calendars st' = Rooms.calendars st
  /\ forall key cal,
       obj_get key (Rooms.calendars st') = Some cal ->
       Rooms.w_date <$> Rooms.widgets st' !! cal = Some (Rooms.currentDate st).
Proof.
  intros Hvalid. unfold Rooms.goto_all.
  destruct (rooms_goto_each (Object_values (Rooms.calendars st)) st)
    as (Hd & Hc & _ & Hall).
  repeat split; [done | done |]. intros key cal Hget. rewrite Hc in Hget.
  apply Hall; [left; by eapply obj_get_in_values |].
  apply obj_get_elem in Hget. unfold rooms_pool_valid in Hvalid.
  rewrite Forall_forall in Hvalid. apply (Hvalid _ Hget).
Qed.

Lemma django_createCalendar_present (doc : Django.document) (config : Django.config)
    (st : Django.state) :
  Django.elementId config ∈ Django.element_ids doc ->
  Django.createCalendar doc config st
  = let cal := length (Django.widgets st) in
    Django.emit (Render cal)
      (Django.set_calendars (obj_set (Django.id config) cal (Django.calendars st))
         (Django.set_widgets
            (Django.widgets st
             ++ [ {| Django.w_config := config;
                     Django.w_date := add_days (Django.today doc) (Django.dateOffset config) |} ])
            st)).
Proof. intros H. unfold Django.createCalendar. by rewrite bool_decide_true. Qed.

(** With all four elements on the page, the pool holds the four
    calendars under their configuration ids, in order. *)
Lemma django_full_pool (doc : Django.document) (token : option jsstring) :
  Forall (fun config => Django.elementId config ∈ Django.element_ids doc)
    Django.calendarConfigs ->
  Django.calendars (Django.start doc token)
  = [ (js "calendar1", 0); (js "calendar2", 1); (js "calendar3", 2); (js "calendar4", 3) ]
  /\ length (Django.widgets (Django.start doc token)) = 4.
Proof.
  unfold Django.calendarConfigs. intros H.
  apply Forall_cons in H as [H1 H]. apply Forall_cons in H as [H2 H].
  apply Forall_cons in H as [H3 H]. apply Forall_cons in H as [H4 _].
  unfold Django.start, Django.calendarConfigs. cbn [foldl].
  rewrite (django_createCalendar_present doc _ _ H1).
  rewrite (django_createCalendar_present doc _ _ H2).
  rewrite (django_createCalendar_present doc _ _ H3).
  rewrite (django_createCalendar_present doc _ _ H4).
  split; [vm_compute; reflexivity | reflexivity].
Qed.

(** The sync button on a full pool: calendar number [i] goes to the
    [i]-th day from today. *)
Lemma django_sync_full (today : LocalDate) (st : Django.state) :
  Django.calendars st
  = [ (js "calendar1", 0); (js "calendar2", 1); (js "calendar3", 2); (js "calendar4", 3) ] ->
  length (Django.widgets st) = 4 ->
  let st' := Django.sync_click today st in
  Django.trace st'
  = Django.trace st
    ++ [GotoDate 0 (add_days today 0); GotoDate 1 (add_days today 1);
        GotoDate 2 (add_days today 2); GotoDate 3 (add_days today 3)]
  /\ Django.w_date <$> Django.widgets st'
     = [add_days today 0; add_days today 1; add_days today 2; add_days today 3]
  /\ Django.calendars st' = Django.calendars st.
Proof.
  intros Hcal Hlen.
  assert (forall key cal,
             obj_get key [ (js "calendar1", 0); (js "calendar2", 1);
                           (js "calendar3", 2); (js "calendar4", 3) ] = Some cal ->
             obj_get key (Django.calendars st) = Some cal) as Hget
    by (by rewrite Hcal).
  destruct (Django.widgets st) as [| w0 [| w1 [| w2 [| w3 [| w4 ?]]]]] eqn:Hws;
    try discriminate Hlen.
  unfold Django.sync_click, Django.calendarConfigs.
  cbn [Django.sync_from Django.id].
  rewrite (Hget (js "calendar1") 0) by (vm_compute; reflexivity).
  cbn [Django.sync_from Django.id Django.calendars Django.gotoDate Django.set_widgets
         Django.emit Django.set_trace].
  rewrite (Hget (js "calendar2") 1) by (vm_compute; reflexivity).
  cbn [Django.sync_from Django.id Django.calendars Django.gotoDate Django.set_widgets
         Django.emit Django.set_trace].
  rewrite (Hget (js "calendar3") 2) by (vm_compute; reflexivity).
  cbn [Django.sync_from Django.id Django.calendars Django.gotoDate Django.set_widgets
         Django.emit Django.set_trace].
  rewrite (Hget (js "calendar4") 3) by (vm_compute; reflexivity).
  cbn [Django.sync_from Django.calendars Django.widgets Django.trace Django.gotoDate
         Django.set_widgets Django.emit Django.set_trace].
  rewrite Hws. split; [| split]; [| reflexivity | reflexivity].
  rewrite <- !app_assoc. reflexivity.
Qed.

Lemma rooms_navigate (target : LocalDate) (st : Rooms.state) :
  rooms_pool_valid st ->
  let st' := Rooms.updateDateDisplay
               (Rooms.goto_all (Rooms.set_currentDate target st)) in
  Rooms.currentDate st' = target
  /\ forall key cal,
       obj_get key (Rooms.calendars st') = Some cal ->
       Rooms.w_date <$> Rooms.widgets st' !! cal = Some target.
Proof.
  intros Hvalid.
  destruct (rooms_goto_all_aligned (Rooms.set_currentDate target st) Hvalid)
    as (Hd & Hc & Hall).
  unfold Rooms.updateDateDisplay. by case_match.
Qed.

(** C6, as the code has it. On the rooms page, after the previous-day,
    next-day or today button every widget of the pool displays one and
    the same date, the new current date. On the day-offset page, whose
    pool holds all four calendars, the sync button does not align the
    calendars to one date: it puts calendar number [i] (counting from 0)
    on the [i]-th day after today. *)
Theorem navigation_aligns_rooms_and_sync_staggers_days :
  (forall (doc : Rooms.document) st0 inputs,
      Rooms.init doc = Normal st0 ->
      let st := Rooms.run st0 inputs in
      forall click target,
        (click = Rooms.prev_day_click /\ target = add_days (Rooms.currentDate st) (-1))
        \/ (click = Rooms.next_day_click /\ target = add_days (Rooms.currentDate st) 1)
        \/ click = Rooms.today_click target ->
        Rooms.currentDate (click st) = target
        /\ forall key cal,
             obj_get key (Rooms.calendars (click st)) = Some cal ->
             Rooms.w_date <$> Rooms.widgets (click st) !! cal = Some target)
  /\ (forall (doc : Django.document) st0 inputs today,
        Django.init doc = Normal st0 ->
        Forall (fun config => Django.elementId config ∈ Django.element_ids doc)
          Django.calendarConfigs ->
        let st := Django.sync_click today (Django.run st0 inputs) in
        forall i config,
          Django.calendarConfigs !! i = Some config ->
          exists cal,
            obj_get (Django.id config) (Django.calendars st) = Some cal
            /\ Django.w_date <$> Django.widgets st !! cal
               = Some (add_days today (Z.of_nat i))).
Proof.
  split.
  - intros doc st0 inputs Hinit st click target Hclick.
    apply rooms_init_start in Hinit as [token ->].
    assert (rooms_pool_valid st) as Hvalid
      by apply rooms_run_valid, rooms_start_valid.
    destruct Hclick as [[-> ->] | [[-> ->] | ->]]; by apply rooms_navigate.
  - intros doc st0 inputs today Hinit Hall st i config Hconfig.
    apply django_init_start in Hinit as [token ->].
    destruct (django_full_pool doc token Hall) as [Hcal Hlen].
    destruct (django_run_pool (Django.start doc token) inputs) as [Hcal' Hlen'].
    rewrite Hcal in Hcal'. rewrite Hlen in Hlen'.
    destruct (django_sync_full today _ Hcal' Hlen') as (_ & Hdates & Hsame).
    fold st in Hdates, Hsame. rewrite Hcal' in Hsame.
    exists i. rewrite Hsame, <- list_lookup_fmap, Hdates.
    unfold Django.calendarConfigs in Hconfig.
    destruct i as [| [| [| [| i]]]]; simpl in Hconfig; simplify_eq.
    all: split; [vm_compute; reflexivity | reflexivity].
Qed.

(** C6 as stated fails for the sync button: on the sample day-offset
    page, after it is pressed, the first two calendars display
    different dates (today and tomorrow). *)
Lemma sync_leaves_calendars_on_different_dates :
  let st := Django.step Samples.django_state (Django.SyncClick Samples.a_day) in
  Django.w_date <$> Django.widgets st !! 0 = Some {| day := 19844; ms_of_day := 36000000 |}
  /\ Django.w_date <$> Django.widgets st !! 1 = Some {| day := 19845; ms_of_day := 36000000 |}
  /\ Django.w_date <$> Django.widgets st !! 0 <> Django.w_date <$> Django.widgets st !! 1.
Proof. vm_compute. repeat split. discriminate. Qed.

(** The navigation buttons on the sample rooms page: after "next day"
    both rooms display the day after the starting one. *)
Example next_day_sample :
  let st := Rooms.step Samples.rooms_state Rooms.NextDay in
  Rooms.w_date <$> Rooms.widgets st
  = [ {| day := 19845; ms_of_day := 36000000 |}; {| day := 19845; ms_of_day := 36000000 |} ]
  /\ Rooms.date_display st = Some {| day := 19845; ms_of_day := 36000000 |}
  /\ Rooms.trace st
     = Rooms.trace Samples.rooms_state
       ++ [ GotoDate 1 {| day := 19845; ms_of_day := 36000000 |};
            GotoDate 0 {| day := 19845; ms_of_day := 36000000 |} ].
Proof. vm_compute. done. Qed.

(** *** The sync button on a page that lacks a calendar (C4) *)

(** C4 at the failing input. The page has no element [#calendar2]:
    start-up skips that configuration and the pool holds the calendars
    of the other three. A click on the sync button, a week later, moves
    the first calendar, then throws on [calendars['calendar2']], which is
    [undefined]: the calendars stored under [calendar3] and [calendar4]
    are never reached and keep their dates. *)
Lemma sync_stops_at_missing_calendar :
  let st := Samples.django_state_without_calendar2 in
  let later := add_days Samples.a_day 7 in
  let st' := Django.step st (Django.SyncClick later) in
  Django.init Samples.django_page_without_calendar2 = Normal st
  /\ Django.calendars st = [ (js "calendar1", 0); (js "calendar3", 1); (js "calendar4", 2) ]
  /\ Django.trace st' = Django.trace st ++ [GotoDate 0 later; Uncaught TypeError]
  /\ Django.w_date <$> Django.widgets st
     = [ {| day := 19844; ms_of_day := 36000000 |};
         {| day := 19846; ms_of_day := 36000000 |};
         {| day := 19847; ms_of_day := 36000000 |} ]
  /\ Django.w_date <$> Django.widgets st'
     = [ {| day := 19851; ms_of_day := 36000000 |};
         {| day := 19846; ms_of_day := 36000000 |};
         {| day := 19847; ms_of_day := 36000000 |} ].
Proof. vm_compute. done. Qed.

(** What C4 says of the pool itself holds when the configurations have
    different ids: after start-up each configuration whose element
    exists has a calendar of its own under its id, and one whose element
    is missing has no entry. *)
Lemma django_create_each (doc : Django.document) (l : list Django.config)
    (st : Django.state) :
  NoDup (Django.id <$> l) ->
  let st' := foldl (fun st config => Django.createCalendar doc config st) st l in
  (exists more, Django.widgets st' = Django.widgets st ++ more)
  /\ (forall key, key ∉ Django.id <$> l ->
        obj_get key (Django.calendars st') = obj_get key (Django.calendars st))
  /\ (forall config, config ∈ l ->
        if bool_decide (Django.elementId config ∈ Django.element_ids doc)
        then exists cal,
               obj_get (Django.id config) (Django.calendars st') = Some cal
               /\ Django.widgets st' !! cal
                  = Some {| Django.w_config := config;
                            Django.w_date :=
                              add_days (Django.today doc) (Django.dateOffset config) |}
        else obj_get (Django.id config) (Django.calendars st')
             = obj_get (Django.id config) (Django.calendars st)).
Proof.
  revert st. induction l as [| c l IH]; intros st Hnd; simpl.
  - split; [exists []; by rewrite app_nil_r |]. split; [done |].
    intros config Hin. by apply elem_of_nil in Hin.
  - apply NoDup_cons in Hnd as [Hc Hnd].
    destruct (IH (Django.createCalendar doc c st) Hnd) as ([more Hmore] & Hother & Hin).
    assert (exists more1,
               Django.widgets (Django.createCalendar doc c st)
               = Django.widgets st ++ more1) as [more1 Hmore1].
    { unfold Django.createCalendar. case_bool_decide; simpl; [by eexists |].
      exists []. by rewrite app_nil_r. }
    split; [exists (more1 ++ more); by rewrite Hmore, Hmore1, <- app_assoc |].
    split.
    + intros key Hkey. apply not_elem_of_cons in Hkey as [Hne Hkey].
      rewrite (Hother key Hkey). unfold Django.createCalendar.
      case_bool_decide; simpl; [| done]. by rewrite obj_get_set_other.
    + intros config Hconfig. apply elem_of_cons in Hconfig as [-> | Hconfig].
      * rewrite (Hother (Django.id c) Hc). unfold Django.createCalendar in *.
        case_bool_decide; simpl in *; [| done].
        exists (length (Django.widgets st)). rewrite obj_get_set. split; [done |].
        rewrite Hmore. rewrite <- app_assoc. by apply list_lookup_middle.
      * specialize (Hin config Hconfig). case_bool_decide; [done |].
        rewrite Hin. unfold Django.createCalendar. case_bool_decide; simpl; [| done].
        rewrite obj_get_set_other; [done |]. intros Heq. apply Hc. rewrite Heq.
        by apply list_elem_of_fmap_2.
Qed.

Lemma django_pool_one_per_present_config (doc : Django.document)
    (token : option jsstring) (config : Django.config) :
  config ∈ Django.calendarConfigs ->
  let st := Django.start doc token in
  if bool_decide (Django.elementId config ∈ Django.element_ids doc)
  then exists cal,
         obj_get (Django.id config) (Django.calendars st) = Some cal
         /\ Django.widgets st !! cal
            = Some {| Django.w_config := config;
                      Django.w_date :=
                        add_days (Django.today doc) (Django.dateOffset config) |}
  else obj_get (Django.id config) (Django.calendars st) = None.
Proof.
  intros Hconfig. unfold Django.start.
  cbn [Django.calendars Django.widgets Django.setInterval Django.createSyncButton
         Django.set_clock].
  match goal with |- context [foldl ?f ?s ?l] =>
    destruct (django_create_each doc l s) as (_ & _ & Hin)
  end.
  { apply (bool_decide_unpack _). vm_compute. reflexivity. }
  apply (Hin config Hconfig).
Qed.

Lemma rooms_create_each (l : list Rooms.roomConfig) (st : Rooms.state) :
  NoDup (Rooms.id <$> l) ->
  let st' := foldl (fun st roomConfig =>
                      Rooms.createRoomCalendar (Rooms.currentDate st) roomConfig st) st l in
  (exists more, Rooms.widgets st' = Rooms.widgets st ++ more)
  /\ Rooms.currentDate st' = Rooms.currentDate st
  /\ (forall key, key ∉ Rooms.id <$> l ->
        obj_get key (Rooms.calendars st') = obj_get key (Rooms.calendars st))
  /\ (forall roomConfig, roomConfig ∈ l ->
        if bool_decide (Rooms.elementId roomConfig <> [])
        then exists cal,
               obj_get (Rooms.id roomConfig) (Rooms.calendars st') = Some cal
               /\ Rooms.widgets st' !! cal
                  = Some {| Rooms.w_config := roomConfig;
                            Rooms.w_date := Rooms.currentDate st |}
        else obj_get (Rooms.id roomConfig) (Rooms.calendars st')
             = obj_get (Rooms.id roomConfig) (Rooms.calendars st)).
Proof.
  revert st. induction l as [| c l IH]; intros st Hnd; simpl.
  - split; [exists []; by rewrite app_nil_r |]. split; [done |]. split; [done |].
    intros config Hin. by apply elem_of_nil in Hin.
  - apply NoDup_cons in Hnd as [Hc Hnd].
    destruct (IH (Rooms.createRoomCalendar (Rooms.currentDate st) c st) Hnd)
      as ([more Hmore] & Hdate & Hother & Hin).
    assert (exists more1,
               Rooms.widgets (Rooms.createRoomCalendar (Rooms.currentDate st) c st)
               = Rooms.widgets st ++ more1) as [more1 Hmore1].
    { unfold Rooms.createRoomCalendar. case_bool_decide; simpl; [by eexists |].
      exists []. by rewrite app_nil_r. }
    assert (Rooms.currentDate (Rooms.createRoomCalendar (Rooms.currentDate st) c st)
            = Rooms.currentDate st) as Hdate1
      by (unfold Rooms.createRoomCalendar; by case_bool_decide).
    split; [exists (more1 ++ more); by rewrite Hmore, Hmore1, <- app_assoc |].
    split; [congruence |]. split.
    + intros key Hkey. apply not_elem_of_cons in Hkey as [Hne Hkey].
      rewrite (Hother key Hkey). unfold Rooms.createRoomCalendar.
      case_bool_decide; simpl; [| done]. by rewrite obj_get_set_other.
    + intros config Hconfig. apply elem_of_cons in Hconfig as [-> | Hconfig].
      * rewrite (Hother (Rooms.id c) Hc). unfold Rooms.createRoomCalendar in *.
        case_bool_decide; simpl in *; [| done].
        exists (length (Rooms.widgets st)). rewrite obj_get_set. split; [done |].
        rewrite Hmore. rewrite <- app_assoc. by apply list_lookup_middle.
      * specialize (Hin config Hconfig). rewrite Hdate1 in Hin.
        case_bool_decide; [done |].
        rewrite Hin. unfold Rooms.createRoomCalendar. case_bool_decide; simpl; [| done].
        rewrite obj_get_set_other; [done |]. intros Heq. apply Hc. rewrite Heq.
        by apply list_elem_of_fmap_2.
Qed.

Lemma rooms_pool_one_per_present_room (doc : Rooms.document)
    (token : option jsstring) (roomConfig : Rooms.roomConfig) :
  NoDup (Rooms.id <$> Rooms.room_elements doc) ->
  roomConfig ∈ Rooms.room_elements doc ->
  let st := Rooms.start doc token in
  if bool_decide (Rooms.elementId roomConfig <> [])
  then exists cal,
         obj_get (Rooms.id roomConfig) (Rooms.calendars st) = Some cal
         /\ Rooms.widgets st !! cal
            = Some {| Rooms.w_config := roomConfig; Rooms.w_date := Rooms.today doc |}
  else obj_get (Rooms.id roomConfig) (Rooms.calendars st) = None.
Proof.
  intros Hnd Hconfig. unfold Rooms.start.
  assert (forall st, Rooms.calendars (Rooms.setInterval (Rooms.updateDateDisplay st))
                     = Rooms.calendars st
                     /\ Rooms.widgets (Rooms.setInterval (Rooms.updateDateDisplay st))
                        = Rooms.widgets st) as Hlast
    by (intros st; unfold Rooms.updateDateDisplay; by case_match).
  cbn zeta. destruct (Hlast (foldl
    (fun st roomConfig => Rooms.createRoomCalendar (Rooms.currentDate st) roomConfig st)
    {| Rooms.csrftoken := token; Rooms.calendars := []; Rooms.widgets := [];
       Rooms.currentEvent := None; Rooms.currentDate := Rooms.today doc;
       Rooms.dom := Rooms.template doc; Rooms.page := Rooms.optional doc;
       Rooms.date_display := None; Rooms.display := ∅; Rooms.pending := [];
       Rooms.now := 0; Rooms.next_tick := None; Rooms.trace := [] |}
    (Rooms.room_elements doc))) as [-> ->].
  match goal with |- context [foldl ?f ?s ?l] =>
    destruct (rooms_create_each l s Hnd) as (_ & _ & _ & Hin)
  end.
  apply (Hin roomConfig Hconfig).
Qed.

(** Two room elements with the same [data-room-id]: both get a
    calendar, and the map keeps the second only. *)
Example rooms_same_id_sample :
  let doc :=
    {| Rooms.cookie := []; 
       Rooms.room_elements :=
         [ {| Rooms.id := js "7"; Rooms.name := None; Rooms.elementId := js "a" |};
           {| Rooms.id := js "7"; Rooms.name := None; Rooms.elementId := js "b" |} ];
       Rooms.optional := Samples.all_controls;
       Rooms.template := Samples.rooms_modal;
       Rooms.today := Samples.a_day |} in
  let st := Rooms.start doc None in
  length (Rooms.widgets st) = 2 /\ Rooms.calendars st = [ (js "7", 1) ].
Proof. vm_compute. done. Qed.

(** *** The timer and the calendars a page created (C8) *)

(** An assignment to a key the object does not have appends the
    property. *)
Lemma obj_set_new {A} (key : jsstring) (v : A) (o : list (jsstring * A)) :
  obj_get key o = None -> obj_set key v o = o ++ [(key, v)].
Proof.
  induction o as [| [k w] o IH]; simpl; [done |].
  case_bool_decide as Hk; [done |]. intros Hget. by rewrite IH.
Qed.

(** What a run of [createCalendar] over configurations with different
    ids, none of them a key of [calendars] yet, adds to the page: a
    widget, a property and a [render] for each configuration whose
    element the document has, in order. *)
Lemma django_create_each_pool (doc : Django.document) (l : list Django.config)
    (st : Django.state) :
  NoDup (Django.id <$> l) ->
  (forall config, config ∈ l -> obj_get (Django.id config) (Django.calendars st) = None) ->
  let found := filter (fun config => Django.elementId config ∈ Django.element_ids doc) l in
  let first := length (Django.widgets st) in
  let st' := foldl (fun st config => Django.createCalendar doc config st) st l in
  Django.widgets st'
  = Django.widgets st
    ++ ((fun config =>
           {| Django.w_config := config;
              Django.w_date := add_days (Django.today doc) (Django.dateOffset config) |})
          <$> found)
  /\ Django.calendars st'
     = Django.calendars st ++ zip (Django.id <$> found) (seq first (length found))
  /\ Django.trace st' = Django.trace st ++ (Render <$> seq first (length found)).
Proof.
  revert st. induction l as [| config l IH]; intros st Hids Hnew; simpl.
  - by rewrite !app_nil_r.
  - apply NoDup_cons in Hids as [Hid Hids].
    pose proof (Hnew config (list_elem_of_here _ _)) as Hconfig.
    unfold Django.createCalendar at 2 4 6. case_bool_decide as Hfound.
    + rewrite filter_cons_True by done.
      match goal with |- context [foldl ?f ?s l] =>
        destruct (IH s Hids) as (Hw & Hc & Ht) end.
      { intros c Hc. simpl. rewrite obj_get_set_other; [apply Hnew; by right |].
        intros Heq. apply Hid. rewrite Heq. apply list_elem_of_fmap. by exists c. }
      rewrite Hw, Hc, Ht. simpl. rewrite obj_set_new by done.
      rewrite length_app, Nat.add_1_r. simpl. by rewrite <- !app_assoc.
    + rewrite filter_cons_False by done.
      apply IH; [done |]. intros c Hc. apply Hnew. by right.
Qed.

Lemma rooms_create_each_pool (l : list Rooms.roomConfig) (st : Rooms.state) :
  NoDup (Rooms.id <$> l) ->
  (forall room, room ∈ l -> obj_get (Rooms.id room) (Rooms.calendars st) = None) ->
  let found := filter (fun room => Rooms.elementId room <> []) l in
  let first := length (Rooms.widgets st) in
  let st' := foldl (fun st roomConfig =>
                      Rooms.createRoomCalendar (Rooms.currentDate st) roomConfig st) st l in
  Rooms.widgets st'
  = Rooms.widgets st
    ++ ((fun room => {| Rooms.w_config := room; Rooms.w_date := Rooms.currentDate st |})
          <$> found)
  /\ Rooms.calendars st'
     = Rooms.calendars st ++ zip (Rooms.id <$> found) (seq first (length found))
  /\ Rooms.trace st' = Rooms.trace st ++ (Render <$> seq first (length found)).
Proof.
  revert st. induction l as [| room l IH]; intros st Hids Hnew; simpl.
  - by rewrite !app_nil_r.
  - apply NoDup_cons in Hids as [Hid Hids].
    pose proof (Hnew room (list_elem_of_here _ _)) as Hroom.
    unfold Rooms.createRoomCalendar at 2 4 6. case_bool_decide as Hfound.
    + rewrite filter_cons_True by done.
      match goal with |- context [foldl ?f ?s l] =>
        destruct (IH s Hids) as (Hw & Hc & Ht) end.
      { intros c Hc. simpl. rewrite obj_get_set_other; [apply Hnew; by right |].
        intros Heq. apply Hid. rewrite Heq. apply list_elem_of_fmap. by exists c. }
      rewrite Hw, Hc, Ht. simpl. rewrite obj_set_new by done.
      rewrite length_app, Nat.add_1_r. simpl. by rewrite <- !app_assoc.
    + rewrite filter_cons_False by (intros Hne; first [by apply Hfound | by apply Hne]).
      apply IH; [done |]. intros c Hc. apply Hnew. by right.
Qed.

(** The page as start-up leaves it: the calendars created, the map and
    the calls of [render]. *)
Lemma django_start_pool (doc : Django.document) (token : option jsstring) :
  let found := filter (fun config => Django.elementId config ∈ Django.element_ids doc)
                 Django.calendarConfigs in
  let st := Django.start doc token in
  Django.widgets st
  = (fun config =>
       {| Django.w_config := config;
          Django.w_date := add_days (Django.today doc) (Django.dateOffset config) |})
      <$> found
  /\ Django.calendars st = zip (Django.id <$> found) (seq 0 (length found))
  /\ Django.trace st = Render <$> seq 0 (length found).
Proof.
  unfold Django.start, Django.setInterval.
  cbn [Django.widgets Django.calendars Django.trace Django.set_clock
       Django.createSyncButton].
  match goal with |- context [foldl ?f ?s ?l] =>
    destruct (django_create_each_pool doc l s) as (Hw & Hc & Ht) end.
  - apply (bool_decide_unpack _). vm_compute. exact I.
  - done.
  - by rewrite Hw, Hc, Ht.
Qed.

Lemma rooms_start_pool (doc : Rooms.document) (token : option jsstring) :
  NoDup (Rooms.id <$> Rooms.room_elements doc) ->
  let found := filter (fun room => Rooms.elementId room <> []) (Rooms.room_elements doc) in
  let st := Rooms.start doc token in
  Rooms.widgets st
  = (fun room => {| Rooms.w_config := room; Rooms.w_date := Rooms.today doc |}) <$> found
  /\ Rooms.calendars st = zip (Rooms.id <$> found) (seq 0 (length found))
  /\ Rooms.trace st = Render <$> seq 0 (length found).
Proof.
  intros Hids. unfold Rooms.start, Rooms.setInterval.
  cbn [Rooms.widgets Rooms.calendars Rooms.trace Rooms.set_clock].
  assert (forall st, Rooms.widgets (Rooms.updateDateDisplay st) = Rooms.widgets st
                     /\ Rooms.calendars (Rooms.updateDateDisplay st) = Rooms.calendars st
                     /\ Rooms.trace (Rooms.updateDateDisplay st) = Rooms.trace st)
    as Hshow by (intros st; unfold Rooms.updateDateDisplay; by case_match).
  match goal with |- context [foldl ?f ?s ?l] =>
    destruct (Hshow (foldl f s l)) as (-> & -> & ->);
    destruct (rooms_create_each_pool l s Hids) as (Hw & Hc & Ht) end.
  - done.
  - by rewrite Hw, Hc, Ht.
Qed.

(** A map that gives the handles [0 .. n-1] to [n] keys lists every one
    of them among its values. *)
Lemma handle_in_values (keys : list jsstring) (cal : nat) :
  cal < length keys -> cal ∈ Object_values (zip keys (seq 0 (length keys))).
Proof.
  intros Hcal. rewrite Object_values_all.
  change (map snd ?l) with (l.*2). rewrite snd_zip by (by rewrite length_seq).
  apply elem_of_seq. lia.
Qed.

(** On the day-offset page every calendar created is in the map, in
    every state the page reaches; on the rooms page so it is when the
    room ids differ from each other. *)
Lemma django_every_widget_stored (doc : Django.document) (st0 : Django.state)
    (inputs : list Django.input) (cal : nat) :
  Django.init doc = Normal st0 ->
  cal < length (Django.widgets (Django.run st0 inputs)) ->
  cal ∈ Object_values (Django.calendars (Django.run st0 inputs)).
Proof.
  intros Hinit. apply django_init_start in Hinit as [token ->].
  destruct (django_run_pool (Django.start doc token) inputs) as [-> ->].
  destruct (django_start_pool doc token) as (-> & -> & _).
  rewrite length_fmap. intros Hcal.
  rewrite <- (length_fmap Django.id). apply handle_in_values. by rewrite length_fmap.
Qed.

Lemma rooms_run_pool (st : Rooms.state) (inputs : list Rooms.input) :
  Rooms.calendars (Rooms.run st inputs) = Rooms.calendars st
  /\ length (Rooms.widgets (Rooms.run st inputs)) = length (Rooms.widgets st).
Proof.
  revert st. induction inputs as [| i inputs IH]; intros st; simpl; [done |].
  destruct (IH (Rooms.step st i)) as [-> ->]. apply rooms_step_pool.
Qed.

Lemma rooms_every_widget_stored (doc : Rooms.document) (st0 : Rooms.state)
    (inputs : list Rooms.input) (cal : nat) :
  Rooms.init doc = Normal st0 ->
  NoDup (Rooms.id <$> Rooms.room_elements doc) ->
  cal < length (Rooms.widgets (Rooms.run st0 inputs)) ->
  cal ∈ Object_values (Rooms.calendars (Rooms.run st0 inputs)).
Proof.
  intros Hinit Hids. apply rooms_init_start in Hinit as [token ->].
  destruct (rooms_run_pool (Rooms.start doc token) inputs) as [-> ->].
  destruct (rooms_start_pool doc token Hids) as (-> & -> & _).
  rewrite length_fmap. intros Hcal.
  rewrite <- (length_fmap Rooms.id). apply handle_in_values. by rewrite length_fmap.
Qed.



(** *** One update endpoint for the modal and for drag and resize (C7) *)

(** While an event is selected, [#eventid] holds its id: the event click
    writes both, and nothing else writes either but the date click, which
    clears the selection. *)
Lemma django_selection_sync (today : LocalDate) (configs : list Django.config) (index : Z)
    (st : Django.state) :
  Django.currentEvent (Django.sync_from today index configs st) = Django.currentEvent st
  /\ Django.dom (Django.sync_from today index configs st) = Django.dom st.
Proof.
  revert index st. induction configs as [| config rest IH]; intros index st; simpl; [done |].
  destruct (obj_get _ _); [| done]. by destruct (IH (index + 1)%Z (Django.gotoDate n (add_days today index) st)) as [-> ->].
Qed.

Lemma django_selection_refreshes (n : nat) (st : Django.state) :
  Django.currentEvent (Nat.iter n Django.auto_refresh st) = Django.currentEvent st
  /\ Django.dom (Nat.iter n Django.auto_refresh st) = Django.dom st.
Proof.
  induction n as [| n [IH1 IH2]]; simpl; [done |].
  split.
  - unfold Django.auto_refresh at 1. by rewrite django_refetch_all.
  - unfold Django.auto_refresh at 1. by rewrite django_refetch_all.
Qed.

Lemma django_step_selected (st : Django.state) (i : Django.input) :
  django_selected_id st -> django_selected_id (Django.step st i).
Proof.
  unfold django_selected_id. intros H.
  destruct i as [cal s e | cal ev | cal date | cal info | cal info | | confirmed
                | today | | i o | dt]; simpl.
  1-5: unfold Django.on_widget; destruct (Django.widgets st !! cal); [| done].
  1-5: simpl; try done.
  - by intros ev' [= ->].
  - unfold Django.submit. split_tests; done.
  - unfold Django.delete_click.
    destruct (Django.currentEvent st) eqn:Hev; [| by intros ev; rewrite Hev].
    destruct confirmed; simpl; by rewrite Hev.
  - destruct (Django.buttons st); [| done]. unfold Django.sync_click.
    by destruct (django_selection_sync today Django.calendarConfigs 0 st) as [-> ->].
  - destruct (Django.buttons st); [| done]. unfold Django.refresh_click.
    by rewrite django_refetch_all.
  - unfold Django.settle. destruct (Django.pending st !! i) as [[r k] |]; [| done].
    destruct k, o as [data | err]; simpl; try done.
    all: unfold Django.eventDrop_settled, Django.eventResize_settled,
           Django.submit_settled, Django.delete_settled, Django.then_catch.
    all: destruct data; simpl; try done.
    all: split_tests; simpl; rewrite ?django_refetch_all; done.
  - unfold Django.elapse. destruct (Django.next_tick st); [| done].
    case_match; [done |]. simpl.
    by destruct (django_selection_refreshes
                   (Z.to_nat ((Django.now st + Z.max 0 dt - z) / Django.refresh_period + 1)) st)
      as [-> ->].
Qed.

Lemma django_create_each_selection (doc : Django.document) (l : list Django.config)
    (st : Django.state) :
  Django.currentEvent (foldl (fun st config => Django.createCalendar doc config st) st l)
  = Django.currentEvent st.
Proof.
  revert st. induction l as [| c l IH]; intros st; simpl; [done |].
  rewrite IH. unfold Django.createCalendar. by case_bool_decide.
Qed.

Lemma django_run_selected (doc : Django.document) (st0 : Django.state)
    (inputs : list Django.input) :
  Django.init doc = Normal st0 -> django_selected_id (Django.run st0 inputs).
Proof.
  intros Hinit. apply django_init_start in Hinit as [token ->].
  assert (django_selected_id (Django.start doc token)) as Hstart.
  { intros ev. unfold Django.start.
    cbn [Django.currentEvent Django.setInterval Django.set_clock Django.createSyncButton].
    by rewrite django_create_each_selection. }
  revert Hstart. generalize (Django.start doc token).
  induction inputs as [| i inputs IH]; intros st Hst; simpl; [done |].
  by apply IH, django_step_selected.
Qed.

(** C7. On the day-offset page, whenever an event with an id is
    selected in the modal, the form's submission posts to the update
    endpoint of that id, and so do a drag and a resize of an event with
    that id, on the day-offset page and on the rooms page alike: the five
    requests have one and the same URL. *)
Theorem modal_edit_and_drag_share_update_url
    (doc : Django.document) (st0 : Django.state) (inputs : list Django.input)
    (rooms : Rooms.state) (cal room_cal : nat)
    (w : Django.widget) (room_w : Rooms.widget) (ev : EventApi) (info : ChangeInfo) :
  Django.init doc = Normal st0 ->
  let st := Django.run st0 inputs in
  Django.currentEvent st = Some ev ->
  ev_id ev <> [] ->
  ev_id (event info) = ev_id ev ->
  Django.widgets st !! cal = Some w ->
  Rooms.widgets rooms !! room_cal = Some room_w ->
  exists r_edit r_drop r_resize r_room_drop r_room_resize,
    Django.trace (Django.step st Django.Submit) = Django.trace st ++ [Fetch r_edit]
    /\ Django.trace (Django.step st (Django.EventDrop cal info))
       = Django.trace st ++ [Fetch r_drop]
    /\ Django.trace (Django.step st (Django.EventResize cal info))
       = Django.trace st ++ [Fetch r_resize]
    /\ Rooms.trace (Rooms.step rooms (Rooms.EventDrop room_cal info))
       = Rooms.trace rooms ++ [Fetch r_room_drop]
    /\ Rooms.trace (Rooms.step rooms (Rooms.EventResize room_cal info))
       = Rooms.trace rooms ++ [Fetch r_room_resize]
    /\ Forall (fun r => req_method r = POST /\ req_url r = update_url (ev_id ev))
         [r_edit; r_drop; r_resize; r_room_drop; r_room_resize].
Proof.
  intros Hinit st Hev Hid Hinfo Hw Hroom.
  pose proof (django_run_selected doc st0 inputs Hinit ev Hev) as Heventid.
  fold st in Heventid.
  destruct (django_change_step st cal w info Hw) as [-> ->].
  destruct (rooms_change_step rooms room_cal room_w info Hroom) as [-> ->].
  eexists _, _, _, _, _. repeat apply conj.
  - simpl. unfold Django.submit. rewrite Hev, Heventid. simpl.
    rewrite (bool_decide_false (ev_id ev = [])) by done. trace_eq.
  - trace_eq.
  - trace_eq.
  - trace_eq.
  - trace_eq.
  - rewrite <- Hinfo. repeat constructor.
Qed.

(** C7 on the sample pages: appointment 42 is clicked on the day-offset
    page, then edited, dragged or resized. *)
Lemma modal_edit_and_drag_share_update_url_sample :
  let st := Django.run Samples.django_state [Django.EventClick 0 Samples.appointment] in
  exists r_edit r_drop r_resize r_room_drop r_room_resize,
    Django.trace (Django.step st Django.Submit) = Django.trace st ++ [Fetch r_edit]
    /\ Django.trace (Django.step st (Django.EventDrop 0 Samples.a_change))
       = Django.trace st ++ [Fetch r_drop]
    /\ Django.trace (Django.step st (Django.EventResize 0 Samples.a_change))
       = Django.trace st ++ [Fetch r_resize]
    /\ Rooms.trace (Rooms.step Samples.rooms_state (Rooms.EventDrop 1 Samples.a_change))
       = Rooms.trace Samples.rooms_state ++ [Fetch r_room_drop]
    /\ Rooms.trace (Rooms.step Samples.rooms_state (Rooms.EventResize 1 Samples.a_change))
       = Rooms.trace Samples.rooms_state ++ [Fetch r_room_resize]
    /\ Forall (fun r => req_method r = POST
                        /\ req_url r = update_url (ev_id Samples.appointment))
         [r_edit; r_drop; r_resize; r_room_drop; r_room_resize].
Proof.
  eapply (modal_edit_and_drag_share_update_url
            Samples.django_page Samples.django_state
            [Django.EventClick 0 Samples.appointment]
            Samples.rooms_state 0 1 _ _ Samples.appointment Samples.a_change).
  - vm_compute. reflexivity.
  - vm_compute. reflexivity.
  - vm_compute. discriminate.
  - vm_compute. reflexivity.
  - vm_compute. reflexivity.
  - vm_compute. reflexivity.
Defined.

Example modal_edit_sample :
  let st := Django.run Samples.django_state
              [Django.EventClick 0 Samples.appointment; Django.Submit] in
  map fst (Django.pending st)
  = [ {| req_url := js "/appointments/api/appointments/42/update/";
         req_method := POST;
         req_headers := [ (js "Content-Type", Some (js "application/json"));
                          (js "X-CSRFToken", Some (js "Tq9/v")) ];
         req_body := Some [ (js "notes", Some (js "first session")) ] |} ].
Proof. vm_compute. reflexivity. Qed.

(** ** The theorems at the sample pages

    Each of the theorems above, applied to one of the sample pages, with
    its hypotheses checked there. *)


(** C2 at the sample day-offset page: the form is submitted after a
    date click. *)
Lemma submit_after_date_click_at_sample :
  let st := Django.step Samples.django_state (Django.DateClick 0 Samples.a_click) in
  let st' := Django.step st Django.Submit in
  Django.trace st'
  = Django.trace st
    ++ [Alert (Text (js "To create appointments, please use the full appointment creation form."));
        ModalHide]
  /\ Django.pending st' = Django.pending st
  /\ Django.modal_open (Django.dom st') = false.
Proof.
  destruct date_click_create_sends_no_request as (_ & H & _).
  apply (H (Django.step Samples.django_state (Django.DateClick 0 Samples.a_click))).
  - vm_compute. reflexivity.
  - vm_compute. eauto.
Defined.

(** C3 at the sample day-offset page: an accepted drag. *)
Lemma accepted_drag_at_sample :
  let st := Django.step Samples.django_state (Django.EventDrop 2 Samples.a_change) in
  Django.trace (Django.step st (Django.Settle 0 (Parsed Samples.approval)))
  = Django.trace st
    ++ ConsoleLog (js "Appointment moved successfully")
       :: map Refetch (Object_values (Django.calendars st)).
Proof.
  destruct accepted_drag_or_edit_refetches_pool_resize_does_not as (H & _).
  eapply (H _ 0 _ 2 Samples.a_change).
  - vm_compute. reflexivity.
  - vm_compute. reflexivity.
Defined.

(** C5 at the sample rooms page: the second widget asks for a day. *)
Lemma event_source_at_sample :
  let st := Samples.rooms_state in
  let startStr := js "2024-05-01T00:00:00+03:00" in
  let endStr := js "2024-05-02T00:00:00+03:00" in
  let r := {| req_url := js "/appointments/api/room-appointments/?start=" ++ startStr
                         ++ js "&end=" ++ endStr ++ js "&room_id=" ++ js "3";
              req_method := GET; req_headers := []; req_body := None |} in
  let st' := Rooms.step st (Rooms.FetchEvents 1 startStr endStr) in
  Rooms.trace st' = Rooms.trace st ++ [Fetch r]
  /\ Rooms.pending st'
     = Rooms.pending st
       ++ [(r, Rooms.EventsFetched 1
                 {| Rooms.id := js "3"; Rooms.name := Some (js "Laser B");
                    Rooms.elementId := js "room-calendar-3" |})].
Proof.
  destruct event_source_requests_range_and_forwards as (_ & _ & H & _).
  apply (H Samples.rooms_state 1
           {| Rooms.w_config := {| Rooms.id := js "3"; Rooms.name := Some (js "Laser B");
                                   Rooms.elementId := js "room-calendar-3" |};
              Rooms.w_date := Samples.a_day |}).
  vm_compute. reflexivity.
Defined.

(** C6 at the sample rooms page: the next-day button, after some
    browsing. *)
Lemma next_day_at_sample :
  let st := Rooms.run Samples.rooms_state
              [Rooms.PrevDay; Rooms.EventClick 0 Samples.appointment] in
  let target := add_days (Rooms.currentDate st) 1 in
  Rooms.currentDate (Rooms.next_day_click st) = target
  /\ forall key cal,
       obj_get key (Rooms.calendars (Rooms.next_day_click st)) = Some cal ->
       Rooms.w_date <$> Rooms.widgets (Rooms.next_day_click st) !! cal = Some target.
Proof.
  destruct navigation_aligns_rooms_and_sync_staggers_days as (H & _).
  apply (H Samples.rooms_page Samples.rooms_state
           [Rooms.PrevDay; Rooms.EventClick 0 Samples.appointment]).
  - vm_compute. reflexivity.
  - right. left. done.
Defined.


(** C9 at a sample cookie string: the first entry for [csrftoken] is the
    second entry. *)
Lemma getCookie_at_sample :
  getCookie (js "sessionid=k3; csrftoken=Tq9%2Fv; csrftoken=old") (js "csrftoken")
  = Some <$> decodeURIComponent (js "Tq9%2Fv").
Proof.
  destruct (getCookie_first_matching_entry
              (js "sessionid=k3; csrftoken=Tq9%2Fv; csrftoken=old") (js "csrftoken"))
    as (_ & _ & H & _).
  apply (H [js "sessionid=k3"] (js " csrftoken=Tq9%2Fv") [js " csrftoken=old"]).
  - vm_compute. reflexivity.
  - repeat constructor. intros value Hentry. vm_compute in Hentry. discriminate.
  - vm_compute. reflexivity.
Defined.


(** * Further properties of the code *)

(** ** getCookie *)

Lemma getCookie_is_first_entry (document_cookie name : jsstring)
    (before : list jsstring) (entry : jsstring) (after : list jsstring)
    (value : jsstring) :
  split 0x3B document_cookie = before ++ entry :: after ->
  Forall (fun e => forall v, ~ entry_for name e v) before ->
  entry_for name entry value ->
  getCookie document_cookie name = Some <$> decodeURIComponent value.
Proof.
  intros Hsplit Hbefore Hentry. unfold getCookie.
  rewrite bool_decide_true, Hsplit; [by apply getCookie_loop_first |].
  intros ->. simpl in Hsplit.
  destruct before as [| e [| e' before]]; simplify_eq/=.
  unfold entry_for in Hentry. rewrite js_equals_sign in Hentry.
  by destruct name.
Qed.

(** X1. When the value of the first entry for [name] holds no [%]
    (a token of letters and digits, say), [getCookie] returns it as it
    stands, whatever entries follow. *)
Theorem getCookie_returns_plain_value_unchanged (document_cookie name : jsstring)
    (before : list jsstring) (entry : jsstring) (after : list jsstring)
    (value : jsstring) :
  split 0x3B document_cookie = before ++ entry :: after ->
  Forall (fun e => forall v, ~ entry_for name e v) before ->
  entry_for name entry value ->
  Forall (fun c => c <> 0x25%N) value ->
  getCookie document_cookie name = Normal (Some value).
Proof.
  intros Hsplit Hbefore Hentry Hplain.
  rewrite (getCookie_is_first_entry _ _ _ _ _ _ Hsplit Hbefore Hentry).
  by rewrite decodeURIComponent_plain.
Qed.

Lemma getCookie_plain_value_at_sample :
  getCookie (js "sessionid=k3;  csrftoken=Zx81Qp ; theme=dark") (js "csrftoken")
  = Normal (Some (js "Zx81Qp")).
Proof.
  apply (getCookie_returns_plain_value_unchanged _ _
           [js "sessionid=k3"] (js "  csrftoken=Zx81Qp ") [js " theme=dark"]).
  - vm_compute. reflexivity.
  - repeat constructor. intros v Hv. vm_compute in Hv. discriminate.
  - vm_compute. reflexivity.
  - vm_compute. repeat constructor; discriminate.
Defined.

(** Two texts cut at the first occurrence of a separator agree on what
    comes before it. *)
Lemma first_separator_unique (x : N) (l1 l2 r1 r2 : jsstring) :
  (x ∉ l1) -> (x ∉ l2) -> l1 ++ x :: r1 = l2 ++ x :: r2 -> l1 = l2.
Proof.
  revert l2. induction l1 as [| a l1 IH]; intros [| b l2] H1 H2 Heq; simpl in *.
  - done.
  - simplify_eq. destruct H2. apply list_elem_of_here.
  - simplify_eq. destruct H1. apply list_elem_of_here.
  - simplify_eq. f_equal. apply IH; [| | done].
    + intros ?. apply H1. by apply list_elem_of_further.
    + intros ?. apply H2. by apply list_elem_of_further.
Qed.

(** X2. The cookie name is matched whole: when every entry is a pair
    [other=v] whose name [other] is not [name] (names holding no [=]),
    [getCookie] returns [null], also when [name] is the beginning or the
    end of one of those names. *)
Theorem getCookie_matches_whole_name (document_cookie name : jsstring) :
  (0x3D%N ∉ name) ->
  Forall (fun entry =>
            exists other v,
              trim entry = other ++ js "=" ++ v /\ (0x3D%N ∉ other) /\ other <> name)
    (split 0x3B document_cookie) ->
  getCookie document_cookie name = Normal None.
Proof.
  intros Hname Hall. unfold getCookie. case_bool_decide; [| done].
  apply getCookie_loop_none. eapply Forall_impl; [exact Hall |].
  intros entry (other & v & Hother & Hno & Hne) value Hentry.
  unfold entry_for in Hentry. rewrite Hother, js_equals_sign in Hentry. simpl in Hentry.
  apply Hne. by apply (first_separator_unique 0x3D other name v value).
Qed.

Lemma getCookie_whole_name_at_sample :
  getCookie (js "xcsrftoken=1; csrftoken2=2;csrf=3") (js "csrftoken") = Normal None.
Proof.
  apply getCookie_matches_whole_name.
  - vm_compute. intros H. repeat (apply elem_of_cons in H as [H | H]; [discriminate |]).
    by apply elem_of_nil in H.
  - vm_compute. repeat constructor.
    + exists (js "xcsrftoken"), (js "1"). vm_compute. repeat split; [| discriminate].
      intros H. repeat (apply elem_of_cons in H as [H | H]; [discriminate |]).
      by apply elem_of_nil in H.
    + exists (js "csrftoken2"), (js "2"). vm_compute. repeat split; [| discriminate].
      intros H. repeat (apply elem_of_cons in H as [H | H]; [discriminate |]).
      by apply elem_of_nil in H.
    + exists (js "csrf"), (js "3"). vm_compute. repeat split; [| discriminate].
      intros H. repeat (apply elem_of_cons in H as [H | H]; [discriminate |]).
      by apply elem_of_nil in H.
Defined.

(** ** What the pages send and what they never do *)

Ltac api_request_tac :=
  split; simpl;
  [ lazymatch goal with
    | |- exists rest, js ?lit ++ ?tail = js "/appointments/api/" ++ rest =>
        exists (drop 18 (js lit) ++ tail);
        rewrite app_assoc; f_equal; vm_compute; reflexivity
    end
  | first [done | by split; [reflexivity | eexists]] ].

Section DjangoAdds.
Variable P : effect -> Prop.

Lemma django_adds_refl (st : Django.state) : django_adds P st st.
Proof. repeat split. exists []. by rewrite app_nil_r. Qed.

Lemma django_adds_trans (st1 st2 st3 : Django.state) :
  django_adds P st1 st2 -> django_adds P st2 st3 -> django_adds P st1 st3.
Proof.
  intros (Ht & Hc & Hw & a & Ha & HP) (Ht' & Hc' & Hw' & b & Hb & HP').
  split; [congruence |]. split; [congruence |]. split; [congruence |].
  exists (a ++ b). rewrite Hb, Ha, app_assoc. split; [done |]. by apply Forall_app.
Qed.

Lemma django_adds_quiet (st0 st st' : Django.state) :
  django_adds P st0 st ->
  Django.csrftoken st' = Django.csrftoken st ->
  Django.calendars st' = Django.calendars st ->
  Django.widgets st' = Django.widgets st ->
  Django.trace st' = Django.trace st ->
  django_adds P st0 st'.
Proof.
  intros (Ht & Hc & Hw & a & Ha & HP) H1 H2 H3 H4.
  split; [congruence |]. split; [congruence |]. split; [congruence |].
  exists a. by rewrite H4.
Qed.

Lemma django_adds_emit (e : effect) (st0 st : Django.state) :
  django_adds P st0 st -> P e -> django_adds P st0 (Django.emit e st).
Proof.
  intros (Ht & Hc & Hw & a & Ha & HP) He. do 3 (split; [done |]).
  exists (a ++ [e]). simpl. rewrite Ha, app_assoc. split; [done |].
  apply Forall_app. split; [done | by constructor].
Qed.

Lemma django_adds_gotoDate (cal : nat) (d : LocalDate) (st0 st : Django.state) :
  django_adds P st0 st -> P (GotoDate cal d) ->
  django_adds P st0 (Django.gotoDate cal d st).
Proof.
  intros H He. apply (django_adds_emit (GotoDate cal d)) in H; [| done].
  destruct H as (Ht & Hc & Hw & a & Ha & HP). do 2 (split; [done |]).
  split; [| by exists a]. simpl in *. rewrite <- Hw.
  rewrite (list_fmap_alter _ _ id); [by apply list_alter_id | by apply Forall_true].
Qed.

Lemma django_adds_refetch_all (st0 st : Django.state) :
  django_adds P st0 st -> (forall cal, P (Refetch cal)) ->
  django_adds P st0 (Django.refetch_all st).
Proof.
  intros H HP. eapply django_adds_trans; [exact H |].
  rewrite django_refetch_all. do 3 (split; [done |]).
  eexists. split; [done |]. apply Forall_forall. intros e He.
  apply list_elem_of_fmap in He as (cal & -> & _). apply HP.
Qed.

End DjangoAdds.

Ltac django_adds_tac :=
  simpl; split_tests; simpl;
  repeat lazymatch goal with
    | |- django_adds _ ?st ?st => apply django_adds_refl
    | |- django_adds _ _ (Django.emit _ _) => apply django_adds_emit
    | |- django_adds _ _ (Django.gotoDate _ _ _) => apply django_adds_gotoDate
    | |- django_adds _ _ (Django.refetch_all _) => apply django_adds_refetch_all
    | |- django_adds ?P _ (Django.set_currentEvent _ ?s) =>
        apply (django_adds_quiet P _ s); [| (simpl; reflexivity) ..]
    | |- django_adds ?P _ (Django.set_currentCalendarId _ ?s) =>
        apply (django_adds_quiet P _ s); [| (simpl; reflexivity) ..]
    | |- django_adds ?P _ (Django.set_clickedInfo _ ?s) =>
        apply (django_adds_quiet P _ s); [| (simpl; reflexivity) ..]
    | |- django_adds ?P _ (Django.set_dom _ ?s) =>
        apply (django_adds_quiet P _ s); [| (simpl; reflexivity) ..]
    | |- django_adds ?P _ (Django.set_display _ ?s) =>
        apply (django_adds_quiet P _ s); [| (simpl; reflexivity) ..]
    | |- django_adds ?P _ (Django.set_pending _ ?s) =>
        apply (django_adds_quiet P _ s); [| (simpl; reflexivity) ..]
    | |- django_adds ?P _ (Django.set_clock _ _ ?s) =>
        apply (django_adds_quiet P _ s); [| (simpl; reflexivity) ..]
    | |- django_adds _ _ (Django.call_fetch _ _ _) => unfold Django.call_fetch
    | |- django_adds _ _ (Django.show_modal _) => unfold Django.show_modal
    | |- django_adds _ _ (Django.hide_modal _) => unfold Django.hide_modal
    | |- django_adds _ _ (Django.reset_form _) => unfold Django.reset_form
    | |- django_adds _ _ (Django.revert _ _ _) => unfold Django.revert
    | |- django_adds _ _ (Django.apply_change _ _ _) => unfold Django.apply_change
    | |- django_adds _ _ (Django.update_failed _ _ _ _) => unfold Django.update_failed
    end.

Section DjangoAddsStep.
Variable P : effect -> Prop.
Hypothesis P_within : forall e, within_page e = true -> P e.

Lemma django_adds_sync (today : LocalDate) (configs : list Django.config) (index : Z)
    (st0 st : Django.state) :
  Forall (fun config => is_Some (obj_get (Django.id config) (Django.calendars st0))) configs
  \/ (forall e, P (Uncaught e)) ->
  django_adds P st0 st -> django_adds P st0 (Django.sync_from today index configs st).
Proof.
  revert index st. induction configs as [| config rest IH]; intros index st Hfull H; simpl.
  - done.
  - destruct (obj_get (Django.id config) (Django.calendars st)) as [cal |] eqn:Hget.
    + apply IH.
      * destruct Hfull as [Hfull | HU]; [left | by right].
        by apply Forall_cons in Hfull as [_ Hfull].
      * apply django_adds_gotoDate; [exact H | by apply P_within].
    + apply django_adds_emit; [done |].
      destruct Hfull as [Hfull | HU]; [| apply HU].
      apply Forall_cons in Hfull as [[cal Hcal] _].
      destruct H as (_ & Hc & _). rewrite Hc in Hget. congruence.
Qed.

Lemma django_adds_settle (i : nat) (o : outcome) (st : Django.state) :
  django_adds P st (Django.settle i o st).
Proof.
  unfold Django.settle. destruct (Django.pending st !! i) as [[r k] |];
    [| apply django_adds_refl].
  destruct k, o as [data | err]; simpl.
  all: unfold Django.events_settled, Django.eventDrop_settled,
         Django.eventResize_settled, Django.submit_settled, Django.delete_settled,
         Django.then_catch.
  all: try destruct data; django_adds_tac.
  all: try (intros; by apply P_within).
Qed.

Lemma django_adds_refreshes (n : nat) (st : Django.state) :
  django_adds P st (Nat.iter n Django.auto_refresh st).
Proof.
  induction n as [| n IH]; simpl; [apply django_adds_refl |].
  apply django_adds_refetch_all; [done |]. intros. by apply P_within.
Qed.

Lemma django_adds_step (st : Django.state) (i : Django.input) :
  (forall r, api_request (Django.csrftoken st) r -> P (Fetch r)) ->
  Forall (fun config => is_Some (obj_get (Django.id config) (Django.calendars st)))
    Django.calendarConfigs
  \/ (forall e, P (Uncaught e)) ->
  django_adds P st (Django.step st i).
Proof.
  intros HF HU.
  destruct i as [cal s e | cal ev | cal date | cal info | cal info | | confirmed
                | today | | i o | dt]; simpl.
  - unfold Django.on_widget. destruct (Django.widgets st !! cal); [| apply django_adds_refl].
    unfold Django.events. django_adds_tac. apply HF. api_request_tac.
  - unfold Django.on_widget. destruct (Django.widgets st !! cal); [| apply django_adds_refl].
    unfold Django.eventClick. django_adds_tac. all: by apply P_within.
  - unfold Django.on_widget. destruct (Django.widgets st !! cal); [| apply django_adds_refl].
    unfold Django.dateClick. django_adds_tac. all: by apply P_within.
  - unfold Django.on_widget. destruct (Django.widgets st !! cal); [| apply django_adds_refl].
    unfold Django.eventDrop. django_adds_tac. apply HF. api_request_tac.
  - unfold Django.on_widget. destruct (Django.widgets st !! cal); [| apply django_adds_refl].
    unfold Django.eventResize. django_adds_tac. apply HF. api_request_tac.
  - unfold Django.submit. django_adds_tac.
    all: first [by apply P_within | apply HF; api_request_tac].
  - unfold Django.delete_click. destruct (Django.currentEvent st); django_adds_tac.
    all: first [by apply P_within | apply HF; api_request_tac].
  - destruct (Django.buttons st); [| apply django_adds_refl].
    apply django_adds_sync; [done | apply django_adds_refl].
  - unfold Django.refresh_click. django_adds_tac. intros. by apply P_within.
  - apply django_adds_settle.
  - unfold Django.elapse. destruct (Django.next_tick st) as [due |]; django_adds_tac.
    apply django_adds_refreshes.
Qed.

Lemma django_adds_run (inputs : list Django.input) (st : Django.state) :
  (forall r, api_request (Django.csrftoken st) r -> P (Fetch r)) ->
  Forall (fun config => is_Some (obj_get (Django.id config) (Django.calendars st)))
    Django.calendarConfigs
  \/ (forall e, P (Uncaught e)) ->
  django_adds P st (Django.run st inputs).
Proof.
  revert st. induction inputs as [| i inputs IH]; intros st HF HU; simpl.
  - apply django_adds_refl.
  - pose proof (django_adds_step st i HF HU) as Hstep.
    eapply django_adds_trans; [exact Hstep |].
    destruct Hstep as (Ht & Hc & _). apply IH; by rewrite ?Ht, ?Hc.
Qed.

End DjangoAddsStep.

(** Start-up renders the calendars and does nothing else that shows. *)
Lemma django_create_each_trace (doc : Django.document) (l : list Django.config)
    (st : Django.state) :
  let st' := foldl (fun st config => Django.createCalendar doc config st) st l in
  Django.csrftoken st' = Django.csrftoken st
  /\ exists added,
       Django.trace st' = Django.trace st ++ added
       /\ Forall (fun e => within_page e = true) added.
Proof.
  revert st. induction l as [| config l IH]; intros st; simpl.
  - split; [done |]. exists []. by rewrite app_nil_r.
  - destruct (IH (Django.createCalendar doc config st)) as (Ht & added & Ha & Hall).
    rewrite Ht, Ha. unfold Django.createCalendar. case_bool_decide; simpl.
    + split; [done |]. eexists. rewrite <- app_assoc. split; [done |].
      by constructor.
    + split; [done |]. by exists added.
Qed.

Lemma django_start_trace (doc : Django.document) (token : option jsstring) :
  Django.csrftoken (Django.start doc token) = token
  /\ Forall (fun e => within_page e = true) (Django.trace (Django.start doc token)).
Proof.
  unfold Django.start, Django.setInterval.
  cbn [Django.csrftoken Django.trace Django.set_clock Django.createSyncButton].
  match goal with |- context [foldl ?f ?s ?l] =>
    destruct (django_create_each_trace doc l s) as (Ht & added & Ha & Hall) end.
  cbn [Django.csrftoken Django.trace] in Ht, Ha. by rewrite Ht, Ha.
Qed.

Section RoomsAdds.
Variable P : effect -> Prop.

Lemma rooms_adds_refl (st : Rooms.state) : rooms_adds P st st.
Proof. repeat split. exists []. by rewrite app_nil_r. Qed.

Lemma rooms_adds_trans (st1 st2 st3 : Rooms.state) :
  rooms_adds P st1 st2 -> rooms_adds P st2 st3 -> rooms_adds P st1 st3.
Proof.
  intros (Ht & Hc & Hw & a & Ha & HP) (Ht' & Hc' & Hw' & b & Hb & HP').
  split; [congruence |]. split; [congruence |]. split; [congruence |].
  exists (a ++ b). rewrite Hb, Ha, app_assoc. split; [done |]. by apply Forall_app.
Qed.

Lemma rooms_adds_quiet (st0 st st' : Rooms.state) :
  rooms_adds P st0 st ->
  Rooms.csrftoken st' = Rooms.csrftoken st ->
  Rooms.calendars st' = Rooms.calendars st ->
  Rooms.widgets st' = Rooms.widgets st ->
  Rooms.trace st' = Rooms.trace st ->
  rooms_adds P st0 st'.
Proof.
  intros (Ht & Hc & Hw & a & Ha & HP) H1 H2 H3 H4.
  split; [congruence |]. split; [congruence |]. split; [congruence |].
  exists a. by rewrite H4.
Qed.

Lemma rooms_adds_emit (e : effect) (st0 st : Rooms.state) :
  rooms_adds P st0 st -> P e -> rooms_adds P st0 (Rooms.emit e st).
Proof.
  intros (Ht & Hc & Hw & a & Ha & HP) He. do 3 (split; [done |]).
  exists (a ++ [e]). simpl. rewrite Ha, app_assoc. split; [done |].
  apply Forall_app. split; [done | by constructor].
Qed.

Lemma rooms_adds_gotoDate (cal : nat) (d : LocalDate) (st0 st : Rooms.state) :
  rooms_adds P st0 st -> P (GotoDate cal d) ->
  rooms_adds P st0 (Rooms.gotoDate cal d st).
Proof.
  intros H He. apply (rooms_adds_emit (GotoDate cal d)) in H; [| done].
  destruct H as (Ht & Hc & Hw & a & Ha & HP). do 2 (split; [done |]).
  split; [| by exists a]. simpl in *. rewrite <- Hw.
  rewrite (list_fmap_alter _ _ id); [by apply list_alter_id | by apply Forall_true].
Qed.

Lemma rooms_adds_refetch_all (st0 st : Rooms.state) :
  rooms_adds P st0 st -> (forall cal, P (Refetch cal)) ->
  rooms_adds P st0 (Rooms.refetch_all st).
Proof.
  intros H HP. eapply rooms_adds_trans; [exact H |].
  rewrite rooms_refetch_all. do 3 (split; [done |]).
  eexists. split; [done |]. apply Forall_forall. intros e He.
  apply list_elem_of_fmap in He as (cal & -> & _). apply HP.
Qed.

Lemma rooms_adds_goto_each (l : list nat) (st0 st : Rooms.state) :
  rooms_adds P st0 st -> (forall cal d, P (GotoDate cal d)) ->
  rooms_adds P st0 (foldl (fun s cal => Rooms.gotoDate cal (Rooms.currentDate s) s) st l).
Proof.
  intros H HP. revert st H. induction l as [| cal l IH]; intros st H; simpl; [done |].
  apply IH. by apply rooms_adds_gotoDate.
Qed.

End RoomsAdds.

Ltac rooms_adds_calls :=
  repeat lazymatch goal with
    | |- rooms_adds _ ?st ?st => apply rooms_adds_refl
    | |- rooms_adds _ _ (Rooms.emit _ _) => apply rooms_adds_emit
    | |- rooms_adds _ _ (Rooms.gotoDate _ _ _) => apply rooms_adds_gotoDate
    | |- rooms_adds _ _ (Rooms.refetch_all _) => apply rooms_adds_refetch_all
    | |- rooms_adds _ _ (Rooms.goto_all _) => apply rooms_adds_goto_each
    | |- rooms_adds ?P _ (Rooms.set_currentEvent _ ?s) =>
        apply (rooms_adds_quiet P _ s); [| (simpl; reflexivity) ..]
    | |- rooms_adds ?P _ (Rooms.set_currentDate _ ?s) =>
        apply (rooms_adds_quiet P _ s); [| (simpl; reflexivity) ..]
    | |- rooms_adds ?P _ (Rooms.set_dom _ ?s) =>
        apply (rooms_adds_quiet P _ s); [| (simpl; reflexivity) ..]
    | |- rooms_adds ?P _ (Rooms.set_date_display _ ?s) =>
        apply (rooms_adds_quiet P _ s); [| (simpl; reflexivity) ..]
    | |- rooms_adds ?P _ (Rooms.set_display _ ?s) =>
        apply (rooms_adds_quiet P _ s); [| (simpl; reflexivity) ..]
    | |- rooms_adds ?P _ (Rooms.set_pending _ ?s) =>
        apply (rooms_adds_quiet P _ s); [| (simpl; reflexivity) ..]
    | |- rooms_adds ?P _ (Rooms.set_clock _ _ ?s) =>
        apply (rooms_adds_quiet P _ s); [| (simpl; reflexivity) ..]
    | |- rooms_adds _ _ (Rooms.call_fetch _ _ _) => unfold Rooms.call_fetch
    | |- rooms_adds _ _ (Rooms.show_modal _) => unfold Rooms.show_modal
    | |- rooms_adds _ _ (Rooms.hide_modal _) => unfold Rooms.hide_modal
    | |- rooms_adds _ _ (Rooms.revert _ _ _) => unfold Rooms.revert
    | |- rooms_adds _ _ (Rooms.apply_change _ _ _) => unfold Rooms.apply_change
    | |- rooms_adds _ _ (Rooms.update_failed _ _ _ _) => unfold Rooms.update_failed
    end.

Ltac rooms_adds_tac := simpl; split_tests; simpl; rooms_adds_calls.

Section RoomsAddsStep.
Variable P : effect -> Prop.
Hypothesis P_within : forall e, within_page e = true -> P e.

Lemma rooms_adds_settle (i : nat) (o : outcome) (st : Rooms.state) :
  rooms_adds P st (Rooms.settle i o st).
Proof.
  unfold Rooms.settle. destruct (Rooms.pending st !! i) as [[r k] |];
    [| apply rooms_adds_refl].
  destruct k, o as [data | err]; simpl.
  all: unfold Rooms.events_settled, Rooms.eventDrop_settled,
         Rooms.eventResize_settled, Rooms.delete_settled, Rooms.then_catch.
  all: try destruct data; rooms_adds_tac.
  all: try (intros; by apply P_within).
Qed.

Lemma rooms_adds_refreshes (n : nat) (st : Rooms.state) :
  rooms_adds P st (Nat.iter n Rooms.auto_refresh st).
Proof.
  induction n as [| n IH]; simpl; [apply rooms_adds_refl |].
  apply rooms_adds_refetch_all; [done |]. intros. by apply P_within.
Qed.

Lemma rooms_adds_navigate (target : LocalDate) (st : Rooms.state) :
  rooms_adds P st
    (Rooms.updateDateDisplay (Rooms.goto_all (Rooms.set_currentDate target st))).
Proof.
  unfold Rooms.updateDateDisplay. case_match; rooms_adds_calls.
  all: intros; by apply P_within.
Qed.

Lemma rooms_adds_step (st : Rooms.state) (i : Rooms.input) :
  (forall r, api_request (Rooms.csrftoken st) r -> P (Fetch r)) ->
  (forall room date,
      room ∈ Rooms.w_config <$> Rooms.widgets st -> P (Navigate (create_url room date))) ->
  rooms_adds P st (Rooms.step st i).
Proof.
  intros HF HN.
  destruct i as [cal s e | cal ev | cal date | cal info | cal info | | | today |
                | confirmed | i o | dt]; simpl.
  - unfold Rooms.on_widget. destruct (Rooms.widgets st !! cal); [| apply rooms_adds_refl].
    unfold Rooms.events. rooms_adds_tac. apply HF. api_request_tac.
  - unfold Rooms.on_widget. destruct (Rooms.widgets st !! cal); [| apply rooms_adds_refl].
    unfold Rooms.eventClick. rooms_adds_tac. all: by apply P_within.
  - unfold Rooms.on_widget.
    destruct (Rooms.widgets st !! cal) as [w |] eqn:Hw; [| apply rooms_adds_refl].
    unfold Rooms.dateClick. rooms_adds_tac. apply (HN (Rooms.w_config w) date).
    apply list_elem_of_fmap. exists w. split; [done |]. by eapply list_elem_of_lookup_2.
  - unfold Rooms.on_widget. destruct (Rooms.widgets st !! cal); [| apply rooms_adds_refl].
    unfold Rooms.eventDrop. rooms_adds_tac. apply HF. api_request_tac.
  - unfold Rooms.on_widget. destruct (Rooms.widgets st !! cal); [| apply rooms_adds_refl].
    unfold Rooms.eventResize. rooms_adds_tac. apply HF. api_request_tac.
  - destruct (Rooms.prev_day (Rooms.page st));
      [apply rooms_adds_navigate | apply rooms_adds_refl].
  - destruct (Rooms.next_day (Rooms.page st));
      [apply rooms_adds_navigate | apply rooms_adds_refl].
  - destruct (Rooms.today_btn (Rooms.page st));
      [apply rooms_adds_navigate | apply rooms_adds_refl].
  - unfold Rooms.refresh_all_click. rooms_adds_tac. intros. by apply P_within.
  - unfold Rooms.delete_click.
    destruct (Rooms.btn_delete_event (Rooms.page st)), (Rooms.currentEvent st);
      rooms_adds_tac.
    all: first [by apply P_within | apply HF; api_request_tac].
  - apply rooms_adds_settle.
  - unfold Rooms.elapse. destruct (Rooms.next_tick st) as [due |]; rooms_adds_tac.
    apply rooms_adds_refreshes.
Qed.

Lemma rooms_adds_run (inputs : list Rooms.input) (st : Rooms.state) :
  (forall r, api_request (Rooms.csrftoken st) r -> P (Fetch r)) ->
  (forall room date,
      room ∈ Rooms.w_config <$> Rooms.widgets st -> P (Navigate (create_url room date))) ->
  rooms_adds P st (Rooms.run st inputs).
Proof.
  revert st. induction inputs as [| i inputs IH]; intros st HF HN; simpl.
  - apply rooms_adds_refl.
  - pose proof (rooms_adds_step st i HF HN) as Hstep.
    eapply rooms_adds_trans; [exact Hstep |].
    destruct Hstep as (Ht & Hc & Hw & _). apply IH; by rewrite ?Ht, ?Hw.
Qed.

End RoomsAddsStep.

Lemma rooms_create_each_trace (l : list Rooms.roomConfig) (st : Rooms.state) :
  let st' := foldl (fun st roomConfig =>
                      Rooms.createRoomCalendar (Rooms.currentDate st) roomConfig st) st l in
  Rooms.csrftoken st' = Rooms.csrftoken st
  /\ (exists added,
        Rooms.trace st' = Rooms.trace st ++ added
        /\ Forall (fun e => within_page e = true) added)
  /\ forall room,
       room ∈ Rooms.w_config <$> Rooms.widgets st' ->
       room ∈ Rooms.w_config <$> Rooms.widgets st \/ room ∈ l.
Proof.
  revert st. induction l as [| roomConfig l IH]; intros st; simpl.
  - split; [done |]. split; [| by left]. exists []. by rewrite app_nil_r.
  - destruct (IH (Rooms.createRoomCalendar (Rooms.currentDate st) roomConfig st))
      as (Ht & (added & Ha & Hall) & Hrooms).
    rewrite Ht, Ha. unfold Rooms.createRoomCalendar in *. case_bool_decide; simpl in *.
    + split; [done |]. split.
      * eexists. rewrite <- app_assoc. split; [done |]. by constructor.
      * intros room Hroom. destruct (Hrooms room Hroom) as [Hin | Hin].
        -- rewrite fmap_app in Hin. apply elem_of_app in Hin as [Hin | Hin]; [by left |].
           right. simpl in Hin. apply list_elem_of_singleton in Hin as ->.
           apply list_elem_of_here.
        -- right. by apply list_elem_of_further.
    + split; [done |]. split; [by exists added |].
      intros room Hroom. destruct (Hrooms room Hroom) as [Hin | Hin]; [by left |].
      right. by apply list_elem_of_further.
Qed.

Lemma rooms_start_trace (doc : Rooms.document) (token : option jsstring) :
  let st := Rooms.start doc token in
  Rooms.csrftoken st = token
  /\ Forall (fun e => within_page e = true) (Rooms.trace st)
  /\ forall room, room ∈ Rooms.w_config <$> Rooms.widgets st -> room ∈ Rooms.room_elements doc.
Proof.
  unfold Rooms.start, Rooms.setInterval.
  cbn [Rooms.csrftoken Rooms.trace Rooms.widgets Rooms.set_clock].
  assert (forall st, Rooms.csrftoken (Rooms.updateDateDisplay st) = Rooms.csrftoken st
                     /\ Rooms.trace (Rooms.updateDateDisplay st) = Rooms.trace st
                     /\ Rooms.widgets (Rooms.updateDateDisplay st) = Rooms.widgets st)
    as Hshow by (intros st; unfold Rooms.updateDateDisplay; by case_match).
  match goal with |- context [foldl ?f ?s ?l] =>
    destruct (Hshow (foldl f s l)) as (-> & -> & ->);
    destruct (rooms_create_each_trace l s) as (Ht & (added & Ha & Hall) & Hrooms) end.
  cbn [Rooms.csrftoken Rooms.trace Rooms.widgets Rooms.currentDate] in Ht, Ha, Hrooms.
  rewrite Ht, Ha. split; [done |]. split; [done |].
  intros room Hroom. destruct (Hrooms room Hroom) as [Hin | Hin]; [| done].
  simpl in Hin. by apply elem_of_nil in Hin.
Qed.

Lemma within_page_no_request (P : effect -> Prop) (e : effect) (before added : list effect) :
  within_page e = false ->
  Forall (fun e => within_page e = true) before ->
  Forall P added ->
  e ∈ before ++ added -> P e.
Proof.
  intros He Hbefore Hadded Hin. apply elem_of_app in Hin as [Hin | Hin].
  - rewrite Forall_forall in Hbefore. apply Hbefore in Hin. congruence.
  - rewrite Forall_forall in Hadded. by apply Hadded.
Qed.






(** X6. Once a page runs, nothing changes its pool: whatever the user
    does, however the server answers and however much time passes, the
    [calendars] map keeps its keys and values and every calendar keeps the
    configuration it was created with. *)
Theorem pool_is_fixed_once_the_page_runs :
  (forall (st : Django.state) inputs,
      Django.calendars (Django.run st inputs) = Django.calendars st
      /\ Django.w_config <$> Django.widgets (Django.run st inputs)
         = Django.w_config <$> Django.widgets st)
  /\ (forall (st : Rooms.state) inputs,
        Rooms.calendars (Rooms.run st inputs) = Rooms.calendars st
        /\ Rooms.w_config <$> Rooms.widgets (Rooms.run st inputs)
           = Rooms.w_config <$> Rooms.widgets st).
Proof.
  split; intros st inputs.
  - destruct (django_adds_run (fun _ => True)) with (inputs := inputs) (st := st)
      as (_ & Hc & Hw & _); by auto.
  - destruct (rooms_adds_run (fun _ => True)) with (inputs := inputs) (st := st)
      as (_ & Hc & Hw & _); by auto.
Qed.

(** ** The pool as start-up builds it *)


(** ** A refresh calls each calendar of the pool once *)

Lemma obj_set_value_origin {A} (key : jsstring) (v x : A) (o : list (jsstring * A)) :
  x ∈ (obj_set key v o).*2 -> x = v \/ x ∈ o.*2.
Proof.
  induction o as [| [k w] o IH]; simpl.
  - intros Hx. apply list_elem_of_singleton in Hx. by left.
  - case_bool_decide as Hk; simpl; intros Hx.
    + apply elem_of_cons in Hx as [-> | Hx]; [by left |].
      right. by apply list_elem_of_further.
    + apply elem_of_cons in Hx as [-> | Hx]; [right; apply list_elem_of_here |].
      destruct (IH Hx) as [-> | Hin]; [by left |].
      right. by apply list_elem_of_further.
Qed.

(** A handle that no property holds yet keeps the values distinct. *)
Lemma obj_set_fresh_value (key : jsstring) (n : nat) (o : list (jsstring * nat)) :
  Forall (fun kv => kv.2 < n) o -> NoDup o.*2 -> NoDup (obj_set key n o).*2.
Proof.
  induction o as [| [k w] o IH]; simpl; intros Hlt Hnd.
  - apply NoDup_singleton.
  - apply Forall_cons in Hlt as [Hw Hlt]. apply NoDup_cons in Hnd as [Hin Hnd].
    simpl in Hw. case_bool_decide as Hk; simpl; apply NoDup_cons.
    + split; [| done]. intros Hn. apply list_elem_of_fmap in Hn as (kv & Hkv & Hn).
      rewrite Forall_forall in Hlt. apply Hlt in Hn. lia.
    + split; [| by apply IH]. intros Hn.
      apply obj_set_value_origin in Hn as [-> | Hn]; [lia | done].
Qed.

Lemma django_create_each_distinct (doc : Django.document) (l : list Django.config)
    (st : Django.state) :
  NoDup (Django.calendars st).*2
  /\ Forall (fun kv => kv.2 < length (Django.widgets st)) (Django.calendars st) ->
  NoDup (Django.calendars
           (foldl (fun st config => Django.createCalendar doc config st) st l)).*2.
Proof.
  revert st. induction l as [| config l IH]; intros st [Hnd Hlt]; simpl; [done |].
  apply IH. unfold Django.createCalendar. case_bool_decide; [| done]. simpl. split.
  - by apply obj_set_fresh_value.
  - rewrite length_app, Nat.add_1_r.
    apply (obj_set_values (fun v => v < S (length (Django.widgets st)))); [lia |].
    eapply Forall_impl; [exact Hlt |]. simpl. lia.
Qed.

Lemma rooms_create_each_distinct (l : list Rooms.roomConfig) (st : Rooms.state) :
  NoDup (Rooms.calendars st).*2
  /\ Forall (fun kv => kv.2 < length (Rooms.widgets st)) (Rooms.calendars st) ->
  NoDup (Rooms.calendars
           (foldl (fun st roomConfig =>
                     Rooms.createRoomCalendar (Rooms.currentDate st) roomConfig st) st l)).*2.
Proof.
  revert st. induction l as [| room l IH]; intros st [Hnd Hlt]; simpl; [done |].
  apply IH. unfold Rooms.createRoomCalendar. case_bool_decide; [| done]. simpl. split.
  - by apply obj_set_fresh_value.
  - rewrite length_app, Nat.add_1_r.
    apply (obj_set_values (fun v => v < S (length (Rooms.widgets st)))); [lia |].
    eapply Forall_impl; [exact Hlt |]. simpl. lia.
Qed.

(** In every state a page reaches, [Object.values(calendars)] lists no
    calendar twice. *)
Lemma django_values_distinct (doc : Django.document) (st0 : Django.state)
    (inputs : list Django.input) :
  Django.init doc = Normal st0 ->
  NoDup (Object_values (Django.calendars (Django.run st0 inputs))).
Proof.
  intros Hinit. apply django_init_start in Hinit as [token ->].
  rewrite Object_values_all.
  destruct (django_adds_run (fun _ => True)) with (inputs := inputs)
    (st := Django.start doc token) as (_ & -> & _); [done | done | by right |].
  unfold Django.start, Django.setInterval.
  cbn [Django.calendars Django.set_clock Django.createSyncButton].
  apply django_create_each_distinct. simpl. split; [apply NoDup_nil_2 | done].
Qed.

Lemma rooms_values_distinct (doc : Rooms.document) (st0 : Rooms.state)
    (inputs : list Rooms.input) :
  Rooms.init doc = Normal st0 ->
  NoDup (Object_values (Rooms.calendars (Rooms.run st0 inputs))).
Proof.
  intros Hinit. apply rooms_init_start in Hinit as [token ->].
  rewrite Object_values_all.
  destruct (rooms_adds_run (fun _ => True)) with (inputs := inputs)
    (st := Rooms.start doc token) as (_ & -> & _); [done | done | done |].
  unfold Rooms.start, Rooms.setInterval.
  cbn [Rooms.calendars Rooms.set_clock].
  assert (forall st, Rooms.calendars (Rooms.updateDateDisplay st) = Rooms.calendars st)
    as -> by (intros st; unfold Rooms.updateDateDisplay; by case_match).
  apply rooms_create_each_distinct. simpl. split; [apply NoDup_nil_2 | done].
Qed.

Lemma refetch_count_each (cal : nat) (l : list nat) :
  NoDup l ->
  refetch_count cal (map Refetch l) = if bool_decide (cal ∈ l) then 1 else 0.
Proof.
  unfold refetch_count. induction l as [| c l IH]; intros Hnd.
  - done.
  - apply NoDup_cons in Hnd as [Hc Hnd]. specialize (IH Hnd).
    cbn [map List.filter]. destruct (Nat.eqb_spec c cal) as [-> | Hne]; cbn [length].
    + rewrite IH, (bool_decide_false _ Hc). rewrite bool_decide_true; [done |].
      apply list_elem_of_here.
    + rewrite IH. case_bool_decide as Hin.
      * rewrite bool_decide_true; [done | by apply list_elem_of_further].
      * rewrite bool_decide_false; [done |].
        intros Hin'. apply elem_of_cons in Hin' as [-> | Hin']; done.
Qed.

